(** * DEW water model stack of Reaktoro: a shallow embedding

    The C++ sources under [Reaktoro/Extensions/DEW] are embedded function by
    function.  A C++ [double] (and the autodiff [real]) is modelled by an
    exact rational [Q]; an [int] by [Z].  Comparisons are the boolean tests
    of [QArith]; [std::fabs] is [Qabs].  [std::pow] with an integral literal
    exponent is the exact integer power [^]; the remaining calls into libm
    ([std::exp], [std::log], [std::sqrt] and [std::pow] with a fractional or
    table-driven exponent) and the functions of upstream Reaktoro that the
    DEW extension only calls are variables of the sections below.
    [std::isfinite] is always true on [Q] and is dropped. *)

From Stdlib Require Import QArith Qabs Qround ZArith Lia Lqa Bool List
  Morphisms Setoid.
Import ListNotations.

Open Scope Q_scope.

(** ** Comparisons on [Q] as the C++ operators *)

Definition Qlt_bool (x y : Q) : bool := negb (Qle_bool y x).

Definition Qmax (x y : Q) : Q := if Qlt_bool x y then y else x.

(** ** Data model *)

(** [WaterThermoProps]: density and its partial derivatives (SI units). *)
Record WaterThermoProps : Type := mkWaterThermoProps {
  D   : Q;
  DP  : Q;
  DT  : Q;
  DTT : Q;
  DTP : Q;
  DPP : Q
}.

(** [WaterElectroProps]: permittivity, its derivatives, Born coefficients. *)
Record WaterElectroProps : Type := mkWaterElectroProps {
  epsilon   : Q;
  epsilonT  : Q;
  epsilonP  : Q;
  epsilonTT : Q;
  epsilonTP : Q;
  epsilonPP : Q;
  bornZ : Q;
  bornY : Q;
  bornQ : Q;
  bornN : Q;
  bornU : Q;
  bornX : Q
}.

Inductive WaterEosModel : Type :=
  | WagnerPruss
  | HGK
  | ZhangDuan2005
  | ZhangDuan2009.

Inductive WaterDielectricModel : Type :=
  | JohnsonNorton1991
  | Franck1990
  | Fernandez1997
  | PowerFunction.

Inductive WaterGibbsModel : Type :=
  | DelaneyHelgeson1978
  | DewIntegral.

Inductive WaterIntegrationMethod : Type :=
  | Trapezoidal
  | Simpson
  | GaussLegendre16
  | AdaptiveSimpson.

(** [WaterZhangDuan2009Options], defaults [false], [0.01], [50]. *)
Record WaterZhangDuan2009Options : Type := mkWaterZhangDuan2009Options {
  usePsat : bool;
  pressureToleranceBar : Q;
  maxIterations : Z
}.

Definition defaultZhangDuan2009Options : WaterZhangDuan2009Options :=
  {| usePsat := false; pressureToleranceBar := 0.01; maxIterations := 50 |}.

(** [WaterThermoModelOptions]; [densityTolerance] is the field that
    [gibbsDewIntegral_J_per_mol] overwrites before it calls the EOS. *)
Record WaterThermoModelOptions : Type := mkWaterThermoModelOptions {
  eosModel : WaterEosModel;
  thermo_usePsatPolynomials : bool;
  thermo_psatRelativeTolerance : Q;
  zhangDuan2009Options : WaterZhangDuan2009Options;
  thermo_densityTolerance : Q
}.

(** ** Zhang & Duan (2005): WaterEosZhangDuan2005.cpp *)

Module ZD05.

Definition M_H2O : Q := 18.01528.
Definition ZD05_R : Q := 83.144.
Definition ZD05_Vc : Q := 55.9480373.
Definition ZD05_Tc : Q := 647.25.

Definition bar_from_P_Pa (P_Pa : Q) : Q := P_Pa * 0.00001.
Definition rho_kg_m3_from_g_cm3 (rho_g_cm3 : Q) : Q := rho_g_cm3 * 1000.0.
Definition drho_kg_m3_per_Pa_from_g_cm3_per_bar (drho : Q) : Q := drho * 0.01.

Section WithExp.
Variable exp : Q -> Q.

Definition zd05_pressure_bar (rho_g_cm3 T_C : Q) : Q :=
  let T_K := T_C + 273.15 in
  let Vr := M_H2O / (rho_g_cm3 * ZD05_Vc) in
  let Tr := T_K / ZD05_Tc in
  let B := 0.349824207 - 2.91046273 / (Tr*Tr) + 2.00914688 / (Tr*Tr*Tr) in
  let C := 0.112819964 + 0.748997714 / (Tr*Tr) - 0.87320704 / (Tr*Tr*Tr) in
  let D := 0.0170609505 - 0.0146355822 / (Tr*Tr) + 0.0579768283 / (Tr*Tr*Tr) in
  let E := -0.000841246372 + 0.00495186474 / (Tr*Tr)
           - 0.00916248538 / (Tr*Tr*Tr) in
  let f := -0.100358152 / Tr in
  let g := -0.00182674744 * Tr in
  let delta :=
        1.0
      + B / Vr
      + C / (Vr*Vr)
      + D / Vr ^ 4
      + E / Vr ^ 5
      + (f / (Vr*Vr) + g / Vr ^ 4) * exp (-0.0105999998 / (Vr*Vr)) in
  ZD05_R * T_K * rho_g_cm3 * delta / M_H2O.

(** The body of [for(int iter = 0; iter < 50; ++iter)], by recursion on
    the number of iterations that remain. *)
Fixpoint zd05_density_loop (iters : nat) (P_bar_target T_C error_bar : Q)
    (rho_min rho_max rho : Q) : Q :=
  match iters with
  | O => rho
  | S iters' =>
      let P_bar := zd05_pressure_bar rho T_C in
      let diff := P_bar - P_bar_target in
      if Qle_bool (Qabs diff) error_bar then rho
      else if Qlt_bool 0.0 diff then
        zd05_density_loop iters' P_bar_target T_C error_bar
          rho_min rho (0.5 * (rho + rho_min))
      else
        zd05_density_loop iters' P_bar_target T_C error_bar
          rho rho_max (0.5 * (rho + rho_max))
  end.

Definition zd05_density_g_cm3 (P_bar_target T_C error_bar : Q) : Q :=
  let rho_min := 0.00001 in
  let rho_max := 2.5 in
  let rho := rho_min in
  zd05_density_loop 50 P_bar_target T_C error_bar rho_min rho_max rho.

Definition zd05_drhodP_g_cm3_per_bar (rho_g_cm3 T_C : Q) : Q :=
  let T_K := T_C + 273.15 in
  let Tr := T_K / ZD05_Tc in
  let cc := ZD05_Vc / M_H2O in
  let Vr := M_H2O / (rho_g_cm3 * ZD05_Vc) in
  let B := 0.349824207 - 2.91046273 / (Tr*Tr) + 2.00914688 / (Tr*Tr*Tr) in
  let C := 0.112819964 + 0.748997714 / (Tr*Tr) - 0.87320704 / (Tr*Tr*Tr) in
  let D := 0.0170609505 - 0.0146355822 / (Tr*Tr) + 0.0579768283 / (Tr*Tr*Tr) in
  let E := -0.000841246372 + 0.00495186474 / (Tr*Tr)
           - 0.00916248538 / (Tr*Tr*Tr) in
  let f := -0.100358152 / Tr in
  let g := 0.0105999998 * Tr in
  let Vr2 := Vr*Vr in
  let Vr4 := Vr2*Vr2 in
  let Vr5 := Vr4*Vr in
  let expterm := exp (-0.0105999998 / Vr2) in
  let delta :=
        1.0 + B / Vr + C / Vr2 + D / Vr4 + E / Vr5
      + (f / Vr2 + g / Vr4) * expterm in
  let rho := rho_g_cm3 in
  let kappa :=
        B * cc
      + 2.0 * C * (cc*cc) * rho
      + 4.0 * D * cc ^ 4 * rho ^ 3
      + 5.0 * E * cc ^ 5 * rho ^ 4
      + (   2.0 * f * (cc*cc) * rho
          + 4.0 * g * cc ^ 4 * rho ^ 3
          - (f / Vr2 + g / Vr4) * (2.0 * 0.0105999998 * (cc*cc) * rho)
        ) * expterm in
  M_H2O / (ZD05_R * T_K * (delta + rho * kappa)).

Definition waterThermoPropsZhangDuan2005 (T P densityTolerance : Q)
    : WaterThermoProps :=
  let T_K := T in
  let T_C := T_K - 273.15 in
  let P_bar := bar_from_P_Pa P in
  let rho_g_cm3 := zd05_density_g_cm3 P_bar T_C densityTolerance in
  let rho_kg_m3 := rho_kg_m3_from_g_cm3 rho_g_cm3 in
  let drho_g_cm3_per_bar := zd05_drhodP_g_cm3_per_bar rho_g_cm3 T_C in
  let drho_kg_m3_per_Pa :=
    drho_kg_m3_per_Pa_from_g_cm3_per_bar drho_g_cm3_per_bar in
  {| D := rho_kg_m3; DP := drho_kg_m3_per_Pa;
     DT := 0.0; DTT := 0.0; DTP := 0.0; DPP := 0.0 |}.

End WithExp.
End ZD05.

(** ** Zhang & Duan (2009): WaterEosZhangDuan2009.cpp *)

Module ZD09.

Definition ZD09_R : Q := 0.083145.
Definition ZD09_c1 : Q := 6.971118009.
Definition ZD09_c4 : Q := 1.0.
Definition H2O_M : Q := 18.01528.

Definition kelvinToCelsius (T : Q) : Q := T - 273.15.
Definition pascalToBar (P : Q) : Q := P * 0.00001.

Definition densityPsatPoly_DEW (T_C : Q) : Q :=
    -1.01023381581205e-104 * T_C ^ 40 +
    -1.13685997859530e-27  * T_C ^ 10 +
    -2.11689207168779e-11  * T_C ^ 4 +
     1.26878850169523e-08  * T_C ^ 3 +
    -4.92010672693621e-06  * T_C ^ 2 +
    -3.26665986126920e-05  * T_C +
     1.00046144613017.

Section WithExp.
Variable exp : Q -> Q.

Definition calculatePressure_ZD09 (rho_g_cm3 T_C : Q) : Q :=
  let m := H2O_M in
  let TK := T_C + 273.15 in
  let dm := 475.05656886 * rho_g_cm3 in
  let Vm := 0.0021050125 * (m / rho_g_cm3) in
  let Tm := 0.3019607843 * TK in
  let B := 0.029517729893 - 6337.56452413 / (Tm * Tm)
           - 275265.428882 / (Tm * Tm * Tm) in
  let C := 0.00129128089283 - 145.797416153 / (Tm * Tm)
           + 76593.8947237 / (Tm * Tm * Tm) in
  let D := 0.00000258661493537 + 0.52126532146 / (Tm * Tm)
           - 139.839523753 / (Tm * Tm * Tm) in
  let E := -0.0000000236335007175 + 0.00535026383543 / (Tm * Tm)
           - 0.27110649951 / (Tm * Tm * Tm) in
  let f := 25038.7836486 / (Tm * Tm * Tm) in
  let Vm2 := Vm * Vm in
  let Vm4 := Vm2 * Vm2 in
  let Vm5 := Vm4 * Vm in
  let expterm := exp (-0.015483335997 / Vm2) in
  let delta :=
        1.0 + B / Vm + C / Vm2 + D / Vm4 + E / Vm5
      + f / Vm2 * (0.73226726041 + 0.015483335997 / Vm2) * expterm in
  let Pm_bar := ZD09_R * Tm * delta / Vm in
  Pm_bar * ZD09_c1.

(** The body of [for (int i = 0; i < opts.maxIterations; ++i)]; [break]
    leaves the loop with the current [rho], which is then returned. *)
Fixpoint calculateDensity_loop (iters : nat) (P_bar T_C : Q)
    (opts : WaterZhangDuan2009Options) (minGuess maxGuess rho : Q) : Q :=
  match iters with
  | O => rho
  | S iters' =>
      let P_calc := calculatePressure_ZD09 rho T_C in
      let diff := P_calc - P_bar in
      if Qle_bool (Qabs diff) (pressureToleranceBar opts) then rho
      else if Qlt_bool P_bar P_calc then
        calculateDensity_loop iters' P_bar T_C opts
          minGuess rho (0.5 * (rho + minGuess))
      else
        calculateDensity_loop iters' P_bar T_C opts
          rho maxGuess (0.5 * (rho + maxGuess))
  end.

Definition calculateDensity_ZD09 (P_bar T_C : Q)
    (opts : WaterZhangDuan2009Options) : Q :=
  if usePsat opts then densityPsatPoly_DEW T_C
  else
    let minGuess := 0.00001 in
    let maxGuess := 7.5 * 2.0 - 5.0 in
    let rho := minGuess in
    calculateDensity_loop (Z.to_nat (maxIterations opts)) P_bar T_C opts
      minGuess maxGuess rho.

Definition calculate_drhodP_ZD09 (rho_g_cm3 T_C : Q) : Q :=
  let m := H2O_M in
  let TK := T_C + 273.15 in
  let dm := 475.05656886 * rho_g_cm3 in
  let Vm := 0.0021050125 * (m / rho_g_cm3) in
  let Tm := 0.3019607843 * TK in
  let B := 0.029517729893 - 6337.56452413 / (Tm * Tm)
           - 275265.428882 / (Tm * Tm * Tm) in
  let C := 0.00129128089283 - 145.797416153 / (Tm * Tm)
           + 76593.8947237 / (Tm * Tm * Tm) in
  let D := 0.00000258661493537 + 0.52126532146 / (Tm * Tm)
           - 139.839523753 / (Tm * Tm * Tm) in
  let E := -0.0000000236335007175 + 0.00535026383543 / (Tm * Tm)
           - 0.27110649951 / (Tm * Tm * Tm) in
  let f := 25038.7836486 / (Tm * Tm * Tm) in
  let Vm2 := Vm * Vm in
  let Vm4 := Vm2 * Vm2 in
  let Vm5 := Vm4 * Vm in
  let expterm := exp (-0.015483335997 / Vm2) in
  let delta :=
        1.0 + B / Vm + C / Vm2 + D / Vm4 + E / Vm5
      + f / Vm2 * (0.73226726041 + 0.015483335997 / Vm2) * expterm in
  let kappa :=
        B / m
      + 2.0 * C * dm / (m * m)
      + 4.0 * D * dm ^ 3 / m ^ 4
      + 5.0 * E * dm ^ 4 / m ^ 5
      + (   2.0 * f * dm / (m * m)
              * (0.73226726041 + 0.015483335997 / Vm2)
          + f / Vm2
              * (1.0 - 0.73226726041 - 0.015483335997 / Vm2)
              * (2.0 * 0.015483335997 * dm / (m * m))
        ) * expterm in
  ZD09_c1 * m / (ZD09_c4 * ZD09_R * Tm * (delta + dm * kappa)).

Definition waterThermoPropsZhangDuan2009 (T P : Q)
    (opts : WaterZhangDuan2009Options) : WaterThermoProps :=
  let T_C := kelvinToCelsius T in
  let P_bar := pascalToBar P in
  let rho_g_cm3 := calculateDensity_ZD09 P_bar T_C opts in
  let rho_kg_m3 := rho_g_cm3 * 1000.0 in
  let drho_dP_bar_g_cm3 := calculate_drhodP_ZD09 rho_g_cm3 T_C in
  {| D := rho_kg_m3; DP := drho_dP_bar_g_cm3 * 0.01;
     DT := 0.0; DTT := 0.0; DTP := 0.0; DPP := 0.0 |}.

End WithExp.
End ZD09.

(** ** Saturation-curve polynomials: WaterPsatPolynomialsDEW.cpp *)

Module PsatPolynomials.

Definition toCelsius (T_K : Q) : Q := T_K - 273.15.

Definition isValidForPsatPolys (T_C : Q) : bool := true.

Definition waterPsatDensityDEW (T_K : Q) : Q :=
  let T_C := toCelsius T_K in
  if negb (isValidForPsatPolys T_C) then 0.0
  else
    let T2 := T_C * T_C in
    let T3 := T2 * T_C in
    let T4 := T2 * T2 in
    let T10 := T_C ^ 10 in
    let T40 := T_C ^ 40 in
    let rho_g_cm3 :=
        -1.01023381581205e-104 * T40 +
        -1.1368599785953e-27   * T10 +
        -2.11689207168779e-11  * T4  +
         1.26878850169523e-08  * T3  +
        -4.92010672693621e-06  * T2  +
        -3.2666598612692e-05   * T_C +
         1.00046144613017 in
    rho_g_cm3 * 1000.0.

Definition waterPsatEpsilonDEW (T_K : Q) : Q :=
  let T_C := toCelsius T_K in
  if negb (isValidForPsatPolys T_C) then 0.0
  else
    let T2 := T_C * T_C in
    let T3 := T2 * T_C in
    let T30 := T_C ^ 30 in
    -1.66686763214295e-77 * T30 +
    -9.02887020379887e-07 * T3  +
     8.4590281449009e-04  * T2  +
    -0.396542037778945    * T_C +
     87.605024245432.

Definition waterPsatGibbsDEW (T_K : Q) : Q :=
  let T_C := toCelsius T_K in
  if negb (isValidForPsatPolys T_C) then 0.0
  else
    let T2 := T_C * T_C in
    let T3 := T2 * T_C in
    let T4 := T2 * T2 in
    let T10 := T_C ^ 10 in
    let T40 := T_C ^ 40 in
    let G_cal_mol :=
        -2.72980941772081e-103 * T40 +
         2.88918186300446e-25  * T10 +
        -2.21891314234246e-08  * T4  +
         3.0912103873633e-05   * T3  +
        -3.20873264480928e-02  * T2  +
        -15.169458452209       * T_C +
        -56289.0379433809 in
    G_cal_mol * 4.184.

Definition waterPsatBornQDEW (T_K : Q) : Q :=
  let T_C := toCelsius T_K in
  if negb (isValidForPsatPolys T_C) then 0.0
  else
    let T2 := T_C * T_C in
    let T3 := T2 * T_C in
    let T4 := T2 * T2 in
    let T5 := T4 * T_C in
    let T6 := T3 * T3 in
    let T20 := T_C ^ 20 in
    let poly :=
         1.99258688758345e-49 * T20 +
        -4.43690270750774e-14 * T6  +
         4.29110215680165e-11 * T5  +
        -1.07146606081182e-08 * T4  +
         1.09982931856694e-06 * T3  +
         9.60705240954956e-06 * T2  +
         0.642579832259358 in
    let Q_bar := poly * 0.000001 in
    Q_bar * 0.00001.

Section WithLibm.
Variables (exp log : Q -> Q).

Definition waterPsatDgdPDEW (T_K : Q) : Q :=
  let T_C := toCelsius T_K in
  if Qlt_bool T_C 0.01 then 0.0
  else
    let lnT := log T_C in
    let expo :=
          1.37105493109451e-10 * lnT ^ 15
        - 1.43605469318795e-06 * lnT ^ 10
        + 26.2649453651117     * lnT
        - 125.108856715714 in
    exp expo * 0.000001.

End WithLibm.
End PsatPolynomials.

(** ** EOS selector: WaterThermoModel.cpp *)

Module ThermoModel.

Definition dewPsatDensityLiquid_g_cm3_from_T (T_K : Q) : Q :=
  let T_C := T_K - 273.15 in
  let t2 := T_C * T_C in
  let t3 := t2 * T_C in
  let t4 := t2 * t2 in
  let t10 := T_C ^ 10 in
  let t40 := T_C ^ 40 in
  -1.01023381581205e-104 * t40 +
  -1.1368599785953e-27   * t10 +
  -2.11689207168779e-11  * t4  +
   1.26878850169523e-08  * t3  +
  -4.92010672693621e-06  * t2  +
  -3.2666598612692e-05   * T_C +
   1.00046144613017.

Section WithExternals.
(** libm *)
Variable exp : Q -> Q.
(** Upstream Reaktoro: the Wagner-Pruss saturation pressure, the two
    Helmholtz models and the conversion of their result. *)
Variable waterSaturationPressureWagnerPruss : Q -> Q.
Variable WaterHelmholtzProps : Type.
Variable waterHelmholtzPropsWagnerPruss : Q -> Q -> WaterHelmholtzProps.
Variable waterHelmholtzPropsHGK : Q -> Q -> WaterHelmholtzProps.
Variable waterThermoProps : Q -> Q -> WaterHelmholtzProps -> WaterThermoProps.

Definition isNearPsatWagnerPruss (T_K P_Pa relTol : Q) : bool :=
  if Qle_bool relTol 0.0 then false
  else
    let Psat := waterSaturationPressureWagnerPruss T_K in
    if negb (Qlt_bool 0.0 Psat) then false
    else
      let diff := Qabs (P_Pa - Psat) in
      Qle_bool diff (relTol * Psat).

Definition maybeApplyDewPsatOverride (T_K P_Pa : Q)
    (opt : WaterThermoModelOptions) (wt : WaterThermoProps)
    : WaterThermoProps :=
  if negb (thermo_usePsatPolynomials opt) then wt
  else
    match eosModel opt with
    | WagnerPruss | HGK => wt
    | ZhangDuan2005 | ZhangDuan2009 =>
        if negb (isNearPsatWagnerPruss T_K P_Pa
                   (thermo_psatRelativeTolerance opt)) then wt
        else
          let rho_g_cm3 := dewPsatDensityLiquid_g_cm3_from_T T_K in
          let rho_kg_m3 := rho_g_cm3 * 1000.0 in
          {| D := rho_kg_m3; DP := 0.0;
             DT := 0.0; DTT := 0.0; DTP := 0.0; DPP := 0.0 |}
    end.

(** The Zhang & Duan (2005) branch passes the density tolerance of the
    options, the third argument of [waterThermoPropsZhangDuan2005]. *)
Definition waterThermoPropsModel (T P : Q) (opt : WaterThermoModelOptions)
    : WaterThermoProps :=
  let T_K := T in
  let P_Pa := P in
  let wt :=
    match eosModel opt with
    | WagnerPruss =>
        let whp := waterHelmholtzPropsWagnerPruss T_K P_Pa in
        waterThermoProps T_K P_Pa whp
    | HGK =>
        let whp := waterHelmholtzPropsHGK T_K P_Pa in
        waterThermoProps T_K P_Pa whp
    | ZhangDuan2005 =>
        ZD05.waterThermoPropsZhangDuan2005 exp T_K P_Pa
          (thermo_densityTolerance opt)
    | ZhangDuan2009 =>
        ZD09.waterThermoPropsZhangDuan2009 exp T_K P_Pa
          (zhangDuan2009Options opt)
    end in
  maybeApplyDewPsatOverride T_K P_Pa opt wt.

End WithExternals.
End ThermoModel.

(** ** Water Gibbs energy: WaterGibbsModel.cpp *)

(** [WaterGibbsModelOptions] (WaterGibbsModel.hpp). *)
Record WaterGibbsModelOptions : Type := mkWaterGibbsModelOptions {
  model : WaterGibbsModel;
  thermo : WaterThermoModelOptions;
  usePsatPolynomials : bool;
  psatRelativeTolerance : Q;
  integrationMethod : WaterIntegrationMethod;
  integrationSteps : Z;
  useExcelIntegration : bool;
  adaptiveIntegrationTolerance : Q;
  maxAdaptiveSubdivisions : Z;
  densityTolerance : Q
}.

(** The quotient [M / wt.D] of the integrators is a checked division: it
    has no value when the density is not strictly positive.  The integrators
    therefore live in the [option] monad, and a guard of the source is
    visible as the absence of [None]. *)
Definition div_density (M rho : Q) : option Q :=
  if Qlt_bool 0.0 rho then Some (M / rho) else None.

Definition ret {A : Type} (a : A) : option A := Some a.

Definition bind {A B : Type} (m : option A) (k : A -> option B) : option B :=
  match m with
  | Some a => k a
  | None => None
  end.

Notation "x <- m ;; k" := (bind m (fun x => k))
  (at level 61, m at next level, right associativity).

(** [for (int i = i0; cond(i); i += step) acc = body(i, acc)].  [fuel]
    bounds the number of iterations; a loop that would still run when the
    fuel is spent has no value. *)
Fixpoint for_loop {A : Type} (fuel : nat) (i step : Z) (cond : Z -> bool)
    (body : Z -> A -> option A) (acc : A) : option A :=
  match fuel with
  | O => if cond i then None else ret acc
  | S fuel' =>
      if cond i then
        acc' <- body i acc ;;
        for_loop fuel' (i + step)%Z step cond body acc'
      else ret acc
  end.

Module GibbsModel.

Definition toCelsius (T_K : Q) : Q := T_K - 273.15.

(** Coefficients [c[idx]] in the order of the double loop over [j], [k]. *)
Definition delaneyHelgeson_terms : list (Z * Z * Q) :=
  [ (0%Z, 0%Z, -56130.073); (0%Z, 1%Z, 0.38101798);
    (0%Z, 2%Z, -2.1167697e-6); (0%Z, 3%Z, 2.0266445e-11);
    (0%Z, 4%Z, -8.3225572e-17);
    (1%Z, 0%Z, -15.285559); (1%Z, 1%Z, 1.375239e-4);
    (1%Z, 2%Z, -1.5586868e-9); (1%Z, 3%Z, 6.6329577e-15);
    (2%Z, 0%Z, -0.026092451); (2%Z, 1%Z, 3.5988857e-8);
    (2%Z, 2%Z, -2.7916588e-14);
    (3%Z, 0%Z, 1.7140501e-5); (3%Z, 1%Z, -1.6860893e-11);
    (4%Z, 0%Z, -6.0126987e-9) ].

Definition gibbsDelaneyHelgeson1978_J_per_mol (T_K P_Pa : Q) : Q :=
  let T_C := toCelsius T_K in
  let P_bar := P_Pa * 0.00001 in
  let G_cal :=
    fold_left
      (fun G_cal '(j, k, c) => G_cal + c * T_C ^ j * P_bar ^ k)
      delaneyHelgeson_terms 0.0 in
  G_cal * 4.184.

Definition GaussLegendre16_N : Z := 16.

Definition GaussLegendre16_nodes : list Q :=
  [ -0.9894009349916500; -0.9445750230732326; -0.8656312023878921;
    -0.7554044083550030; -0.6178762444026437; -0.4545454545454545;
    -0.2736629541353671; -0.0914297953593871;
     0.0914297953593871;  0.2736629541353671;  0.4545454545454545;
     0.6178762444026437;  0.7554044083550030;  0.8656312023878921;
     0.9445750230732326;  0.9894009349916500 ].

Definition GaussLegendre16_weights : list Q :=
  [ 0.0271524594117540; 0.0622535239386479; 0.0951585116824927;
    0.1246289712555339; 0.1495959888165767; 0.1691423829631435;
    0.1826034150449235; 0.1894506104550585;
    0.1894506104550585; 0.1826034150449235; 0.1691423829631435;
    0.1495959888165767; 0.1246289712555339; 0.0951585116824927;
    0.0622535239386479; 0.0271524594117540 ].

Definition GAtOneKb_cal_per_mol (T_C : Q) : Q :=
    0.0000000026880734 * T_C ^ 4 +
    0.00000063163061   * T_C ^ 3 -
    0.019372355        * (T_C * T_C) -
    16.945093          * T_C -
    55769.287.

Section WithExternals.
Variable exp : Q -> Q.
Variable waterSaturationPressureWagnerPruss : Q -> Q.
Variable WaterHelmholtzProps : Type.
Variable waterHelmholtzPropsWagnerPruss : Q -> Q -> WaterHelmholtzProps.
Variable waterHelmholtzPropsHGK : Q -> Q -> WaterHelmholtzProps.
Variable waterThermoProps : Q -> Q -> WaterHelmholtzProps -> WaterThermoProps.

Definition waterThermoPropsModel : Q -> Q -> WaterThermoModelOptions
    -> WaterThermoProps :=
  ThermoModel.waterThermoPropsModel exp waterSaturationPressureWagnerPruss
    WaterHelmholtzProps waterHelmholtzPropsWagnerPruss waterHelmholtzPropsHGK
    waterThermoProps.

Definition saturationPressure (T_K : Q) : Q :=
  waterSaturationPressureWagnerPruss T_K.

Definition isNearPsat (T_K P_Pa relTol : Q) : bool :=
  if Qle_bool relTol 0.0 then false
  else
    let Psat := saturationPressure T_K in
    if negb (Qlt_bool 0.0 Psat) then false
    else
      let diff := Qabs (P_Pa - Psat) in
      Qle_bool diff (relTol * Psat).

Definition simpsonRule (T_K P_start_Pa P_end_Pa : Q) (nsteps : Z)
    (thermoWithTol : WaterThermoModelOptions) (M : Q) : option Q :=
  let nsteps := if negb (Z.rem nsteps 2 =? 0)%Z then (nsteps + 1)%Z
                else nsteps in
  let h := (P_end_Pa - P_start_Pa) / inject_Z nsteps in
  let wt := waterThermoPropsModel T_K P_start_Pa thermoWithTol in
  Vm_left <- (if Qlt_bool 0.0 (D wt) then div_density M (D wt)
              else ret 0.0) ;;
  let sum := Vm_left in
  sum <- for_loop (Z.to_nat nsteps) 1 2 (fun i => (i <? nsteps)%Z)
           (fun i sum =>
              let wt := waterThermoPropsModel T_K
                          (P_start_Pa + inject_Z i * h) thermoWithTol in
              Vm <- (if Qlt_bool 0.0 (D wt) then div_density M (D wt)
                     else ret 0.0) ;;
              ret (sum + 4.0 * Vm))
           sum ;;
  sum <- for_loop (Z.to_nat nsteps) 2 2 (fun i => (i <? nsteps)%Z)
           (fun i sum =>
              let wt := waterThermoPropsModel T_K
                          (P_start_Pa + inject_Z i * h) thermoWithTol in
              Vm <- (if Qlt_bool 0.0 (D wt) then div_density M (D wt)
                     else ret 0.0) ;;
              ret (sum + 2.0 * Vm))
           sum ;;
  let wt := waterThermoPropsModel T_K P_end_Pa thermoWithTol in
  Vm_right <- (if Qlt_bool 0.0 (D wt) then div_density M (D wt)
               else ret 0.0) ;;
  let sum := sum + Vm_right in
  ret ((h / 3.0) * sum).

Definition gaussLegendre16 (T_K P_start_Pa P_end_Pa : Q) (nsegments : Z)
    (thermoWithTol : WaterThermoModelOptions) (M : Q) : option Q :=
  let segment_width := (P_end_Pa - P_start_Pa) / inject_Z nsegments in
  for_loop (Z.to_nat nsegments) 0 1 (fun seg => (seg <? nsegments)%Z)
    (fun seg integral =>
       let P_seg_start := P_start_Pa + inject_Z seg * segment_width in
       let P_seg_end := P_seg_start + segment_width in
       let center := (P_seg_start + P_seg_end) / 2.0 in
       let half_width := segment_width / 2.0 in
       seg_integral <-
         for_loop 16 0 1 (fun i => (i <? GaussLegendre16_N)%Z)
           (fun i seg_integral =>
              let P_node := center + half_width
                            * nth (Z.to_nat i) GaussLegendre16_nodes 0 in
              let wt := waterThermoPropsModel T_K P_node thermoWithTol in
              Vm <- (if Qlt_bool 0.0 (D wt) then div_density M (D wt)
                     else ret 0.0) ;;
              ret (seg_integral
                   + nth (Z.to_nat i) GaussLegendre16_weights 0 * Vm))
           0.0 ;;
       ret (integral + half_width * seg_integral))
    0.0.

(** The recursion of [adaptiveSimpsonsHelper] ends because [current_depth]
    grows by one up to [max_depth + 1]; [fuel] bounds the number of nested
    calls, a call without fuel has no value, and [adaptiveSimpson] supplies
    enough of it for the levels [0 .. max_depth + 1]. *)
Fixpoint adaptiveSimpsonsHelper (fuel : nat) (T_K P_L P_R tol : Q)
    (max_depth current_depth : Z) (thermoWithTol : WaterThermoModelOptions)
    (M Vm_L Vm_R : Q) : option Q :=
  match fuel with
  | O => None
  | S fuel' =>
      if (max_depth <? current_depth)%Z then ret 0.0
      else
        let P_mid := (P_L + P_R) / 2.0 in
        let wt_mid := waterThermoPropsModel T_K P_mid thermoWithTol in
        Vm_mid <- (if Qlt_bool 0.0 (D wt_mid)
                   then div_density M (D wt_mid) else ret 0.0) ;;
        let h := (P_R - P_L) / 6.0 in
        let S := h * (Vm_L + 4.0 * Vm_mid + Vm_R) in
        let error_estimator := Qabs (Vm_mid - 0.5 * (Vm_L + Vm_R)) in
        if Qle_bool error_estimator tol then ret S
        else
          let P_left_mid := (P_L + P_mid) / 2.0 in
          let wt_left_mid :=
            waterThermoPropsModel T_K P_left_mid thermoWithTol in
          Vm_left_mid <- (if Qlt_bool 0.0 (D wt_left_mid)
                          then div_density M (D wt_left_mid)
                          else ret 0.0) ;;
          let P_right_mid := (P_mid + P_R) / 2.0 in
          let wt_right_mid :=
            waterThermoPropsModel T_K P_right_mid thermoWithTol in
          Vm_right_mid <- (if Qlt_bool 0.0 (D wt_right_mid)
                           then div_density M (D wt_right_mid)
                           else ret 0.0) ;;
          left_integral <-
            adaptiveSimpsonsHelper fuel' T_K P_L P_mid (tol / 2.0)
              max_depth (current_depth + 1)%Z thermoWithTol M Vm_L Vm_mid ;;
          right_integral <-
            adaptiveSimpsonsHelper fuel' T_K P_mid P_R (tol / 2.0)
              max_depth (current_depth + 1)%Z thermoWithTol M Vm_mid Vm_R ;;
          ret (left_integral + right_integral)
  end.

Definition adaptiveSimpson (T_K P_start_Pa P_end_Pa tol : Q) (max_depth : Z)
    (thermoWithTol : WaterThermoModelOptions) (M : Q) : option Q :=
  let wt_start := waterThermoPropsModel T_K P_start_Pa thermoWithTol in
  Vm_start <- (if Qlt_bool 0.0 (D wt_start)
               then div_density M (D wt_start) else ret 0.0) ;;
  let wt_end := waterThermoPropsModel T_K P_end_Pa thermoWithTol in
  Vm_end <- (if Qlt_bool 0.0 (D wt_end)
             then div_density M (D wt_end) else ret 0.0) ;;
  adaptiveSimpsonsHelper (S (Z.to_nat (max_depth + 1))) T_K P_start_Pa P_end_Pa
    tol max_depth 0 thermoWithTol M Vm_start Vm_end.

(** The Excel-compatible loop
    [for (double Pstep_bar = 1000.0; Pstep_bar <= P_bar + 1e-9;
          Pstep_bar += spacing_bar)]. *)
Fixpoint excelIntegration_loop (fuel : nat) (T_K P_bar spacing_bar
    spacing_Pa M : Q) (thermoWithTol : WaterThermoModelOptions)
    (Pstep_bar G_int_J : Q) : option Q :=
  match fuel with
  | O => if Qle_bool Pstep_bar (P_bar + 0.000000001) then None
         else ret G_int_J
  | S fuel' =>
      if Qle_bool Pstep_bar (P_bar + 0.000000001) then
        let Pstep_Pa := Pstep_bar * 100000.0 in
        let wt := waterThermoPropsModel T_K Pstep_Pa thermoWithTol in
        if Qle_bool (D wt) 0.0 then
          excelIntegration_loop fuel' T_K P_bar spacing_bar spacing_Pa M
            thermoWithTol (Pstep_bar + spacing_bar) G_int_J
        else
          Vm <- div_density M (D wt) ;;
          excelIntegration_loop fuel' T_K P_bar spacing_bar spacing_Pa M
            thermoWithTol (Pstep_bar + spacing_bar)
            (G_int_J + Vm * spacing_Pa)
      else ret G_int_J
  end.

(** The body of the Trapezoidal loop [for (int i = 1; i <= nsteps; ++i)]
    on the pair [(G_int_J, Vm_prev)]; [continue] leaves the pair as it
    is. *)
Definition trapezoidal_step (T_K P_start_Pa dP M : Q)
    (thermoWithTol : WaterThermoModelOptions) (i : Z) (st : Q * Q)
    : option (Q * Q) :=
  let '(G_int_J, Vm_prev) := st in
  let Pstep_Pa := P_start_Pa + inject_Z i * dP in
  let wt := waterThermoPropsModel T_K Pstep_Pa thermoWithTol in
  if Qle_bool (D wt) 0.0 then ret (G_int_J, Vm_prev)
  else
    Vm <- div_density M (D wt) ;;
    ret (G_int_J + 0.5 * (Vm_prev + Vm) * dP, Vm).

Definition gibbsDewIntegral_J_per_mol (T_K P_Pa : Q)
    (thermo : WaterThermoModelOptions) (opt : WaterGibbsModelOptions)
    : option Q :=
  let T_C := toCelsius T_K in
  let P_bar := P_Pa * 0.00001 in
  if Qlt_bool P_bar 1000.0 then ret 0.0
  else
    let G1k_cal := GAtOneKb_cal_per_mol T_C in
    if Qeq_bool P_bar 1000.0 then ret (G1k_cal * 4.184)
    else
      let M := 0.01801528 in
      let thermoWithTol :=
        {| eosModel := eosModel thermo;
           thermo_usePsatPolynomials := thermo_usePsatPolynomials thermo;
           thermo_psatRelativeTolerance :=
             thermo_psatRelativeTolerance thermo;
           zhangDuan2009Options := zhangDuan2009Options thermo;
           thermo_densityTolerance := densityTolerance opt |} in
      G_int_J <-
        (if useExcelIntegration opt then
           let spacing_bar := Qmax 1.0 ((P_bar - 1000.0) / 5000.0) in
           let spacing_Pa := spacing_bar * 100000.0 in
           excelIntegration_loop (Z.to_nat 5001) T_K P_bar spacing_bar
             spacing_Pa M thermoWithTol 1000.0 0.0
         else
           let P_start_Pa := 1000.0 * 100000.0 in
           match integrationMethod opt with
           | Trapezoidal =>
               let nsteps := integrationSteps opt in
               let dP := (P_Pa - P_start_Pa) / inject_Z nsteps in
               let wt_prev :=
                 waterThermoPropsModel T_K P_start_Pa thermoWithTol in
               Vm_prev <- (if Qlt_bool 0.0 (D wt_prev)
                           then div_density M (D wt_prev) else ret 0.0) ;;
               st <- for_loop (Z.to_nat nsteps) 1 1
                       (fun i => (i <=? nsteps)%Z)
                       (trapezoidal_step T_K P_start_Pa dP M thermoWithTol)
                       (0.0, Vm_prev) ;;
               ret (fst st)
           | Simpson =>
               simpsonRule T_K P_start_Pa P_Pa (integrationSteps opt)
                 thermoWithTol M
           | GaussLegendre16 =>
               let nsegments :=
                 Z.max 1 (Z.quot (integrationSteps opt) 16) in
               gaussLegendre16 T_K P_start_Pa P_Pa nsegments thermoWithTol M
           | AdaptiveSimpson =>
               adaptiveSimpson T_K P_start_Pa P_Pa
                 (adaptiveIntegrationTolerance opt)
                 (maxAdaptiveSubdivisions opt) thermoWithTol M
           end) ;;
      let G_total_J := G1k_cal * 4.184 + G_int_J in
      ret G_total_J.

Definition maybeOverrideWithPsatGibbs (T_K P_Pa : Q)
    (opt : WaterGibbsModelOptions) (currentG_J_per_mol : Q) : Q :=
  if negb (usePsatPolynomials opt) then currentG_J_per_mol
  else if negb (isNearPsat T_K P_Pa (psatRelativeTolerance opt))
  then currentG_J_per_mol
  else PsatPolynomials.waterPsatGibbsDEW T_K.

Definition waterGibbsModel (T P : Q) (opt : WaterGibbsModelOptions)
    : option Q :=
  let T_K := T in
  let P_Pa := P in
  G_J_per_mol <-
    match model opt with
    | DelaneyHelgeson1978 =>
        ret (gibbsDelaneyHelgeson1978_J_per_mol T_K P_Pa)
    | DewIntegral =>
        gibbsDewIntegral_J_per_mol T_K P_Pa (thermo opt) opt
    end ;;
  ret (maybeOverrideWithPsatGibbs T_K P_Pa opt G_J_per_mol).

End WithExternals.
End GibbsModel.

(** ** Water Gibbs energy, Excel-compatible integration only:
    Reaktoro/Extensions/DEW/WaterGibbsModel.cpp *)

Module GibbsModelExcel.

Definition toCelsius (T_K : Q) : Q := T_K - 273.15.

Definition GAtOneKb_cal_per_mol (T_C : Q) : Q :=
    0.0000000026880734 * T_C ^ 4 +
    0.00000063163061   * T_C ^ 3 -
    0.019372355        * (T_C * T_C) -
    16.945093          * T_C -
    55769.287.

Section WithExternals.
Variable exp : Q -> Q.
Variable waterSaturationPressureWagnerPruss : Q -> Q.
Variable WaterHelmholtzProps : Type.
Variable waterHelmholtzPropsWagnerPruss : Q -> Q -> WaterHelmholtzProps.
Variable waterHelmholtzPropsHGK : Q -> Q -> WaterHelmholtzProps.
Variable waterThermoProps : Q -> Q -> WaterHelmholtzProps -> WaterThermoProps.

Definition waterThermoPropsModel : Q -> Q -> WaterThermoModelOptions
    -> WaterThermoProps :=
  ThermoModel.waterThermoPropsModel exp waterSaturationPressureWagnerPruss
    WaterHelmholtzProps waterHelmholtzPropsWagnerPruss waterHelmholtzPropsHGK
    waterThermoProps.

(** [for (double Pstep_bar = 1000.0; Pstep_bar <= P_bar + 1e-9;
          Pstep_bar += spacing_bar)]. *)
Fixpoint integration_loop (fuel : nat) (T_K P_bar spacing_bar spacing_Pa
    M : Q) (thermo : WaterThermoModelOptions) (Pstep_bar G_int_J : Q)
    : option Q :=
  match fuel with
  | O => if Qle_bool Pstep_bar (P_bar + 0.000000001) then None
         else ret G_int_J
  | S fuel' =>
      if Qle_bool Pstep_bar (P_bar + 0.000000001) then
        let Pstep_Pa := Pstep_bar * 100000.0 in
        let wt := waterThermoPropsModel T_K Pstep_Pa thermo in
        if Qle_bool (D wt) 0.0 then
          integration_loop fuel' T_K P_bar spacing_bar spacing_Pa M thermo
            (Pstep_bar + spacing_bar) G_int_J
        else
          Vm <- div_density M (D wt) ;;
          integration_loop fuel' T_K P_bar spacing_bar spacing_Pa M thermo
            (Pstep_bar + spacing_bar) (G_int_J + Vm * spacing_Pa)
      else ret G_int_J
  end.

Definition gibbsDewIntegral_J_per_mol (T_K P_Pa : Q)
    (thermo : WaterThermoModelOptions) : option Q :=
  let T_C := toCelsius T_K in
  let P_bar := P_Pa * 0.00001 in
  if Qlt_bool P_bar 1000.0 then ret 0.0
  else
    let G1k_cal := GAtOneKb_cal_per_mol T_C in
    if Qeq_bool P_bar 1000.0 then ret (G1k_cal * 4.184)
    else
      let M := 0.01801528 in
      let spacing_bar := Qmax 20.0 ((P_bar - 1000.0) / 500.0) in
      let spacing_Pa := spacing_bar * 100000.0 in
      G_int_J <- integration_loop (Z.to_nat 501) T_K P_bar spacing_bar
                   spacing_Pa M thermo 1000.0 0.0 ;;
      let G_total_J := G1k_cal * 4.184 + G_int_J in
      ret G_total_J.

End WithExternals.
End GibbsModelExcel.

(** ** Solvent function g: WaterSolventFunctionDEW.cpp *)

Record WaterSolventFunctionOptions : Type := mkWaterSolventFunctionOptions {
  Psat : bool;
  densityEquation : Z
}.

Module SolventFunction.

Definition toCelsius (T_K : Q) : Q := T_K - 273.15.
Definition rho_si_to_g_cm3 (rho_si : Q) : Q := rho_si / 1000.0.
Definition drho_si_dP_to_g_cm3_per_bar (DP_si : Q) : Q := DP_si * 100.0.

Section WithExternals.
Variables (exp log : Q -> Q) (pow : Q -> Q -> Q).
Variable waterSaturationPressureWagnerPruss : Q -> Q.

Definition waterSolventFunctionDEW (T P : Q) (wt : WaterThermoProps)
    (opt : WaterSolventFunctionOptions) : Q :=
  let T_K := T in
  let T_C := toCelsius T_K in
  if Psat opt then
    let rho_psat_kg_m3 := PsatPolynomials.waterPsatDensityDEW T_K in
    let rho_psat_g_cm3 := rho_psat_kg_m3 / 1000.0 in
    if Qle_bool 1.0 rho_psat_g_cm3 then 0.0
    else
      let Psat_Pa := waterSaturationPressureWagnerPruss T_K in
      let Psat_bar := Psat_Pa * 0.00001 in
      let a_g := -2.037662 + 0.005747 * T_C - 0.000006557892 * T_C * T_C in
      let b_g := 6.107361 - 0.01074377 * T_C + 0.00001268348 * T_C * T_C in
      let f :=
        if Qle_bool Psat_bar 1000.0 && Qle_bool 155.0 T_C
           && Qle_bool T_C 355.0
        then
          let x := (T_C - 155.0) / 300.0 in
          let x_4_8 := pow x 4.8 in
          let x_16 := x ^ 16 in
          (x_4_8 + 36.66666 * x_16) *
          (-0.0000000001504956 * (1000.0 - Psat_bar) ^ 3
           + 0.00000000000005017997 * (1000.0 - Psat_bar) ^ 4)
        else 0.0 in
      let one_minus_rho := 1.0 - rho_psat_g_cm3 in
      a_g * pow one_minus_rho b_g - f
  else
    let P_bar := P * 0.00001 in
    let rho_g := rho_si_to_g_cm3 (D wt) in
    if Qle_bool 1.0 rho_g then 0.0
    else
      let a_g := -2.037662 + 0.005747 * T_C - 0.000006557892 * T_C * T_C in
      let b_g := 6.107361 - 0.01074377 * T_C + 0.00001268348 * T_C * T_C in
      let f :=
        if Qle_bool P_bar 1000.0 && Qle_bool 155.0 T_C
           && Qle_bool T_C 355.0
        then
          let x := (T_C - 155.0) / 300.0 in
          let x_4_8 := pow x 4.8 in
          let x_16 := x ^ 16 in
          (x_4_8 + 36.66666 * x_16) *
          (-0.0000000001504956 * (1000.0 - P_bar) ^ 3
           + 0.00000000000005017997 * (1000.0 - P_bar) ^ 4)
        else 0.0 in
      let one_minus_rho := 1.0 - rho_g in
      a_g * pow one_minus_rho b_g - f.

Definition waterSolventFunctionDgdP_DEW (T P : Q) (wt : WaterThermoProps)
    (g : Q) (opt : WaterSolventFunctionOptions) : Q :=
  let T_K := T in
  let T_C := toCelsius T_K in
  if Psat opt then PsatPolynomials.waterPsatDgdPDEW exp log T_K
  else
    let P_bar := P * 0.00001 in
    let rho_g := rho_si_to_g_cm3 (D wt) in
    if Qle_bool 1.0 rho_g then 0.0
    else
      let b_g := 6.107361 - 0.01074377 * T_C + 0.00001268348 * T_C * T_C in
      let dfdP_bar :=
        if Qle_bool P_bar 1000.0 && Qle_bool 155.0 T_C
           && Qle_bool T_C 355.0
        then
          let x := (T_C - 155.0) / 300.0 in
          let x_4_8 := pow x 4.8 in
          let x_16 := x ^ 16 in
          - (x_4_8 + 36.66666 * x_16) *
            (3.0 * -0.0000000001504956 * (1000.0 - P_bar) ^ 2
             + 4.0 * 0.00000000000005017997 * (1000.0 - P_bar) ^ 3)
        else 0.0 in
      let drho_g_dP_bar := drho_si_dP_to_g_cm3_per_bar (DP wt) in
      let one_minus_rho := 1.0 - rho_g in
      let dgdP_bar :=
        - b_g * drho_g_dP_bar * g / one_minus_rho - dfdP_bar in
      dgdP_bar * 0.00001.

End WithExternals.
End SolventFunction.

(** ** Born omega: WaterBornOmegaDEW.cpp *)

Record WaterBornOmegaOptions : Type := mkWaterBornOmegaOptions {
  solvent : WaterSolventFunctionOptions;
  isHydrogenLike : bool;
  maxPressureForVariation : Q
}.

Definition defaultWaterBornOmegaOptions : WaterBornOmegaOptions :=
  {| solvent := {| Psat := false; densityEquation := 0 |};
     isHydrogenLike := false;
     maxPressureForVariation := 600000000.0 |}.

Module BornOmega.

Definition eta_cal_per_A : Q := 166027.0.

Section WithExternals.
Variables (exp log : Q -> Q) (pow : Q -> Q -> Q).
Variable waterSaturationPressureWagnerPruss : Q -> Q.

Definition compute_g (T P : Q) (wt : WaterThermoProps)
    (opt : WaterBornOmegaOptions) : Q :=
  SolventFunction.waterSolventFunctionDEW pow
    waterSaturationPressureWagnerPruss T P wt (solvent opt).

Definition compute_dgdP (T P : Q) (wt : WaterThermoProps) (g : Q)
    (opt : WaterBornOmegaOptions) : Q :=
  SolventFunction.waterSolventFunctionDgdP_DEW exp log pow T P wt g
    (solvent opt).

Definition waterBornOmegaDEW (T P : Q) (wt : WaterThermoProps)
    (wref_Jmol Z : Q) (opt : WaterBornOmegaOptions) : Q :=
  if Qeq_bool Z 0.0 || isHydrogenLike opt
     || Qlt_bool (maxPressureForVariation opt) P
  then wref_Jmol
  else
    let wref_cal := wref_Jmol / 4.184 in
    let denom := (wref_cal / eta_cal_per_A) + Z / 3.082 in
    if Qeq_bool denom 0.0 then wref_Jmol
    else
      let reref_A := (Z * Z) / denom in
      let g := compute_g T P wt opt in
      let re_A := reref_A + Qabs Z * g in
      if Qle_bool re_A 0.0 then wref_Jmol
      else
        let omega_cal :=
          eta_cal_per_A * ((Z * Z) / re_A - Z / (3.082 + g)) in
        let omega_J := omega_cal * 4.184 in
        omega_J.

Definition waterBornDOmegaDP_DEW (T P : Q) (wt : WaterThermoProps)
    (wref_Jmol Z : Q) (opt : WaterBornOmegaOptions) : Q :=
  if Qeq_bool Z 0.0 || isHydrogenLike opt
     || Qlt_bool (maxPressureForVariation opt) P
  then 0.0
  else
    let wref_cal := wref_Jmol / 4.184 in
    let denom := (wref_cal / eta_cal_per_A) + Z / 3.082 in
    if Qeq_bool denom 0.0 then 0.0
    else
      let reref_A := (Z * Z) / denom in
      let g := compute_g T P wt opt in
      let dgdP := compute_dgdP T P wt g opt in
      let re_A := reref_A + Qabs Z * g in
      if Qle_bool re_A 0.0 then 0.0
      else
        let term :=
            Qabs Z ^ 3 / (re_A * re_A)
          - Z / ((3.082 + g) * (3.082 + g)) in
        let domega_dP_cal_per_Pa := - eta_cal_per_A * term * dgdP in
        let domega_dP_J_per_Pa := domega_dP_cal_per_Pa * 4.184 in
        domega_dP_J_per_Pa.

End WithExternals.
End BornOmega.

(** ** Dielectric models *)

(** *** Franck et al. (1990): WaterDielectricFranck1990.cpp *)

Module Franck.

Definition pi : Q := 3.14159265358979.
Definition omega : Q := 0.0000000268.
Definition kB : Q := 1.380648e-16.
Definition Na : Q := 6.022e23.
Definition mu : Q := 2.33e-18.

Definition density_si_to_g_cm3 (rho_si : Q) : Q := rho_si / 1000.0.

Definition epsilon_franck (T rho_g_cm3 : Q) : Q :=
  let TK := T in
  let rho_mol_cm3 := rho_g_cm3 * 0.055508 in
  let cc := omega ^ 3 * Na in
  let rhostar := rho_mol_cm3 * cc in
  let mustarsq := (mu * mu) / (kB * TK * omega ^ 3) in
  let y := (4.0 * pi / 9.0) * rhostar * mustarsq in
  let f1 := 0.4341 * rhostar ^ 2 in
  let f2 := - (0.05 + 0.75 * rhostar ^ 3) in
  let f3 := -0.026 * rhostar ^ 2 + 0.173 * rhostar ^ 4 in
  let one_minus_f1y := 1.0 - f1 * y in
  let term := 1.0 + (1.0 - f1) * y + f2 * y * y + f3 * y * y * y in
  ((3.0 * y) / one_minus_f1y) * term + 1.0.

Definition depsdrho_franck (T rho_g_cm3 : Q) : Q :=
  let TK := T in
  let density_mol_cm3 := rho_g_cm3 * 0.055508 in
  let cc := omega ^ 3 * Na in
  let rhostar := density_mol_cm3 * cc in
  let mustarsq := (mu * mu) / (kB * TK * omega ^ 3) in
  let y := (4.0 * pi / 9.0) * rhostar * mustarsq in
  let f1 := 0.4341 * rhostar ^ 2 in
  let f2 := - (0.05 + 0.75 * rhostar ^ 3) in
  let f3 := -0.026 * rhostar ^ 2 + 0.173 * rhostar ^ 4 in
  let dydrho := (4.0 * pi / 9.0) * mustarsq * cc in
  let df1drho := 2.0 * 0.4341 * cc ^ 2 * density_mol_cm3 in
  let df2drho := -3.0 * 0.75 * cc ^ 3 * density_mol_cm3 ^ 2 in
  let df3drho :=
      -2.0 * 0.026 * cc ^ 2 * density_mol_cm3
    + 4.0 * 0.173 * cc ^ 4 * density_mol_cm3 ^ 3 in
  let eps := epsilon_franck T rho_g_cm3 in
  let one_minus_f1y := 1.0 - f1 * y in
  let term1 :=
    ((dydrho + y * y * df1drho) / one_minus_f1y) * (eps - 1.0) / y in
  let term2 :=
    (3.0 * y / one_minus_f1y) *
    ( - df1drho * y
      + df2drho * y * y
      + df3drho * y * y * y
      + (1.0 - f1 + 2.0 * f2 * y + 3.0 * f3 * y * y) * dydrho ) in
  0.05508 * (term1 + term2).

Definition waterElectroPropsFranck1990 (T P : Q) (wt : WaterThermoProps)
    : WaterElectroProps :=
  let rho_si := D wt in
  let rho_g_cm3 := density_si_to_g_cm3 rho_si in
  let eps := epsilon_franck T rho_g_cm3 in
  let deps_drho_g := depsdrho_franck T rho_g_cm3 in
  let drho_g_dP_SI := DP wt / 1000.0 in
  let epsP := deps_drho_g * drho_g_dP_SI in
  {| epsilon := eps;
     epsilonT := 0.0; epsilonP := epsP;
     epsilonTT := 0.0; epsilonTP := 0.0; epsilonPP := 0.0;
     bornZ := -1.0 / eps;
     bornY := 0.0;
     bornQ := if negb (Qeq_bool eps 0.0) then epsP / (eps * eps) else 0.0;
     bornN := 0.0; bornU := 0.0; bornX := 0.0 |}.

End Franck.

(** *** Fernandez et al. (1997): WaterDielectricFernandez1997.cpp *)

Module Fernandez.

Definition avogadro : Q := 6.0221367e23.
Definition dipole : Q := 6.138e-30.
Definition epsilon0 : Q := 8.8541878176204e-12.
Definition boltzmann : Q := 1.380658e-23.
Definition alpha : Q := 1.636e-40.
Definition density_c : Q := 17873.728.
Definition T_c : Q := 647.096.

Definition density_si_to_g_cm3 (rho_si : Q) : Q := rho_si / 1000.0.

Definition N_k : list Q :=
  [ 0.978224486826; -0.957771379375; 0.237511794148; 0.714692224396;
    -0.298217036956; -0.108863472196; 0.0949327488264; -0.00980469816509;
    0.000016516763497; 0.0000937359795772; -1.2317921872e-10;
    0.00196096504426 ].

Definition i_k : list Q := [ 1; 1; 1; 2; 3; 3; 4; 5; 6; 7; 10 ].

Definition j_k : list Q := [ 0.25; 1; 2.5; 1.5; 1.5; 2.5; 2; 2; 5; 0.5; 10 ].

Section WithLibm.
Variables (sqrt : Q -> Q) (pow : Q -> Q -> Q).

(** [g(T, rho)]: the loop [for(int ii = 0; ii <= 10; ++ii)] and the last
    term. *)
Definition g_fernandez (T_K density_molm3 : Q) : Q :=
  let x := density_molm3 / density_c in
  let Tratio := T_c / T_K in
  let g :=
    fold_left
      (fun g ii => g + nth ii N_k 0 * pow x (nth ii i_k 0)
                       * pow Tratio (nth ii j_k 0))
      (seq 0 11) 1.0 in
  g + nth 11 N_k 0 * x * pow ((T_K / 228.0) - 1.0) (-1.2).

Definition epsilon_fernandez (T rho_g_cm3 : Q) : Q :=
  let density_molm3 := rho_g_cm3 * 0.055508 * 1000000.0 in
  let T_K := T in
  let g := g_fernandez T_K density_molm3 in
  let A := (avogadro * dipole * dipole * density_molm3 * g)
           / (epsilon0 * boltzmann * T_K) in
  let B := (avogadro * alpha * density_molm3) / (3.0 * epsilon0) in
  let C := 9.0 + 2.0 * A + 18.0 * B + A * A + 10.0 * A * B + 9.0 * B * B in
  (1.0 + A + 5.0 * B + sqrt C) / (4.0 - 4.0 * B).

Definition depsdrho_fernandez (T rho_g_cm3 : Q) : Q :=
  let density_molm3 := rho_g_cm3 * 0.055508 * 1000000.0 in
  let T_K := T in
  let x := density_molm3 / density_c in
  let Tratio := T_c / T_K in
  let g := g_fernandez T_K density_molm3 in
  let dgdrho_molm3 :=
    fold_left
      (fun acc ii =>
         let ik := nth ii i_k 0 in
         acc + ik * nth ii N_k 0
               * pow density_molm3 (ik - 1.0)
               / pow density_c ik
               * pow Tratio (nth ii j_k 0))
      (seq 0 11) 0.0 in
  let dgdrho_molm3 :=
    dgdrho_molm3
    + (nth 11 N_k 0 / density_c) * pow ((T_K / 228.0) - 1.0) (-1.2) in
  let A := (avogadro * dipole * dipole * density_molm3 * g)
           / (epsilon0 * boltzmann * T_K) in
  let B := (avogadro * alpha * density_molm3) / (3.0 * epsilon0) in
  let C := 9.0 + 2.0 * A + 18.0 * B + A * A + 10.0 * A * B + 9.0 * B * B in
  let eps := (1.0 + A + 5.0 * B + sqrt C) / (4.0 - 4.0 * B) in
  let dAdrho_molm3 := A / density_molm3 + (A / g) * dgdrho_molm3 in
  let dBdrho_molm3 := B / density_molm3 in
  let dCdrho_molm3 :=
      2.0 * dAdrho_molm3
    + 18.0 * dBdrho_molm3
    + 2.0 * A * dAdrho_molm3
    + 10.0 * (dAdrho_molm3 * B + A * dBdrho_molm3)
    + 18.0 * B * dBdrho_molm3 in
  let factor := 55508.0 in
  let denom := 4.0 - 4.0 * B in
  let sqrtC := sqrt C in
  factor * (1.0 / denom) *
  ( 4.0 * dBdrho_molm3 * eps
    + dAdrho_molm3
    + 5.0 * dBdrho_molm3
    + 0.5 * dCdrho_molm3 / sqrtC ).

Definition waterElectroPropsFernandez1997 (T P : Q) (wt : WaterThermoProps)
    : WaterElectroProps :=
  let rho_si := D wt in
  let rho_g_cm3 := density_si_to_g_cm3 rho_si in
  let eps := epsilon_fernandez T rho_g_cm3 in
  let deps_drho_g := depsdrho_fernandez T rho_g_cm3 in
  let drho_g_dP := DP wt / 1000.0 in
  let epsP := deps_drho_g * drho_g_dP in
  {| epsilon := eps;
     epsilonT := 0.0; epsilonP := epsP;
     epsilonTT := 0.0; epsilonTP := 0.0; epsilonPP := 0.0;
     bornZ := if negb (Qeq_bool eps 0.0) then -1.0 / eps else 0.0;
     bornY := 0.0;
     bornQ := if negb (Qeq_bool eps 0.0) then epsP / (eps * eps) else 0.0;
     bornN := 0.0; bornU := 0.0; bornX := 0.0 |}.

End WithLibm.
End Fernandez.

(** *** Power function: WaterDielectricPowerFunction.cpp *)

Module PowerFn.

Definition a1 : Q := -0.00157637700752506.
Definition a2 : Q := 0.0681028783422197.
Definition a3 : Q := 0.754875480393944.
Definition b1 : Q := -0.0000801665106535394.
Definition b2 : Q := -0.0687161761831994.
Definition b3 : Q := 4.74797272182151.

Definition density_si_to_g_cm3 (rho_si : Q) : Q := rho_si / 1000.0.

Section WithLibm.
Variables (exp sqrt : Q -> Q) (pow : Q -> Q -> Q).

Definition epsilon_power (T_K rho_g_cm3 : Q) : Q :=
  let T_C := T_K - 273.15 in
  let sqrtT := if Qlt_bool 0.0 T_C then sqrt T_C else 0.0 in
  let A := a1 * T_C + a2 * sqrtT + a3 in
  let B := b1 * T_C + b2 * sqrtT + b3 in
  if Qle_bool rho_g_cm3 0.0 then 1.0
  else exp B * pow rho_g_cm3 A.

Definition depsdrho_power (T_K rho_g_cm3 : Q) : Q :=
  let T_C := T_K - 273.15 in
  let sqrtT := if Qlt_bool 0.0 T_C then sqrt T_C else 0.0 in
  let A := a1 * T_C + a2 * sqrtT + a3 in
  let B := b1 * T_C + b2 * sqrtT + b3 in
  if Qle_bool rho_g_cm3 0.0 then 0.0
  else A * exp B * pow rho_g_cm3 (A - 1.0).

Definition waterElectroPropsPowerFunction (T P : Q) (wt : WaterThermoProps)
    : WaterElectroProps :=
  let rho_si := D wt in
  let rho_g_cm3 := density_si_to_g_cm3 rho_si in
  let eps := epsilon_power T rho_g_cm3 in
  let deps_drho_g := depsdrho_power T rho_g_cm3 in
  let drho_g_dP := DP wt / 1000.0 in
  let epsP := deps_drho_g * drho_g_dP in
  {| epsilon := eps;
     epsilonT := 0.0; epsilonP := epsP;
     epsilonTT := 0.0; epsilonTP := 0.0; epsilonPP := 0.0;
     bornZ := if negb (Qeq_bool eps 0.0) then -1.0 / eps else 0.0;
     bornY := 0.0;
     bornQ := if negb (Qeq_bool eps 0.0) then epsP / (eps * eps) else 0.0;
     bornN := 0.0; bornU := 0.0; bornX := 0.0 |}.

End WithLibm.
End PowerFn.

(** *** Johnson & Norton (1991) *)

Module JohnsonNorton.

Section WithFit.
(** The empirical fit [(T, rho) -> epsilon] and its matched density
    derivative, in the units of the sibling models. *)
Variables (epsilon_jn depsdrho_jn : Q -> Q -> Q).

(** Modelled from the spec: the implementation file of
    [waterElectroPropsJohnsonNorton] (WaterDielectricJohnsonNorton.cpp) is
    missing from the sources; only its callers are present.  Following the
    contract of the dielectric models, the formulation yields epsilon and
    its density derivative, epsilon_P is obtained by the chain rule with the
    pressure derivative of the density, the Born coefficients are
    Z = -1/epsilon and Q = epsilon_P/epsilon^2, and every other field is
    left at zero. *)
Definition waterElectroPropsJohnsonNorton (T P : Q) (wt : WaterThermoProps)
    : WaterElectroProps :=
  let rho_g_cm3 := D wt / 1000.0 in
  let eps := epsilon_jn T rho_g_cm3 in
  let deps_drho_g := depsdrho_jn T rho_g_cm3 in
  let drho_g_dP := DP wt / 1000.0 in
  let epsP := deps_drho_g * drho_g_dP in
  {| epsilon := eps;
     epsilonT := 0.0; epsilonP := epsP;
     epsilonTT := 0.0; epsilonTP := 0.0; epsilonPP := 0.0;
     bornZ := -1.0 / eps;
     bornY := 0.0;
     bornQ := epsP / (eps * eps);
     bornN := 0.0; bornU := 0.0; bornX := 0.0 |}.

End WithFit.
End JohnsonNorton.

(** ** Dielectric selector: WaterElectroModel.cpp *)

Record WaterElectroModelOptions : Type := mkWaterElectroModelOptions {
  electro_model : WaterDielectricModel;
  electro_usePsatPolynomials : bool;
  electro_psatRelativeTolerance : Q
}.

Module ElectroModel.

Section WithExternals.
Variables (exp sqrt : Q -> Q) (pow : Q -> Q -> Q).
Variable waterSaturationPressureWagnerPruss : Q -> Q.
Variables (epsilon_jn depsdrho_jn : Q -> Q -> Q).

Definition saturationPressure (T_K : Q) : Q :=
  waterSaturationPressureWagnerPruss T_K.

Definition isNearPsat (T_K P_Pa relTol : Q) : bool :=
  if Qle_bool relTol 0.0 then false
  else
    let Psat := saturationPressure T_K in
    if negb (Qlt_bool 0.0 Psat) then false
    else
      let diff := Qabs (P_Pa - Psat) in
      Qle_bool diff (relTol * Psat).

Definition maybeApplyPsatOverride (T P : Q) (opt : WaterElectroModelOptions)
    (we : WaterElectroProps) : WaterElectroProps :=
  if negb (electro_usePsatPolynomials opt) then we
  else if negb (isNearPsat T P (electro_psatRelativeTolerance opt)) then we
  else
    let eps_p := PsatPolynomials.waterPsatEpsilonDEW T in
    let Q_p := PsatPolynomials.waterPsatBornQDEW T in
    if Qle_bool eps_p 0.0 then we
    else
      let eps2 := eps_p * eps_p in
      {| epsilon := eps_p;
         epsilonT := epsilonT we;
         epsilonP := Q_p * eps2;
         epsilonTT := epsilonTT we;
         epsilonTP := epsilonTP we;
         epsilonPP := epsilonPP we;
         bornZ := -1.0 / eps_p;
         bornY := bornY we;
         bornQ := Q_p;
         bornN := bornN we; bornU := bornU we; bornX := bornX we |}.

Definition waterElectroPropsModel (T P : Q) (wt : WaterThermoProps)
    (opt : WaterElectroModelOptions) : WaterElectroProps :=
  let we :=
    match electro_model opt with
    | JohnsonNorton1991 =>
        JohnsonNorton.waterElectroPropsJohnsonNorton epsilon_jn depsdrho_jn
          T P wt
    | Franck1990 => Franck.waterElectroPropsFranck1990 T P wt
    | Fernandez1997 =>
        Fernandez.waterElectroPropsFernandez1997 sqrt pow T P wt
    | PowerFunction =>
        PowerFn.waterElectroPropsPowerFunction exp sqrt pow T P wt
    end in
  maybeApplyPsatOverride T P opt we.

End WithExternals.
End ElectroModel.

(** ** Bisection, generically

    Both density solvers run the same loop.  [bisect_loop] is that loop over
    an abstract convergence test and an abstract direction test;
    [bisect_trace] lists, in order, the densities at which the loop body
    ran (one pressure evaluation each); [bisect_state] is the bracket after
    [k] unconverged iterations. *)

Section Bisection.
Variables (conv above : Q -> bool).

Fixpoint bisect_loop (iters : nat) (lo hi rho : Q) : Q :=
  match iters with
  | O => rho
  | S iters' =>
      if conv rho then rho
      else if above rho then bisect_loop iters' lo rho (0.5 * (rho + lo))
      else bisect_loop iters' rho hi (0.5 * (rho + hi))
  end.

Fixpoint bisect_trace (iters : nat) (lo hi rho : Q) : list Q :=
  match iters with
  | O => []
  | S iters' =>
      rho ::
      if conv rho then []
      else if above rho then bisect_trace iters' lo rho (0.5 * (rho + lo))
      else bisect_trace iters' rho hi (0.5 * (rho + hi))
  end.

Definition bisect_step (st : Q * Q * Q) : Q * Q * Q :=
  let '(lo, hi, rho) := st in
  if above rho then (lo, rho, 0.5 * (rho + lo))
  else (rho, hi, 0.5 * (rho + hi)).

Fixpoint bisect_state (k : nat) (st : Q * Q * Q) : Q * Q * Q :=
  match k with
  | O => st
  | S k' => bisect_state k' (bisect_step st)
  end.

End Bisection.

(** The two tests of [zd05_density_g_cm3] and of [calculateDensity_ZD09]. *)
Definition zd05_conv (exp : Q -> Q) (P_bar_target T_C error_bar rho : Q)
    : bool :=
  Qle_bool (Qabs (ZD05.zd05_pressure_bar exp rho T_C - P_bar_target))
    error_bar.

Definition zd05_above (exp : Q -> Q) (P_bar_target T_C rho : Q) : bool :=
  Qlt_bool 0.0 (ZD05.zd05_pressure_bar exp rho T_C - P_bar_target).

Definition zd09_conv (exp : Q -> Q) (P_bar T_C : Q)
    (opts : WaterZhangDuan2009Options) (rho : Q) : bool :=
  Qle_bool (Qabs (ZD09.calculatePressure_ZD09 exp rho T_C - P_bar))
    (pressureToleranceBar opts).

Definition zd09_above (exp : Q -> Q) (P_bar T_C rho : Q) : bool :=
  Qlt_bool P_bar (ZD09.calculatePressure_ZD09 exp rho T_C).

(** Densities visited by the two solvers, one per executed iteration. *)
Definition zd05_iterates (exp : Q -> Q) (P_bar_target T_C error_bar : Q)
    : list Q :=
  bisect_trace (zd05_conv exp P_bar_target T_C error_bar)
    (zd05_above exp P_bar_target T_C) 50 0.00001 2.5 0.00001.

Definition zd09_iterates (exp : Q -> Q) (P_bar T_C : Q)
    (opts : WaterZhangDuan2009Options) : list Q :=
  bisect_trace (zd09_conv exp P_bar T_C opts) (zd09_above exp P_bar T_C)
    (Z.to_nat (maxIterations opts)) 0.00001 (7.5 * 2.0 - 5.0) 0.00001.

(** ** The integrand and the Born radius, by name *)

(** The molar volume that every integrator forms from a density:
    [(wt.D > 0.0) ? (M / wt.D) : 0.0]. *)
Definition molarVolume (M : Q) (wt : WaterThermoProps) : Q :=
  if Qlt_bool 0.0 (D wt) then M / D wt else 0.0.

(** [denom] and [re_A] of [waterBornOmegaDEW]. *)
Definition born_denom (wref_Jmol Z : Q) : Q :=
  (wref_Jmol / 4.184 / BornOmega.eta_cal_per_A) + Z / 3.082.

Definition born_re_A (pow : Q -> Q -> Q) (psat : Q -> Q) (T P : Q)
    (wt : WaterThermoProps) (wref_Jmol Z : Q) (opt : WaterBornOmegaOptions)
    : Q :=
  (Z * Z) / born_denom wref_Jmol Z
  + Qabs Z * BornOmega.compute_g pow psat T P wt opt.

Definition born_short_circuit (P Z : Q) (opt : WaterBornOmegaOptions)
    : bool :=
  Qeq_bool Z 0.0 || isHydrogenLike opt
  || Qlt_bool (maxPressureForVariation opt) P.

(** ** Rational stand-ins for libm

    They serve only to run the model on concrete inputs.  Values are kept
    to 96 fractional bits.  [exp_q] splits its argument into an integer and a
    fraction and is 0 below -70, where the exponential is smaller than
    2^-96; [log_q] scales its argument into (1/2, 2) by a power of two and
    sums the series of the inverse hyperbolic tangent; [pow_q] composes
    them. *)

Module LibmQ.

Definition e_q : Q := 2.718281828459045.
Definition ln2_q : Q := 0.6931471805599453.

(** Truncation to 96 fractional bits. *)
Definition trunc96 (x : Q) : Q :=
  Qred (Qmake (Qfloor (x * inject_Z (2 ^ 96))) (2 ^ 96)).

Fixpoint exp_horner (k : nat) (r acc : Q) : Q :=
  match k with
  | O => acc
  | S k' =>
      exp_horner k' r (trunc96 (1 + r * acc / inject_Z (Z.of_nat k)))
  end.

Definition exp_q (x : Q) : Q :=
  if Qlt_bool x (-70) then 0
  else
    let n := Qfloor x in
    let r := trunc96 (x - inject_Z n) in
    trunc96 (e_q ^ n * exp_horner 24 r 1).

Fixpoint atanh_series (k : nat) (z z2 acc : Q) : Q :=
  match k with
  | O => acc
  | S k' =>
      atanh_series k' z z2
        (trunc96 (1 / inject_Z (2 * Z.of_nat k' + 1) + z2 * acc))
  end.

Definition log_q (x : Q) : Q :=
  if Qle_bool x 0 then 0
  else
    let e := (Z.log2 (Qnum x) - Z.log2 (Zpos (Qden x)))%Z in
    let m := Qred (x / 2 ^ e) in
    let z := trunc96 ((m - 1) / (m + 1)) in
    let z2 := trunc96 (z * z) in
    Qred (2 * z * atanh_series 20 z z2 0 + inject_Z e * ln2_q).

Definition pow_q (x y : Q) : Q :=
  if Qle_bool x 0 then 0 else exp_q (y * log_q x).

End LibmQ.

(** ** Consistency of the Born coefficients

    [Z = -1/epsilon] and [Q = epsilon_P/epsilon^2] on one record. *)
Definition born_consistent (we : WaterElectroProps) : Prop :=
  bornZ we == -1 / epsilon we /\
  bornQ we == epsilonP we / (epsilon we) ^ 2.

(** ** Concrete inputs *)

Module Inputs.

(** Stand-ins for upstream Reaktoro, for runs that select them: a
    saturation pressure of one atmosphere and an equation of state whose
    density grows linearly with pressure. *)
Definition psat_1atm (T_K : Q) : Q := 101325.

Definition helmholtz_linear (T_K P_Pa : Q) : Q := 1000 + P_Pa * 0.000001.

Definition thermoProps_of_density (T_K P_Pa rho : Q) : WaterThermoProps :=
  {| D := rho; DP := 0.000001; DT := 0; DTT := 0; DTP := 0; DPP := 0 |}.

Definition thermoZD05 : WaterThermoModelOptions :=
  {| eosModel := ZhangDuan2005;
     thermo_usePsatPolynomials := false;
     thermo_psatRelativeTolerance := 0.001;
     zhangDuan2009Options := defaultZhangDuan2009Options;
     thermo_densityTolerance := 0.001 |}.

Definition thermoWagnerPruss : WaterThermoModelOptions :=
  {| eosModel := WagnerPruss;
     thermo_usePsatPolynomials := false;
     thermo_psatRelativeTolerance := 0.001;
     zhangDuan2009Options := defaultZhangDuan2009Options;
     thermo_densityTolerance := 0.001 |}.

(** The defaults of [WaterGibbsModelOptions] with the integral model. *)
Definition gibbsDewIntegralDefaults (th : WaterThermoModelOptions)
    : WaterGibbsModelOptions :=
  {| model := DewIntegral;
     thermo := th;
     usePsatPolynomials := false;
     psatRelativeTolerance := 0.001;
     integrationMethod := Trapezoidal;
     integrationSteps := 5000;
     useExcelIntegration := false;
     adaptiveIntegrationTolerance := 0.1;
     maxAdaptiveSubdivisions := 20;
     densityTolerance := 0.001 |}.

(** Adaptive Simpson with a tolerance of 1e-9 m3/mol and two levels of
    subdivision. *)
Definition gibbsAdaptiveTight (th : WaterThermoModelOptions)
    : WaterGibbsModelOptions :=
  {| model := DewIntegral;
     thermo := th;
     usePsatPolynomials := false;
     psatRelativeTolerance := 0.001;
     integrationMethod := AdaptiveSimpson;
     integrationSteps := 5000;
     useExcelIntegration := false;
     adaptiveIntegrationTolerance := 0.000000001;
     maxAdaptiveSubdivisions := 2;
     densityTolerance := 0.001 |}.

(** Zhang & Duan 2009 with the default tolerance and a cap of 60
    iterations. *)
Definition zd09SixtyIterations : WaterZhangDuan2009Options :=
  {| usePsat := false; pressureToleranceBar := 0.01; maxIterations := 60 |}.

Definition waterAt (rho_kg_m3 : Q) : WaterThermoProps :=
  {| D := rho_kg_m3; DP := 0.000001; DT := 0; DTT := 0; DTP := 0; DPP := 0 |}.

Definition solventGeneral : WaterSolventFunctionOptions :=
  {| Psat := false; densityEquation := 0 |}.

Definition solventAlongPsat : WaterSolventFunctionOptions :=
  {| Psat := true; densityEquation := 0 |}.

(** The default formulation with the near-saturation override enabled,
    and constant stand-ins for the Johnson-Norton fit. *)
Definition electroNearPsat : WaterElectroModelOptions :=
  {| electro_model := JohnsonNorton1991;
     electro_usePsatPolynomials := true;
     electro_psatRelativeTolerance := 0.001 |}.

Definition epsilon_const (T rho_g_cm3 : Q) : Q := 55.

Definition depsdrho_const (T rho_g_cm3 : Q) : Q := 60.

End Inputs.

(** * Further parts of the water model stack *)

From Stdlib Require Import Qpower Qfield.
From Stdlib Require Ascii.

(** ** Sums of rationals *)

Definition Qsum (l : list Q) : Q := fold_right Qplus 0 l.

(** ** The options handed to the equation of state by the integral

    [WaterThermoModelOptions thermoWithTol = thermo;
     thermoWithTol.densityTolerance = opt.densityTolerance;] of
    [gibbsDewIntegral_J_per_mol]. *)
Definition thermoWithTol (thermo : WaterThermoModelOptions)
    (opt : WaterGibbsModelOptions) : WaterThermoModelOptions :=
  {| eosModel := eosModel thermo;
     thermo_usePsatPolynomials := thermo_usePsatPolynomials thermo;
     thermo_psatRelativeTolerance := thermo_psatRelativeTolerance thermo;
     zhangDuan2009Options := zhangDuan2009Options thermo;
     thermo_densityTolerance := densityTolerance opt |}.

(** ** More concrete inputs *)

Module Samples.

(** A stand-in for the upstream equation of state with the density
    1000 kg/m3 at every state. *)
Definition helmholtz_constant (T_K P_Pa : Q) : Q := 1000.

(** A rational stand-in for the square root of libm, through the
    stand-ins of the power function. *)
Definition sqrt_q (x : Q) : Q := LibmQ.pow_q x 0.5.

(** The defaults of [WaterGibbsModelOptions] with the integral model and
    one of the other integration methods. *)
Definition gibbsWithMethod (m : WaterIntegrationMethod) (excel : bool)
    (th : WaterThermoModelOptions) : WaterGibbsModelOptions :=
  {| model := DewIntegral;
     thermo := th;
     usePsatPolynomials := false;
     psatRelativeTolerance := 0.001;
     integrationMethod := m;
     integrationSteps := 5000;
     useExcelIntegration := excel;
     adaptiveIntegrationTolerance := 0.1;
     maxAdaptiveSubdivisions := 20;
     densityTolerance := 0.001 |}.

End Samples.

(** ** Dielectric selector with saturation modes: WaterDielectricModel.cpp *)

Module DielectricModel.

Inductive WaterDielectricPrimaryModel : Type :=
  | JohnsonNorton1991
  | Franck1990
  | Fernandez1997
  | PowerFunction.

(** [WaterDielectricPsatMode]; its first enumerator is [None] in the
    source. *)
Inductive WaterDielectricPsatMode : Type :=
  | PsatMode_None
  | UsePsatWhenNear
  | ForcePsat.

(** [WaterDielectricModelOptions], defaults [JohnsonNorton1991], [None],
    [1e-3], [true]. *)
Record WaterDielectricModelOptions : Type := mkWaterDielectricModelOptions {
  primary : WaterDielectricPrimaryModel;
  psatMode : WaterDielectricPsatMode;
  psatRelativeTolerance : Q;
  overrideQWithPsatFit : bool
}.

Section WithExternals.
Variables (exp sqrt : Q -> Q) (pow : Q -> Q -> Q).
Variable waterSaturationPressureWagnerPruss : Q -> Q.
Variables (epsilon_jn depsdrho_jn : Q -> Q -> Q).

Definition saturationPressure (T : Q) : Q :=
  waterSaturationPressureWagnerPruss T.

Definition isNearPsat (T P reltol : Q) : bool :=
  if Qle_bool reltol 0.0 then false
  else
    let Psat := saturationPressure T in
    if negb (Qlt_bool 0.0 Psat) then false
    else
      let diff := Qabs (P - Psat) in
      Qle_bool diff (reltol * Psat).

(** [applyPsatOverrides] writes into the record it is given; the fields it
    does not assign ([bornY], and [bornQ] when [overrideQWithPsatFit] is
    off) keep the value of the primary model. *)
Definition applyPsatOverrides (T : Q) (opts : WaterDielectricModelOptions)
    (we : WaterElectroProps) : WaterElectroProps :=
  let eps_psat := PsatPolynomials.waterPsatEpsilonDEW T in
  {| epsilon := eps_psat;
     epsilonT := 0.0;
     epsilonP := 0.0;
     epsilonTT := 0.0;
     epsilonTP := 0.0;
     epsilonPP := 0.0;
     bornZ := if negb (Qeq_bool eps_psat 0.0) then -1.0 / eps_psat else 0.0;
     bornY := bornY we;
     bornQ := if overrideQWithPsatFit opts
              then PsatPolynomials.waterPsatBornQDEW T
              else bornQ we;
     bornN := 0.0;
     bornU := 0.0;
     bornX := 0.0 |}.

Definition evaluatePrimaryModel (T P : Q) (wt : WaterThermoProps)
    (model : WaterDielectricPrimaryModel) : WaterElectroProps :=
  match model with
  | JohnsonNorton1991 =>
      JohnsonNorton.waterElectroPropsJohnsonNorton epsilon_jn depsdrho_jn
        T P wt
  | Franck1990 => Franck.waterElectroPropsFranck1990 T P wt
  | Fernandez1997 => Fernandez.waterElectroPropsFernandez1997 sqrt pow T P wt
  | PowerFunction => PowerFn.waterElectroPropsPowerFunction exp sqrt pow T P wt
  end.

Definition waterElectroPropsModel (T P : Q) (wt : WaterThermoProps)
    (opts : WaterDielectricModelOptions) : WaterElectroProps :=
  let we := evaluatePrimaryModel T P wt (primary opts) in
  match psatMode opts with
  | PsatMode_None => we
  | UsePsatWhenNear =>
      if isNearPsat T P (psatRelativeTolerance opts)
      then applyPsatOverrides T opts we
      else we
  | ForcePsat => applyPsatOverrides T opts we
  end.

End WithExternals.
End DielectricModel.

(** ** Aggregated water state: WaterState.hpp, WaterState.cpp *)

(** [WaterStateOptions]. *)
Module StateOptions.

Record WaterStateOptions : Type := mkWaterStateOptions {
  thermo : WaterThermoModelOptions;
  dielectric : DielectricModel.WaterDielectricModelOptions;
  computeGibbs : bool;
  gibbs : WaterGibbsModelOptions;
  computeSolventG : bool;
  solvent : WaterSolventFunctionOptions;
  computeOmega : bool;
  omega : WaterBornOmegaOptions
}.

End StateOptions.

Module State.

(** [WaterState]; the members after [electro] start at [false] and
    [0.0]. *)
Record WaterState : Type := mkWaterState {
  thermo : WaterThermoProps;
  electro : WaterElectroProps;
  hasGibbs : bool;
  hasSolventG : bool;
  hasOmega : bool;
  gibbs : Q;
  g_solv : Q;
  dgdP : Q;
  omega : Q;
  domega_dP : Q
}.

Section WithExternals.
Variables (exp log sqrt : Q -> Q) (pow : Q -> Q -> Q).
Variable waterSaturationPressureWagnerPruss : Q -> Q.
Variable WaterHelmholtzProps : Type.
Variable waterHelmholtzPropsWagnerPruss : Q -> Q -> WaterHelmholtzProps.
Variable waterHelmholtzPropsHGK : Q -> Q -> WaterHelmholtzProps.
Variable waterThermoProps : Q -> Q -> WaterHelmholtzProps -> WaterThermoProps.
Variables (epsilon_jn depsdrho_jn : Q -> Q -> Q).

Definition waterState (T P : Q) (opts : StateOptions.WaterStateOptions)
    : option WaterState :=
  let ws_thermo :=
    ThermoModel.waterThermoPropsModel exp waterSaturationPressureWagnerPruss
      WaterHelmholtzProps waterHelmholtzPropsWagnerPruss
      waterHelmholtzPropsHGK waterThermoProps T P
      (StateOptions.thermo opts) in
  let ws_electro :=
    DielectricModel.waterElectroPropsModel exp sqrt pow
      waterSaturationPressureWagnerPruss epsilon_jn depsdrho_jn
      T P ws_thermo (StateOptions.dielectric opts) in
  gibbs_part <-
    (if StateOptions.computeGibbs opts then
       G <- GibbsModel.waterGibbsModel exp waterSaturationPressureWagnerPruss
              WaterHelmholtzProps waterHelmholtzPropsWagnerPruss
              waterHelmholtzPropsHGK waterThermoProps T P
              (StateOptions.gibbs opts) ;;
       ret (G, true)
     else ret (0.0, false)) ;;
  let solvent_part :=
    if StateOptions.computeSolventG opts then
      let ws_g_solv :=
        SolventFunction.waterSolventFunctionDEW pow
          waterSaturationPressureWagnerPruss T P ws_thermo
          (StateOptions.solvent opts) in
      let ws_dgdP :=
        SolventFunction.waterSolventFunctionDgdP_DEW exp log pow T P
          ws_thermo ws_g_solv (StateOptions.solvent opts) in
      (ws_g_solv, ws_dgdP, true)
    else (0.0, 0.0, false) in
  let omega_part :=
    if StateOptions.computeOmega opts then (0.0, 0.0, false)
    else (0.0, 0.0, false) in
  ret {| thermo := ws_thermo;
         electro := ws_electro;
         hasGibbs := snd gibbs_part;
         hasSolventG := snd solvent_part;
         hasOmega := snd omega_part;
         gibbs := fst gibbs_part;
         g_solv := fst (fst solvent_part);
         dgdP := snd (fst solvent_part);
         omega := fst (fst omega_part);
         domega_dP := snd (fst omega_part) |}.

End WithExternals.
End State.

(** ** Global water model options: WaterModelOptions.hpp, .cpp *)

Module ModelOptions.

(** [WaterBornModel]; its first enumerator is [None] in the source. *)
Inductive WaterBornModel : Type :=
  | BornModel_None
  | Shock92Dew.

Record WaterModelOptions : Type := mkWaterModelOptions {
  eosModel : WaterEosModel;
  dielectricModel : WaterDielectricModel;
  gibbsModel : WaterGibbsModel;
  bornModel : WaterBornModel;
  usePsatPolynomials : bool;
  psatRelTol : Q;
  densityTolerance : Q
}.

(** The default member initialisers of the struct. *)
Definition defaultWaterModelOptions : WaterModelOptions :=
  {| eosModel := ZhangDuan2005;
     dielectricModel := PowerFunction;
     gibbsModel := DewIntegral;
     bornModel := BornModel_None;
     usePsatPolynomials := false;
     psatRelTol := 0.001;
     densityTolerance := 0.001 |}.

Definition makeWaterModelOptionsDEW : WaterModelOptions :=
  let opt := defaultWaterModelOptions in
  {| eosModel := ZhangDuan2005;
     dielectricModel := PowerFunction;
     gibbsModel := DewIntegral;
     bornModel := Shock92Dew;
     usePsatPolynomials := true;
     psatRelTol := 0.001;
     densityTolerance := densityTolerance opt |}.

End ModelOptions.

(** ** Standard thermodynamic model of aqueous solutes:
    StandardThermoModelDEW.hpp, StandardThermoModelDEW.cpp *)

Module StandardThermoDEW.

Definition Tr : Q := 298.15.
Definition Pr : Q := 100000.0.
Definition Zr : Q := -0.01278055636.
Definition Yr : Q := -0.00005795424563.
Definition theta : Q := 228.0.
Definition psi : Q := 260000000.0.

(** [static_cast<WaterDielectricPrimaryModel>(waterOpts.dielectricModel)]:
    the two enumerations list the four formulations in the same order. *)
Definition primaryOfDielectricModel (m : WaterDielectricModel)
    : DielectricModel.WaterDielectricPrimaryModel :=
  match m with
  | JohnsonNorton1991 => DielectricModel.JohnsonNorton1991
  | Franck1990 => DielectricModel.Franck1990
  | Fernandez1997 => DielectricModel.Fernandez1997
  | PowerFunction => DielectricModel.PowerFunction
  end.

Definition bornModelEnabled (m : ModelOptions.WaterBornModel) : bool :=
  match m with
  | ModelOptions.BornModel_None => false
  | ModelOptions.Shock92Dew => true
  end.

(** [configureWaterStateOptions]: a default-constructed [WaterStateOptions]
    with the members below assigned; every other member keeps its default
    initialiser. *)
Definition configureWaterStateOptions
    (waterOpts : ModelOptions.WaterModelOptions)
    : StateOptions.WaterStateOptions :=
  let opts_thermo :=
    {| eosModel := ModelOptions.eosModel waterOpts;
       thermo_usePsatPolynomials := ModelOptions.usePsatPolynomials waterOpts;
       thermo_psatRelativeTolerance := ModelOptions.psatRelTol waterOpts;
       zhangDuan2009Options := defaultZhangDuan2009Options;
       thermo_densityTolerance := ModelOptions.densityTolerance waterOpts |} in
  let opts_dielectric :=
    {| DielectricModel.primary :=
         primaryOfDielectricModel (ModelOptions.dielectricModel waterOpts);
       DielectricModel.psatMode :=
         if ModelOptions.usePsatPolynomials waterOpts
         then DielectricModel.UsePsatWhenNear
         else DielectricModel.PsatMode_None;
       DielectricModel.psatRelativeTolerance :=
         ModelOptions.psatRelTol waterOpts;
       DielectricModel.overrideQWithPsatFit := true |} in
  let opts_gibbs :=
    {| model := ModelOptions.gibbsModel waterOpts;
       thermo := opts_thermo;
       usePsatPolynomials := false;
       psatRelativeTolerance := 0.001;
       integrationMethod := Trapezoidal;
       integrationSteps := 5000;
       useExcelIntegration := false;
       adaptiveIntegrationTolerance := 0.1;
       maxAdaptiveSubdivisions := 20;
       densityTolerance := ModelOptions.densityTolerance waterOpts |} in
  let opts_solvent :=
    {| Psat := ModelOptions.usePsatPolynomials waterOpts;
       densityEquation := 0 |} in
  {| StateOptions.thermo := opts_thermo;
     StateOptions.dielectric := opts_dielectric;
     StateOptions.computeGibbs := true;
     StateOptions.gibbs := opts_gibbs;
     StateOptions.computeSolventG := true;
     StateOptions.solvent := opts_solvent;
     StateOptions.computeOmega :=
       bornModelEnabled (ModelOptions.bornModel waterOpts);
     StateOptions.omega :=
       if bornModelEnabled (ModelOptions.bornModel waterOpts)
       then {| solvent := opts_solvent;
               isHydrogenLike := isHydrogenLike defaultWaterBornOmegaOptions;
               maxPressureForVariation :=
                 maxPressureForVariation defaultWaterBornOmegaOptions |}
       else defaultWaterBornOmegaOptions |}.

(** [StandardThermoProps], in the order of the structured binding
    [auto& [G0, H0, V0, Cp0, VT0, VP0] = props]. *)
Record StandardThermoProps : Type := mkStandardThermoProps {
  G0 : Q;
  H0 : Q;
  V0 : Q;
  Cp0 : Q;
  VT0 : Q;
  VP0 : Q
}.

Record StandardThermoModelParamsDEW : Type :=
  mkStandardThermoModelParamsDEW {
  Gf : Q;
  Hf : Q;
  Sr : Q;
  a1 : Q;
  a2 : Q;
  a3 : Q;
  a4 : Q;
  c1 : Q;
  c2 : Q;
  wref : Q;
  charge : Q;
  Tmax : Q;
  waterOptions : ModelOptions.WaterModelOptions
}.

Section WithExternals.
Variables (exp log sqrt : Q -> Q) (pow : Q -> Q -> Q).
Variable waterSaturationPressureWagnerPruss : Q -> Q.
Variable WaterHelmholtzProps : Type.
Variable waterHelmholtzPropsWagnerPruss : Q -> Q -> WaterHelmholtzProps.
Variable waterHelmholtzPropsHGK : Q -> Q -> WaterHelmholtzProps.
Variable waterThermoProps : Q -> Q -> WaterHelmholtzProps -> WaterThermoProps.
Variables (epsilon_jn depsdrho_jn : Q -> Q -> Q).

(** The evaluation function [evalfn] that [StandardThermoModelDEW] wraps
    into a [StandardThermoModel]; it assigns the six properties. *)
Definition StandardThermoModelDEW (params : StandardThermoModelParamsDEW)
    (T P : Q) : option StandardThermoProps :=
  let wr := wref params in
  let waterOpts := waterOptions params in
  let wsOpts := configureWaterStateOptions waterOpts in
  ws <- State.waterState exp log sqrt pow waterSaturationPressureWagnerPruss
          WaterHelmholtzProps waterHelmholtzPropsWagnerPruss
          waterHelmholtzPropsHGK waterThermoProps epsilon_jn depsdrho_jn
          T P wsOpts ;;
  let wt := State.thermo ws in
  let we := State.electro ws in
  let born :=
    if bornModelEnabled (ModelOptions.bornModel waterOpts) then
      let omegaOpts := defaultWaterBornOmegaOptions in
      let w := BornOmega.waterBornOmegaDEW pow
                 waterSaturationPressureWagnerPruss T P wt wr
                 (charge params) omegaOpts in
      let wP := BornOmega.waterBornDOmegaDP_DEW exp log pow
                  waterSaturationPressureWagnerPruss T P wt wr
                  (charge params) omegaOpts in
      let Z := bornZ we in
      let Y := bornY we in
      let X := bornX we in
      let wT := - w * Y / Z in
      let wTP := 0.0 in
      let wTT := - w * X / Z in
      let wPP := 0.0 in
      (w, wP, wT, wTP, wTT, wPP)
    else (0.0, 0.0, 0.0, 0.0, 0.0, 0.0) in
  let '(w, wP, wT, wTP, wTT, wPP) := born in
  let Tth := T - theta in
  let Tth2 := Tth * Tth in
  let Tth3 := Tth * Tth2 in
  let psiP := psi + P in
  let psiPr := psi + Pr in
  ret {|
    V0 := a1 params + a2 params / psiP
          + (a3 params + a4 params / psiP) / Tth
          - w * bornQ we - (bornZ we + 1) * wP;
    VT0 := - (a3 params + a4 params / psiP) / (Tth * Tth)
           - wT * bornQ we - w * bornU we - bornY we * wP
           - (bornZ we + 1) * wTP;
    VP0 := - a2 params / (psiP * psiP) - a4 params / (psiP * psiP * Tth)
           - wP * bornQ we - w * bornN we - bornQ we * wP
           - (bornZ we + 1) * wPP;
    G0 := Gf params - Sr params * (T - Tr)
          - c1 params * (T * log (T / Tr) - T + Tr)
          + a1 params * (P - Pr) + a2 params * log (psiP / psiPr)
          - c2 params
            * ((1.0 / (T - theta) - 1.0 / (Tr - theta)) * (theta - T) / theta
               - T / (theta * theta)
                 * log (Tr / T * (T - theta) / (Tr - theta)))
          + 1.0 / Tth * (a3 params * (P - Pr)
                         + a4 params * log (psiP / psiPr))
          - w * (bornZ we + 1) + wr * (Zr + 1) + wr * Yr * (T - Tr);
    H0 := Hf params + c1 params * (T - Tr)
          - c2 params * (1.0 / Tth - 1.0 / (Tr - theta))
          + a1 params * (P - Pr) + a2 params * log (psiP / psiPr)
          + (2.0 * T - theta) / Tth2
            * (a3 params * (P - Pr) + a4 params * log (psiP / psiPr))
          - w * (bornZ we + 1) + w * T * bornY we
          + T * (bornZ we + 1) * wT + wr * (Zr + 1) - wr * Tr * Yr;
    Cp0 := c1 params + c2 params / Tth2
           - 2.0 * T / Tth3
             * (a3 params * (P - Pr) + a4 params * log (psiP / psiPr))
           + w * T * bornX we + 2.0 * T * bornY we * wT
           + T * (bornZ we + 1.0) * wTT
  |}.

End WithExternals.
End StandardThermoDEW.

Module SamplesPsat.

(** Zhang & Duan 2005 with the saturation polynomials enabled. *)
Definition thermoZD05Psat : WaterThermoModelOptions :=
  {| eosModel := ZhangDuan2005;
     thermo_usePsatPolynomials := true;
     thermo_psatRelativeTolerance := 0.001;
     zhangDuan2009Options := defaultZhangDuan2009Options;
     thermo_densityTolerance := 0.001 |}.

(** Zhang & Duan 2009 along the saturation curve. *)
Definition zd09AlongPsat : WaterZhangDuan2009Options :=
  {| usePsat := true; pressureToleranceBar := 0.01; maxIterations := 50 |}.

(** The power-function dielectric model with the saturation polynomials
    forced. *)
Definition dielectricForcePsat : DielectricModel.WaterDielectricModelOptions :=
  {| DielectricModel.primary := DielectricModel.PowerFunction;
     DielectricModel.psatMode := DielectricModel.ForcePsat;
     DielectricModel.psatRelativeTolerance := 0.001;
     DielectricModel.overrideQWithPsatFit := true |}.

(** The polynomial Gibbs model with the saturation override enabled. *)
Definition gibbsNearPsat : WaterGibbsModelOptions :=
  {| model := DelaneyHelgeson1978;
     thermo := Inputs.thermoWagnerPruss;
     usePsatPolynomials := true;
     psatRelativeTolerance := 0.001;
     integrationMethod := Trapezoidal;
     integrationSteps := 5000;
     useExcelIntegration := false;
     adaptiveIntegrationTolerance := 0.1;
     maxAdaptiveSubdivisions := 20;
     densityTolerance := 0.001 |}.

End SamplesPsat.

(** ** Parameter sets that differ in one choice *)

Module Params.

(** [params] with the water Gibbs formulation [g] selected. *)
Definition withGibbsModel (g : WaterGibbsModel)
    (params : StandardThermoDEW.StandardThermoModelParamsDEW)
    : StandardThermoDEW.StandardThermoModelParamsDEW :=
  let wo := StandardThermoDEW.waterOptions params in
  {| StandardThermoDEW.Gf := StandardThermoDEW.Gf params;
     StandardThermoDEW.Hf := StandardThermoDEW.Hf params;
     StandardThermoDEW.Sr := StandardThermoDEW.Sr params;
     StandardThermoDEW.a1 := StandardThermoDEW.a1 params;
     StandardThermoDEW.a2 := StandardThermoDEW.a2 params;
     StandardThermoDEW.a3 := StandardThermoDEW.a3 params;
     StandardThermoDEW.a4 := StandardThermoDEW.a4 params;
     StandardThermoDEW.c1 := StandardThermoDEW.c1 params;
     StandardThermoDEW.c2 := StandardThermoDEW.c2 params;
     StandardThermoDEW.wref := StandardThermoDEW.wref params;
     StandardThermoDEW.charge := StandardThermoDEW.charge params;
     StandardThermoDEW.Tmax := StandardThermoDEW.Tmax params;
     StandardThermoDEW.waterOptions :=
       {| ModelOptions.eosModel := ModelOptions.eosModel wo;
          ModelOptions.dielectricModel := ModelOptions.dielectricModel wo;
          ModelOptions.gibbsModel := g;
          ModelOptions.bornModel := ModelOptions.bornModel wo;
          ModelOptions.usePsatPolynomials := ModelOptions.usePsatPolynomials wo;
          ModelOptions.psatRelTol := ModelOptions.psatRelTol wo;
          ModelOptions.densityTolerance := ModelOptions.densityTolerance wo |}
  |}.

(** [params] with the density tolerance [tol] of the water models. *)
Definition withDensityTolerance (tol : Q)
    (params : StandardThermoDEW.StandardThermoModelParamsDEW)
    : StandardThermoDEW.StandardThermoModelParamsDEW :=
  let wo := StandardThermoDEW.waterOptions params in
  {| StandardThermoDEW.Gf := StandardThermoDEW.Gf params;
     StandardThermoDEW.Hf := StandardThermoDEW.Hf params;
     StandardThermoDEW.Sr := StandardThermoDEW.Sr params;
     StandardThermoDEW.a1 := StandardThermoDEW.a1 params;
     StandardThermoDEW.a2 := StandardThermoDEW.a2 params;
     StandardThermoDEW.a3 := StandardThermoDEW.a3 params;
     StandardThermoDEW.a4 := StandardThermoDEW.a4 params;
     StandardThermoDEW.c1 := StandardThermoDEW.c1 params;
     StandardThermoDEW.c2 := StandardThermoDEW.c2 params;
     StandardThermoDEW.wref := StandardThermoDEW.wref params;
     StandardThermoDEW.charge := StandardThermoDEW.charge params;
     StandardThermoDEW.Tmax := StandardThermoDEW.Tmax params;
     StandardThermoDEW.waterOptions :=
       {| ModelOptions.eosModel := ModelOptions.eosModel wo;
          ModelOptions.dielectricModel := ModelOptions.dielectricModel wo;
          ModelOptions.gibbsModel := ModelOptions.gibbsModel wo;
          ModelOptions.bornModel := ModelOptions.bornModel wo;
          ModelOptions.usePsatPolynomials := ModelOptions.usePsatPolynomials wo;
          ModelOptions.psatRelTol := ModelOptions.psatRelTol wo;
          ModelOptions.densityTolerance := tol |}
  |}.

(** A monovalent anion with the DEW preset of the water models, and the
    same with another dielectric model, with the Born model off, and with
    the Wagner-Pruss equation of state. *)
Definition waterOptionsWith (m : WaterDielectricModel)
    (b : ModelOptions.WaterBornModel) : ModelOptions.WaterModelOptions :=
  {| ModelOptions.eosModel := WagnerPruss;
     ModelOptions.dielectricModel := m;
     ModelOptions.gibbsModel := DewIntegral;
     ModelOptions.bornModel := b;
     ModelOptions.usePsatPolynomials := false;
     ModelOptions.psatRelTol := 0.001;
     ModelOptions.densityTolerance := 0.001 |}.

Definition anion (wo : ModelOptions.WaterModelOptions)
    : StandardThermoDEW.StandardThermoModelParamsDEW :=
  {| StandardThermoDEW.Gf := -131290;
     StandardThermoDEW.Hf := -167080;
     StandardThermoDEW.Sr := 56.735;
     StandardThermoDEW.a1 := 0.0000168;
     StandardThermoDEW.a2 := 2009;
     StandardThermoDEW.a3 := 0.0002336;
     StandardThermoDEW.a4 := -119300;
     StandardThermoDEW.c1 := -18.41;
     StandardThermoDEW.c2 := -240000;
     StandardThermoDEW.wref := 609190;
     StandardThermoDEW.charge := -1;
     StandardThermoDEW.Tmax := 1273.15;
     StandardThermoDEW.waterOptions := wo |}.

End Params.


(** * Properties *)

(** ** Comparisons *)

Lemma Qlt_bool_iff (x y : Q) : Qlt_bool x y = true <-> x < y.
Proof.
  unfold Qlt_bool. rewrite negb_true_iff.
  split; intro H.
  - apply Qnot_le_lt. intro Hle. apply Qle_bool_iff in Hle. congruence.
  - destruct (Qle_bool y x) eqn:E; [|reflexivity].
    apply Qle_bool_iff in E. apply Qle_not_lt in E. contradiction.
Qed.

Lemma Qlt_bool_false (x y : Q) : Qlt_bool x y = false <-> y <= x.
Proof.
  unfold Qlt_bool. rewrite negb_false_iff. apply Qle_bool_iff.
Qed.

Lemma Qle_bool_false (x y : Q) : Qle_bool x y = false <-> y < x.
Proof.
  split; intro H.
  - apply Qnot_le_lt. intro Hle. apply Qle_bool_iff in Hle. congruence.
  - destruct (Qle_bool x y) eqn:E; [|reflexivity].
    apply Qle_bool_iff in E. apply Qle_not_lt in E. contradiction.
Qed.

Lemma Qeq_bool_false (x y : Q) : Qeq_bool x y = false <-> ~ x == y.
Proof.
  split; intro H.
  - intro E. apply Qeq_bool_iff in E. congruence.
  - destruct (Qeq_bool x y) eqn:E; [|reflexivity].
    apply Qeq_bool_iff in E. contradiction.
Qed.

(** ** Born omega *)

Section BornOmegaFacts.
Variables (exp log : Q -> Q) (pow : Q -> Q -> Q) (psat : Q -> Q).

Lemma born_short_circuit_true (P Z : Q) (opt : WaterBornOmegaOptions) :
  born_short_circuit P Z opt = true <->
  Z == 0 \/ isHydrogenLike opt = true \/ maxPressureForVariation opt < P.
Proof.
  unfold born_short_circuit.
  rewrite !orb_true_iff, Qeq_bool_iff, Qlt_bool_iff.
  assert (E : Z == 0.0 <-> Z == 0) by (split; intro H; lra).
  rewrite E. tauto.
Qed.

(** C3.  When the charge is zero, or the species is flagged hydrogen-like,
    or the pressure exceeds the configured cutoff (6000 bar by default),
    the Born omega function returns the reference coefficient itself and
    its pressure derivative is zero. *)
Theorem born_omega_trivial_short_circuit
    (T P : Q) (wt : WaterThermoProps) (wref Z : Q)
    (opt : WaterBornOmegaOptions) :
  (Z == 0 \/ isHydrogenLike opt = true \/ maxPressureForVariation opt < P ->
   BornOmega.waterBornOmegaDEW pow psat T P wt wref Z opt = wref /\
   BornOmega.waterBornDOmegaDP_DEW exp log pow psat T P wt wref Z opt == 0)
  /\
  maxPressureForVariation defaultWaterBornOmegaOptions == 6000 * 100000.
Proof.
  split; [|reflexivity].
  intro H. apply born_short_circuit_true in H.
  unfold born_short_circuit in H.
  unfold BornOmega.waterBornOmegaDEW, BornOmega.waterBornDOmegaDP_DEW.
  rewrite H. split; [reflexivity | lra].
Qed.

End BornOmegaFacts.

Lemma born_omega_trivial_short_circuit_witness :
  (0 == 0 \/ isHydrogenLike defaultWaterBornOmegaOptions = true
   \/ maxPressureForVariation defaultWaterBornOmegaOptions < 500000000) /\
  BornOmega.waterBornOmegaDEW LibmQ.pow_q Inputs.psat_1atm
    573.15 500000000 (Inputs.waterAt 900) 500000 0
    defaultWaterBornOmegaOptions = 500000 /\
  BornOmega.waterBornDOmegaDP_DEW LibmQ.exp_q LibmQ.log_q LibmQ.pow_q
    Inputs.psat_1atm 573.15 500000000 (Inputs.waterAt 900) 500000 0
    defaultWaterBornOmegaOptions == 0.
Proof.
  assert (H : 0 == 0 \/ isHydrogenLike defaultWaterBornOmegaOptions = true
              \/ maxPressureForVariation defaultWaterBornOmegaOptions
                 < 500000000) by (left; reflexivity).
  split; [exact H|].
  exact (proj1 (born_omega_trivial_short_circuit LibmQ.exp_q LibmQ.log_q
           LibmQ.pow_q Inputs.psat_1atm 573.15 500000000
           (Inputs.waterAt 900) 500000 0 defaultWaterBornOmegaOptions) H).
Defined.

(** ** Solvent function g *)

Section SolventFacts.
Variables (exp log : Q -> Q) (pow : Q -> Q -> Q) (psat : Q -> Q).

(** C7, amended.  In the general branch (along-saturation evaluation not
    requested), a water state whose density is at least 1 g/cm3 makes the
    solvent function g zero and its pressure derivative zero, whatever the
    temperature, the pressure and the value of g handed to the derivative. *)
Theorem solvent_function_zero_at_high_density
    (T P : Q) (wt : WaterThermoProps) (g : Q)
    (opt : WaterSolventFunctionOptions) :
  Psat opt = false ->
  1 <= D wt / 1000 ->
  SolventFunction.waterSolventFunctionDEW pow psat T P wt opt == 0 /\
  SolventFunction.waterSolventFunctionDgdP_DEW exp log pow T P wt g opt == 0.
Proof.
  intros Hp Hrho.
  unfold SolventFunction.waterSolventFunctionDEW,
         SolventFunction.waterSolventFunctionDgdP_DEW,
         SolventFunction.rho_si_to_g_cm3.
  rewrite Hp.
  assert (E : Qle_bool 1.0 (D wt / 1000.0) = true).
  { apply Qle_bool_iff.
    assert (D wt / 1000.0 == D wt / 1000) by (apply Qdiv_comp; lra).
    lra. }
  rewrite E. split; lra.
Qed.

End SolventFacts.

Lemma solvent_function_zero_at_high_density_witness :
  (Psat Inputs.solventGeneral = false /\
   1 <= D (Inputs.waterAt 1050) / 1000) /\
  SolventFunction.waterSolventFunctionDEW LibmQ.pow_q Inputs.psat_1atm
    573.15 500000000 (Inputs.waterAt 1050) Inputs.solventGeneral == 0 /\
  SolventFunction.waterSolventFunctionDgdP_DEW LibmQ.exp_q LibmQ.log_q
    LibmQ.pow_q 573.15 500000000 (Inputs.waterAt 1050) 0
    Inputs.solventGeneral == 0.
Proof.
  assert (H1 : Psat Inputs.solventGeneral = false) by reflexivity.
  assert (H2 : 1 <= D (Inputs.waterAt 1050) / 1000)
    by (vm_compute; discriminate).
  split; [split; assumption|].
  exact (solvent_function_zero_at_high_density LibmQ.exp_q LibmQ.log_q
           LibmQ.pow_q Inputs.psat_1atm 573.15 500000000
           (Inputs.waterAt 1050) 0 Inputs.solventGeneral H1 H2).
Defined.

(** C7 as stated fails when along-saturation evaluation is requested: at
    100 degrees Celsius and a water state of density 1 g/cm3 the function g
    is computed from the saturation density and dg/dP is the saturation
    polynomial; neither is zero. *)
Lemma solvent_function_psat_counterexample :
  1 <= D (Inputs.waterAt 1000) / 1000 /\
  ~ SolventFunction.waterSolventFunctionDEW LibmQ.pow_q Inputs.psat_1atm
      373.15 101325 (Inputs.waterAt 1000) Inputs.solventAlongPsat == 0 /\
  ~ SolventFunction.waterSolventFunctionDgdP_DEW LibmQ.exp_q LibmQ.log_q
      LibmQ.pow_q 373.15 101325 (Inputs.waterAt 1000) 0
      Inputs.solventAlongPsat == 0.
Proof.
  split; [vm_compute; discriminate|].
  split; apply Qeq_bool_false; vm_compute; reflexivity.
Qed.

(** ** Water Gibbs energy at and below the 1000 bar reference *)

Section GibbsReferenceFacts.
Variable exp : Q -> Q.
Variable psat : Q -> Q.
Variable WaterHelmholtzProps : Type.
Variables whpWagnerPruss whpHGK : Q -> Q -> WaterHelmholtzProps.
Variable thermoProps : Q -> Q -> WaterHelmholtzProps -> WaterThermoProps.

Abbreviation gibbsDewIntegral :=
  (GibbsModel.gibbsDewIntegral_J_per_mol exp psat WaterHelmholtzProps
     whpWagnerPruss whpHGK thermoProps).
Abbreviation gibbsDewIntegralExcel :=
  (GibbsModelExcel.gibbsDewIntegral_J_per_mol exp psat WaterHelmholtzProps
     whpWagnerPruss whpHGK thermoProps).


End GibbsReferenceFacts.



(** ** Dielectric selector: consistency of the Born coefficients *)

Section ElectroFacts.
Variables (exp sqrt : Q -> Q) (pow : Q -> Q -> Q) (psat : Q -> Q).
Variables (epsilon_jn depsdrho_jn : Q -> Q -> Q).

Lemma born_consistent_intro (eps epsP z q : Q) :
  ~ eps == 0 ->
  z == -1.0 / eps ->
  q == epsP / (eps * eps) ->
  z == -1 / eps /\ q == epsP / eps ^ 2.
Proof.
  intros Hne Hz Hq. split.
  - rewrite Hz. field. exact Hne.
  - rewrite Hq. field. exact Hne.
Qed.

Lemma franck_consistent (T P : Q) (wt : WaterThermoProps) :
  let we := Franck.waterElectroPropsFranck1990 T P wt in
  ~ epsilon we == 0 -> born_consistent we.
Proof.
  intros we Hne. unfold born_consistent.
  subst we. unfold Franck.waterElectroPropsFranck1990 in *.
  cbn [epsilon epsilonP bornZ bornQ] in *.
  apply born_consistent_intro; [exact Hne | reflexivity |].
  assert (E : Qeq_bool (Franck.epsilon_franck T
                 (Franck.density_si_to_g_cm3 (D wt))) 0.0 = false).
  { apply Qeq_bool_false. intro H. apply Hne. rewrite H. reflexivity. }
  rewrite E. reflexivity.
Qed.

Lemma fernandez_consistent (T P : Q) (wt : WaterThermoProps) :
  let we := Fernandez.waterElectroPropsFernandez1997 sqrt pow T P wt in
  ~ epsilon we == 0 -> born_consistent we.
Proof.
  intros we Hne. unfold born_consistent.
  subst we. unfold Fernandez.waterElectroPropsFernandez1997 in *.
  cbn [epsilon epsilonP bornZ bornQ] in *.
  assert (E : Qeq_bool (Fernandez.epsilon_fernandez sqrt pow T
                 (Fernandez.density_si_to_g_cm3 (D wt))) 0.0 = false).
  { apply Qeq_bool_false. intro H. apply Hne. rewrite H. reflexivity. }
  rewrite E. cbn [negb].
  apply born_consistent_intro; [exact Hne | reflexivity | reflexivity].
Qed.

Lemma power_function_consistent (T P : Q) (wt : WaterThermoProps) :
  let we := PowerFn.waterElectroPropsPowerFunction exp sqrt pow T P wt in
  ~ epsilon we == 0 -> born_consistent we.
Proof.
  intros we Hne. unfold born_consistent.
  subst we. unfold PowerFn.waterElectroPropsPowerFunction in *.
  cbn [epsilon epsilonP bornZ bornQ] in *.
  assert (E : Qeq_bool (PowerFn.epsilon_power exp sqrt pow T
                 (PowerFn.density_si_to_g_cm3 (D wt))) 0.0 = false).
  { apply Qeq_bool_false. intro H. apply Hne. rewrite H. reflexivity. }
  rewrite E. cbn [negb].
  apply born_consistent_intro; [exact Hne | reflexivity | reflexivity].
Qed.

Lemma johnson_norton_consistent (T P : Q) (wt : WaterThermoProps) :
  let we := JohnsonNorton.waterElectroPropsJohnsonNorton epsilon_jn
              depsdrho_jn T P wt in
  ~ epsilon we == 0 -> born_consistent we.
Proof.
  intros we Hne. unfold born_consistent.
  subst we. unfold JohnsonNorton.waterElectroPropsJohnsonNorton in *.
  cbn [epsilon epsilonP bornZ bornQ] in *.
  apply born_consistent_intro; [exact Hne | reflexivity | reflexivity].
Qed.

(** The near-saturation override keeps the coefficients consistent: it
    installs the polynomial Q and rebuilds epsilon_P as Q * epsilon^2. *)
Lemma psat_override_consistent (T P : Q) (opt : WaterElectroModelOptions)
    (we : WaterElectroProps) :
  (~ epsilon we == 0 -> born_consistent we) ->
  let we' := ElectroModel.maybeApplyPsatOverride psat T P opt we in
  ~ epsilon we' == 0 -> born_consistent we'.
Proof.
  intros Hbase we'. subst we'.
  unfold ElectroModel.maybeApplyPsatOverride.
  destruct (negb (electro_usePsatPolynomials opt)); [exact Hbase|].
  destruct (negb (ElectroModel.isNearPsat psat T P
                    (electro_psatRelativeTolerance opt))); [exact Hbase|].
  destruct (Qle_bool (PsatPolynomials.waterPsatEpsilonDEW T) 0.0) eqn:E;
    [exact Hbase|].
  cbn [epsilon]. intro Hne. unfold born_consistent.
  cbn [epsilon epsilonP bornZ bornQ].
  split; field; exact Hne.
Qed.


End ElectroFacts.


(** ** Born omega: degenerate algebra *)

Section BornDegenerateFacts.
Variables (exp log : Q -> Q) (pow : Q -> Q -> Q) (psat : Q -> Q).

(** C4, amended.  On an input that is not short-circuited, if the
    reference-radius denominator is zero, or the effective radius is zero
    or negative, the Born omega function returns the reference coefficient
    and its pressure derivative is zero. *)
Theorem born_omega_degenerate_guard
    (T P : Q) (wt : WaterThermoProps) (wref Z : Q)
    (opt : WaterBornOmegaOptions) :
  born_short_circuit P Z opt = false ->
  born_denom wref Z == 0 \/ born_re_A pow psat T P wt wref Z opt <= 0 ->
  BornOmega.waterBornOmegaDEW pow psat T P wt wref Z opt = wref /\
  BornOmega.waterBornDOmegaDP_DEW exp log pow psat T P wt wref Z opt == 0.
Proof.
  intros Hsc Hdeg.
  unfold born_short_circuit in Hsc.
  unfold BornOmega.waterBornOmegaDEW, BornOmega.waterBornDOmegaDP_DEW.
  rewrite Hsc.
  unfold born_re_A, born_denom in Hdeg.
  destruct (Qeq_bool (wref / 4.184 / BornOmega.eta_cal_per_A + Z / 3.082) 0.0)
    eqn:Ed.
  - split; [reflexivity | lra].
  - destruct Hdeg as [Hz | Hre].
    + apply Qeq_bool_false in Ed. exfalso. apply Ed. rewrite Hz. reflexivity.
    + assert (Er : Qle_bool
                (Z * Z / (wref / 4.184 / BornOmega.eta_cal_per_A + Z / 3.082)
                 + Qabs Z * BornOmega.compute_g pow psat T P wt opt) 0.0
                = true) by (apply Qle_bool_iff; lra).
      rewrite Er. split; [reflexivity | lra].
Qed.

End BornDegenerateFacts.

Lemma born_omega_degenerate_guard_witness :
  (born_short_circuit 100000 (-1) defaultWaterBornOmegaOptions = false /\
   (born_denom 100000 (-1) == 0 \/
    born_re_A LibmQ.pow_q Inputs.psat_1atm 573.15 100000
      (Inputs.waterAt 1050) 100000 (-1) defaultWaterBornOmegaOptions <= 0))
  /\
  BornOmega.waterBornOmegaDEW LibmQ.pow_q Inputs.psat_1atm 573.15 100000
    (Inputs.waterAt 1050) 100000 (-1) defaultWaterBornOmegaOptions = 100000
  /\
  BornOmega.waterBornDOmegaDP_DEW LibmQ.exp_q LibmQ.log_q LibmQ.pow_q
    Inputs.psat_1atm 573.15 100000 (Inputs.waterAt 1050) 100000 (-1)
    defaultWaterBornOmegaOptions == 0.
Proof.
  assert (H1 : born_short_circuit 100000 (-1) defaultWaterBornOmegaOptions
               = false) by reflexivity.
  assert (H2 : born_denom 100000 (-1) == 0 \/
               born_re_A LibmQ.pow_q Inputs.psat_1atm 573.15 100000
                 (Inputs.waterAt 1050) 100000 (-1)
                 defaultWaterBornOmegaOptions <= 0)
    by (right; vm_compute; discriminate).
  split; [split; assumption|].
  exact (born_omega_degenerate_guard LibmQ.exp_q LibmQ.log_q LibmQ.pow_q
           Inputs.psat_1atm 573.15 100000 (Inputs.waterAt 1050) 100000 (-1)
           defaultWaterBornOmegaOptions H1 H2).
Defined.

(** C4 as stated fails for a negative denominator: with charge -1, a
    reference coefficient of -7e8 J/mol, 332.147 degrees Celsius, 1 bar and
    a water state of density 0.999999 g/cm3, the denominator is about -1008,
    the solvent function g is about 0.0088, the effective radius is
    positive, and the function returns about 8.9e7 J/mol instead of the
    reference coefficient. *)
Lemma born_omega_negative_denominator_counterexample :
  born_short_circuit 100000 (-1) defaultWaterBornOmegaOptions = false /\
  born_denom (-700000000) (-1) <= 0 /\
  ~ BornOmega.waterBornOmegaDEW LibmQ.pow_q Inputs.psat_1atm 605.297 100000
      (Inputs.waterAt 999.999) (-700000000) (-1)
      defaultWaterBornOmegaOptions == -700000000.
Proof.
  split; [reflexivity|].
  split; [vm_compute; discriminate|].
  apply Qeq_bool_false. vm_compute. reflexivity.
Qed.

(** ** Density bisection *)

Section BisectionFacts.
Variables (conv above : Q -> bool).

Lemma bisect_loop_in_bracket (n : nat) :
  forall lo hi rho : Q,
    lo <= rho -> rho <= hi ->
    lo <= bisect_loop conv above n lo hi rho /\
    bisect_loop conv above n lo hi rho <= hi.
Proof.
  induction n as [|n IH]; intros lo hi rho Hlo Hhi; cbn [bisect_loop].
  - split; assumption.
  - destruct (conv rho); [split; assumption|].
    destruct (above rho).
    + destruct (IH lo rho (0.5 * (rho + lo))) as [H1 H2]; lra.
    + destruct (IH rho hi (0.5 * (rho + hi))) as [H1 H2]; lra.
Qed.

Lemma bisect_trace_length (n : nat) :
  forall lo hi rho : Q,
    (length (bisect_trace conv above n lo hi rho) <= n)%nat.
Proof.
  induction n as [|n IH]; intros lo hi rho; cbn [bisect_trace length].
  - lia.
  - destruct (conv rho); cbn [length]; [lia|].
    destruct (above rho); apply le_n_S, IH.
Qed.

(** The loop stops at the first visited density that passes the test, and
    otherwise runs all its iterations and returns the next midpoint. *)
Lemma bisect_loop_spec (n : nat) :
  forall lo hi rho : Q,
    let tr := bisect_trace conv above n lo hi rho in
    let r := bisect_loop conv above n lo hi rho in
    (exists pre, tr = pre ++ [r] /\ conv r = true /\
                 Forall (fun x => conv x = false) pre)
    \/
    (length tr = n /\ Forall (fun x => conv x = false) tr /\
     r = snd (bisect_state above n (lo, hi, rho))).
Proof.
  induction n as [|n IH]; intros lo hi rho;
    cbn [bisect_trace bisect_loop bisect_state].
  - right. repeat split. constructor.
  - destruct (conv rho) eqn:Ec.
    + left. exists []. repeat split; [exact Ec | constructor].
    + unfold bisect_step. destruct (above rho).
      * destruct (IH lo rho (0.5 * (rho + lo)))
          as [[pre [Ht [Hc Hp]]] | [Hl [Hf Hr]]].
        -- left. exists (rho :: pre). cbn [app]. rewrite <- Ht.
           repeat split; [exact Hc | constructor; assumption].
        -- right. cbn [length]. rewrite Hl.
           repeat split; [constructor; assumption | exact Hr].
      * destruct (IH rho hi (0.5 * (rho + hi)))
          as [[pre [Ht [Hc Hp]]] | [Hl [Hf Hr]]].
        -- left. exists (rho :: pre). cbn [app]. rewrite <- Ht.
           repeat split; [exact Hc | constructor; assumption].
        -- right. cbn [length]. rewrite Hl.
           repeat split; [constructor; assumption | exact Hr].
Qed.

(** When no density passes the test, every iteration runs. *)
Lemma bisect_trace_length_unconverged (n : nat) :
  (forall x, conv x = false) ->
  forall lo hi rho : Q, length (bisect_trace conv above n lo hi rho) = n.
Proof.
  intro Hnc. induction n as [|n IH]; intros lo hi rho;
    cbn [bisect_trace length]; [reflexivity|].
  rewrite Hnc. destruct (above rho); rewrite IH; reflexivity.
Qed.

(** When the pressure at the lower end is above the target and outside
    the tolerance, the iterate stays at that end and every iteration
    runs. *)
Lemma bisect_trace_length_stuck (rho0 : Q) :
  (forall x, x == rho0 -> conv x = false /\ above x = true) ->
  forall (n : nat) (lo hi rho : Q),
    lo == rho0 -> rho == rho0 ->
    length (bisect_trace conv above n lo hi rho) = n.
Proof.
  intros Hstuck. induction n as [|n IH]; intros lo hi rho Hlo Hrho;
    cbn [bisect_trace length]; [reflexivity|].
  destruct (Hstuck rho Hrho) as [Hc Ha]. rewrite Hc, Ha.
  f_equal. apply IH; [exact Hlo|]. rewrite Hlo, Hrho. lra.
Qed.

End BisectionFacts.

Section DensitySolverFacts.
Variable exp : Q -> Q.

Lemma zd05_density_loop_bisect (P_bar_target T_C error_bar : Q) (n : nat) :
  forall lo hi rho : Q,
    ZD05.zd05_density_loop exp n P_bar_target T_C error_bar lo hi rho =
    bisect_loop (zd05_conv exp P_bar_target T_C error_bar)
      (zd05_above exp P_bar_target T_C) n lo hi rho.
Proof.
  induction n as [|n IH]; intros lo hi rho;
    cbn [ZD05.zd05_density_loop bisect_loop]; [reflexivity|].
  unfold zd05_conv at 1, zd05_above at 1.
  destruct (Qle_bool _ error_bar); [reflexivity|].
  destruct (Qlt_bool 0.0 _); apply IH.
Qed.

Lemma zd09_density_loop_bisect (P_bar T_C : Q)
    (opts : WaterZhangDuan2009Options) (n : nat) :
  forall lo hi rho : Q,
    ZD09.calculateDensity_loop exp n P_bar T_C opts lo hi rho =
    bisect_loop (zd09_conv exp P_bar T_C opts) (zd09_above exp P_bar T_C)
      n lo hi rho.
Proof.
  induction n as [|n IH]; intros lo hi rho;
    cbn [ZD09.calculateDensity_loop bisect_loop]; [reflexivity|].
  unfold zd09_conv at 1, zd09_above at 1.
  destruct (Qle_bool _ (pressureToleranceBar opts)); [reflexivity|].
  destruct (Qlt_bool P_bar _); apply IH.
Qed.

(** C9.  The density returned by the bisection lies in the initial bracket
    of its variant, [1e-5, 2.5] g/cm3 for Zhang & Duan 2005 and [1e-5, 10]
    g/cm3 for Zhang & Duan 2009, and is therefore strictly positive, for
    every temperature, target pressure, tolerance and iteration cap. *)
Theorem density_bisection_stays_in_bracket
    (P_bar T_C error_bar : Q) (opts : WaterZhangDuan2009Options) :
  (0.00001 <= ZD05.zd05_density_g_cm3 exp P_bar T_C error_bar /\
   ZD05.zd05_density_g_cm3 exp P_bar T_C error_bar <= 2.5 /\
   0 < ZD05.zd05_density_g_cm3 exp P_bar T_C error_bar) /\
  (usePsat opts = false ->
   0.00001 <= ZD09.calculateDensity_ZD09 exp P_bar T_C opts /\
   ZD09.calculateDensity_ZD09 exp P_bar T_C opts <= 10 /\
   0 < ZD09.calculateDensity_ZD09 exp P_bar T_C opts).
Proof.
  split.
  - unfold ZD05.zd05_density_g_cm3. rewrite zd05_density_loop_bisect.
    destruct (bisect_loop_in_bracket
                (zd05_conv exp P_bar T_C error_bar)
                (zd05_above exp P_bar T_C) 50 0.00001 2.5 0.00001)
      as [H1 H2]; lra.
  - intro Hp. unfold ZD09.calculateDensity_ZD09. rewrite Hp.
    rewrite zd09_density_loop_bisect.
    destruct (bisect_loop_in_bracket
                (zd09_conv exp P_bar T_C opts) (zd09_above exp P_bar T_C)
                (Z.to_nat (maxIterations opts))
                0.00001 (7.5 * 2.0 - 5.0) 0.00001) as [H1 H2]; lra.
Qed.

End DensitySolverFacts.

Lemma density_bisection_stays_in_bracket_witness :
  usePsat defaultZhangDuan2009Options = false /\
  (0.00001 <= ZD05.zd05_density_g_cm3 LibmQ.exp_q 5000 300 0.001 /\
   ZD05.zd05_density_g_cm3 LibmQ.exp_q 5000 300 0.001 <= 2.5 /\
   0 < ZD05.zd05_density_g_cm3 LibmQ.exp_q 5000 300 0.001) /\
  (0.00001 <= ZD09.calculateDensity_ZD09 LibmQ.exp_q 5000 300
                defaultZhangDuan2009Options /\
   ZD09.calculateDensity_ZD09 LibmQ.exp_q 5000 300
     defaultZhangDuan2009Options <= 10 /\
   0 < ZD09.calculateDensity_ZD09 LibmQ.exp_q 5000 300
         defaultZhangDuan2009Options).
Proof.
  assert (H : usePsat defaultZhangDuan2009Options = false) by reflexivity.
  split; [exact H|].
  destruct (density_bisection_stays_in_bracket LibmQ.exp_q 5000 300 0.001
              defaultZhangDuan2009Options) as [H05 H09].
  split; [exact H05 | exact (H09 H)].
Defined.

Section IterationCapFacts.
Variable exp : Q -> Q.

Lemma zd05_conv_iff (P_bar_target T_C error_bar rho : Q) :
  zd05_conv exp P_bar_target T_C error_bar rho = true <->
  Qabs (ZD05.zd05_pressure_bar exp rho T_C - P_bar_target) <= error_bar.
Proof. unfold zd05_conv. apply Qle_bool_iff. Qed.

Lemma zd09_conv_iff (P_bar T_C : Q) (opts : WaterZhangDuan2009Options)
    (rho : Q) :
  zd09_conv exp P_bar T_C opts rho = true <->
  Qabs (ZD09.calculatePressure_ZD09 exp rho T_C - P_bar)
  <= pressureToleranceBar opts.
Proof. unfold zd09_conv. apply Qle_bool_iff. Qed.

(** C5, amended.  The bisection of Zhang & Duan 2005 runs at most 50
    iterations and that of Zhang & Duan 2009 at most [maxIterations] (50 by
    default).  Either it returns the first visited density whose pressure
    is within the tolerance of the target (every density visited before it
    is not), or no visited density is within the tolerance, every iteration
    ran, and it returns the midpoint computed by the last one.  [zd05_conv]
    and [zd09_conv] are the test |P(rho) - P_target| <= tolerance. *)
Theorem density_bisection_iteration_cap
    (P_bar T_C error_bar : Q) (opts : WaterZhangDuan2009Options) :
  (let tr := zd05_iterates exp P_bar T_C error_bar in
   let r := ZD05.zd05_density_g_cm3 exp P_bar T_C error_bar in
   (length tr <= 50)%nat /\
   ((exists pre, tr = pre ++ [r] /\
        zd05_conv exp P_bar T_C error_bar r = true /\
        Forall (fun x => zd05_conv exp P_bar T_C error_bar x = false) pre)
    \/
    (length tr = 50%nat /\
     Forall (fun x => zd05_conv exp P_bar T_C error_bar x = false) tr /\
     r = snd (bisect_state (zd05_above exp P_bar T_C) 50
                (0.00001, 2.5, 0.00001)))))
  /\
  (usePsat opts = false ->
   let cap := Z.to_nat (maxIterations opts) in
   let tr := zd09_iterates exp P_bar T_C opts in
   let r := ZD09.calculateDensity_ZD09 exp P_bar T_C opts in
   (length tr <= cap)%nat /\
   (maxIterations opts = 50%Z -> (length tr <= 50)%nat) /\
   ((exists pre, tr = pre ++ [r] /\
        zd09_conv exp P_bar T_C opts r = true /\
        Forall (fun x => zd09_conv exp P_bar T_C opts x = false) pre)
    \/
    (length tr = cap /\
     Forall (fun x => zd09_conv exp P_bar T_C opts x = false) tr /\
     r = snd (bisect_state (zd09_above exp P_bar T_C) cap
                (0.00001, 7.5 * 2.0 - 5.0, 0.00001))))).
Proof.
  split.
  - cbv zeta. split; [apply bisect_trace_length|].
    unfold ZD05.zd05_density_g_cm3, zd05_iterates.
    rewrite zd05_density_loop_bisect. apply bisect_loop_spec.
  - intro Hp. cbv zeta.
    split; [apply bisect_trace_length|].
    split.
    + intro H50.
      pose proof (bisect_trace_length (zd09_conv exp P_bar T_C opts)
                    (zd09_above exp P_bar T_C)
                    (Z.to_nat (maxIterations opts))
                    0.00001 (7.5 * 2.0 - 5.0) 0.00001) as Hl.
      unfold zd09_iterates. rewrite H50 in Hl |- *. exact Hl.
    + unfold ZD09.calculateDensity_ZD09, zd09_iterates. rewrite Hp.
      rewrite zd09_density_loop_bisect. apply bisect_loop_spec.
Qed.

End IterationCapFacts.

Lemma density_bisection_iteration_cap_witness :
  usePsat defaultZhangDuan2009Options = false /\
  maxIterations defaultZhangDuan2009Options = 50%Z /\
  (length (zd05_iterates LibmQ.exp_q 5000 300 0.001) <= 50)%nat /\
  (length (zd09_iterates LibmQ.exp_q 5000 300 defaultZhangDuan2009Options)
   <= 50)%nat.
Proof.
  assert (H : usePsat defaultZhangDuan2009Options = false) by reflexivity.
  assert (H50 : maxIterations defaultZhangDuan2009Options = 50%Z)
    by reflexivity.
  split; [exact H|]. split; [exact H50|].
  destruct (density_bisection_iteration_cap LibmQ.exp_q 5000 300 0.001
              defaultZhangDuan2009Options) as [[H05 _] H09].
  split; [exact H05|].
  exact (proj1 (proj2 (H09 H)) H50).
Defined.

(** The stand-in exponential and the pressure of Zhang & Duan 2009 do not
    depend on the representation of a rational. *)
Lemma trunc96_eq (x y : Q) : x == y -> LibmQ.trunc96 x = LibmQ.trunc96 y.
Proof.
  intro H. unfold LibmQ.trunc96.
  assert (E : Qfloor (x * inject_Z (2 ^ 96)) = Qfloor (y * inject_Z (2 ^ 96))).
  { apply Qfloor_comp. rewrite H. reflexivity. }
  rewrite E. reflexivity.
Qed.

Lemma exp_q_eq (x y : Q) : x == y -> LibmQ.exp_q x = LibmQ.exp_q y.
Proof.
  intro H. unfold LibmQ.exp_q.
  assert (E1 : Qlt_bool x (-70) = Qlt_bool y (-70)).
  { unfold Qlt_bool. rewrite H. reflexivity. }
  assert (E2 : Qfloor x = Qfloor y) by (apply Qfloor_comp; exact H).
  rewrite E1, E2.
  rewrite (trunc96_eq (x - inject_Z (Qfloor y)) (y - inject_Z (Qfloor y)))
    by (rewrite H; reflexivity).
  reflexivity.
Qed.

Lemma calculatePressure_ZD09_eq (T_C x y : Q) :
  x == y ->
  ZD09.calculatePressure_ZD09 LibmQ.exp_q x T_C
  == ZD09.calculatePressure_ZD09 LibmQ.exp_q y T_C.
Proof.
  intro H.
  assert (Hexp : Proper (Qeq ==> Qeq) LibmQ.exp_q)
    by (intros a b Hab; rewrite (exp_q_eq a b Hab); reflexivity).
  unfold ZD09.calculatePressure_ZD09. cbv zeta.
  rewrite H. reflexivity.
Qed.

(** C5 as stated fails for Zhang & Duan 2009 when the options raise the
    cap.  With [maxIterations] = 60, the default tolerance of 0.01 bar, 300
    degrees Celsius and a target of 0.001 bar, the pressure at the lower end
    of the bracket (about 0.026 bar) is above the target and outside the
    tolerance; the iterate stays at that end and the loop body runs 60
    times. *)
Lemma density_bisection_sixty_iterations_counterexample :
  usePsat Inputs.zd09SixtyIterations = false /\
  (50 < length (zd09_iterates LibmQ.exp_q 0.001 300
                  Inputs.zd09SixtyIterations))%nat.
Proof.
  split; [reflexivity|].
  assert (E : length (zd09_iterates LibmQ.exp_q 0.001 300
                        Inputs.zd09SixtyIterations) = 60%nat);
    [|rewrite E; lia].
  unfold zd09_iterates.
  apply (bisect_trace_length_stuck _ _ 0.00001);
    [|reflexivity|reflexivity].
  intros x Hx.
  assert (Ec : zd09_conv LibmQ.exp_q 0.001 300 Inputs.zd09SixtyIterations x
               = zd09_conv LibmQ.exp_q 0.001 300 Inputs.zd09SixtyIterations
                   0.00001).
  { unfold zd09_conv.
    rewrite (calculatePressure_ZD09_eq 300 x 0.00001 Hx). reflexivity. }
  assert (Ea : zd09_above LibmQ.exp_q 0.001 300 x
               = zd09_above LibmQ.exp_q 0.001 300 0.00001).
  { unfold zd09_above, Qlt_bool.
    rewrite (calculatePressure_ZD09_eq 300 x 0.00001 Hx). reflexivity. }
  rewrite Ec, Ea. split; vm_compute; reflexivity.
Qed.

(** ** The integration engine *)

Lemma guarded_molar_volume (M : Q) (wt : WaterThermoProps) :
  (if Qlt_bool 0.0 (D wt) then div_density M (D wt) else ret 0.0)
  = Some (molarVolume M wt).
Proof.
  unfold div_density, molarVolume, ret.
  destruct (Qlt_bool 0.0 (D wt)); reflexivity.
Qed.

Lemma molarVolume_nonpositive_density (M : Q) (wt : WaterThermoProps) :
  D wt <= 0 -> molarVolume M wt = 0.0.
Proof.
  intro H. unfold molarVolume.
  assert (E : Qlt_bool 0.0 (D wt) = false) by (apply Qlt_bool_false; lra).
  rewrite E. reflexivity.
Qed.

Lemma div_density_after_nonpositive_test (M rho : Q) :
  Qle_bool rho 0.0 = false -> div_density M rho = Some (M / rho).
Proof.
  intro H. unfold div_density, Qlt_bool. rewrite H. reflexivity.
Qed.

Lemma for_loop_lt_total {A : Type} (body : Z -> A -> option A)
    (stop step : Z) :
  (1 <= step)%Z ->
  (forall i a, exists a', body i a = Some a') ->
  forall (fuel : nat) (i : Z) (acc : A),
    (stop - i <= Z.of_nat fuel)%Z ->
    exists v, for_loop fuel i step (fun i => (i <? stop)%Z) body acc = Some v.
Proof.
  intros Hstep Hbody. induction fuel as [|fuel IH]; intros i acc Hf;
    cbn [for_loop].
  - assert (E : (i <? stop)%Z = false) by (apply Z.ltb_ge; lia).
    rewrite E. eexists. reflexivity.
  - destruct (i <? stop)%Z; [|eexists; reflexivity].
    destruct (Hbody i acc) as [a' Ha]. rewrite Ha. cbn [bind].
    apply IH. lia.
Qed.

Lemma for_loop_le_total {A : Type} (body : Z -> A -> option A)
    (stop step : Z) :
  (1 <= step)%Z ->
  (forall i a, exists a', body i a = Some a') ->
  forall (fuel : nat) (i : Z) (acc : A),
    (stop + 1 - i <= Z.of_nat fuel)%Z ->
    exists v, for_loop fuel i step (fun i => (i <=? stop)%Z) body acc = Some v.
Proof.
  intros Hstep Hbody. induction fuel as [|fuel IH]; intros i acc Hf;
    cbn [for_loop].
  - assert (E : (i <=? stop)%Z = false) by (apply Z.leb_gt; lia).
    rewrite E. eexists. reflexivity.
  - destruct (i <=? stop)%Z; [|eexists; reflexivity].
    destruct (Hbody i acc) as [a' Ha]. rewrite Ha. cbn [bind].
    apply IH. lia.
Qed.

Section IntegrationFacts.
Variable exp : Q -> Q.
Variable psat : Q -> Q.
Variable WaterHelmholtzProps : Type.
Variables whpWagnerPruss whpHGK : Q -> Q -> WaterHelmholtzProps.
Variable thermoProps : Q -> Q -> WaterHelmholtzProps -> WaterThermoProps.

Abbreviation eos :=
  (GibbsModel.waterThermoPropsModel exp psat WaterHelmholtzProps
     whpWagnerPruss whpHGK thermoProps).
Abbreviation simpsonRule :=
  (GibbsModel.simpsonRule exp psat WaterHelmholtzProps
     whpWagnerPruss whpHGK thermoProps).
Abbreviation gaussLegendre16 :=
  (GibbsModel.gaussLegendre16 exp psat WaterHelmholtzProps
     whpWagnerPruss whpHGK thermoProps).
Abbreviation adaptiveSimpsonsHelper :=
  (GibbsModel.adaptiveSimpsonsHelper exp psat WaterHelmholtzProps
     whpWagnerPruss whpHGK thermoProps).
Abbreviation adaptiveSimpson :=
  (GibbsModel.adaptiveSimpson exp psat WaterHelmholtzProps
     whpWagnerPruss whpHGK thermoProps).
Abbreviation excelIntegration_loop :=
  (GibbsModel.excelIntegration_loop exp psat WaterHelmholtzProps
     whpWagnerPruss whpHGK thermoProps).
Abbreviation gibbsDewIntegral_J_per_mol :=
  (GibbsModel.gibbsDewIntegral_J_per_mol exp psat WaterHelmholtzProps
     whpWagnerPruss whpHGK thermoProps).

Lemma simpsonRule_total (T_K P_start_Pa P_end_Pa : Q) (nsteps : Z)
    (thermoWithTol : WaterThermoModelOptions) (M : Q) :
  exists v,
    simpsonRule T_K P_start_Pa P_end_Pa nsteps thermoWithTol M = Some v.
Proof.
  unfold GibbsModel.simpsonRule.
  set (n := if negb (Z.rem nsteps 2 =? 0)%Z then (nsteps + 1)%Z else nsteps).
  rewrite guarded_molar_volume. cbn [bind].
  match goal with
  | |- context [for_loop ?f 1%Z 2%Z ?c ?b ?a] =>
      destruct (for_loop_lt_total b n 2 ltac:(lia)
                  ltac:(intros i a0; cbv beta zeta;
                        rewrite guarded_molar_volume; eexists; reflexivity) f 1%Z a ltac:(lia)) as [s1 E1]
  end.
  rewrite E1. cbn [bind].
  match goal with
  | |- context [for_loop ?f 2%Z 2%Z ?c ?b ?a] =>
      destruct (for_loop_lt_total b n 2 ltac:(lia)
                  ltac:(intros i a0; cbv beta zeta;
                        rewrite guarded_molar_volume; eexists; reflexivity) f 2%Z a ltac:(lia)) as [s2 E2]
  end.
  rewrite E2. cbn [bind].
  rewrite guarded_molar_volume. cbn [bind].
  eexists. reflexivity.
Qed.

Lemma gaussLegendre16_total (T_K P_start_Pa P_end_Pa : Q) (nsegments : Z)
    (thermoWithTol : WaterThermoModelOptions) (M : Q) :
  exists v,
    gaussLegendre16 T_K P_start_Pa P_end_Pa nsegments thermoWithTol M
    = Some v.
Proof.
  unfold GibbsModel.gaussLegendre16.
  apply for_loop_lt_total; [lia | | lia].
  intros seg integral.
  match goal with
  | |- context [for_loop 16 0%Z 1%Z ?c ?b ?a] =>
      destruct (for_loop_lt_total b GibbsModel.GaussLegendre16_N 1
                  ltac:(lia)
                  ltac:(intros i a0; cbv beta zeta;
                        rewrite guarded_molar_volume; eexists; reflexivity) 16%nat 0%Z a
                  ltac:(unfold GibbsModel.GaussLegendre16_N; lia))
        as [s E]
  end.
  rewrite E. cbn [bind]. eexists. reflexivity.
Qed.

Lemma adaptiveSimpsonsHelper_total (max_depth : Z)
    (thermoWithTol : WaterThermoModelOptions) (T_K M : Q) (fuel : nat) :
  forall (P_L P_R tol : Q) (current_depth : Z) (Vm_L Vm_R : Q),
    (1 <= Z.of_nat fuel)%Z ->
    (max_depth - current_depth + 2 <= Z.of_nat fuel)%Z ->
    exists v,
      adaptiveSimpsonsHelper fuel T_K P_L P_R tol max_depth current_depth
        thermoWithTol M Vm_L Vm_R = Some v.
Proof.
  induction fuel as [|fuel IH]; intros P_L P_R tol d Vm_L Vm_R H1 H2;
    [lia|].
  cbn [GibbsModel.adaptiveSimpsonsHelper].
  destruct (max_depth <? d)%Z eqn:Ed; [eexists; reflexivity|].
  apply Z.ltb_ge in Ed.
  rewrite guarded_molar_volume. cbn [bind].
  destruct (Qle_bool _ tol); [eexists; reflexivity|].
  rewrite !guarded_molar_volume. cbn [bind].
  match goal with
  | |- context [adaptiveSimpsonsHelper fuel ?t ?a ?b ?c ?m ?e ?o ?mm ?x ?y] =>
      destruct (IH a b c e x y ltac:(lia) ltac:(lia)) as [l El]; rewrite El
  end.
  cbn [bind].
  match goal with
  | |- context [adaptiveSimpsonsHelper fuel ?t ?a ?b ?c ?m ?e ?o ?mm ?x ?y] =>
      destruct (IH a b c e x y ltac:(lia) ltac:(lia)) as [r Er]; rewrite Er
  end.
  cbn [bind]. eexists. reflexivity.
Qed.

Lemma adaptiveSimpson_total (T_K P_start_Pa P_end_Pa tol : Q)
    (max_depth : Z) (thermoWithTol : WaterThermoModelOptions) (M : Q) :
  exists v,
    adaptiveSimpson T_K P_start_Pa P_end_Pa tol max_depth thermoWithTol M
    = Some v.
Proof.
  unfold GibbsModel.adaptiveSimpson.
  rewrite !guarded_molar_volume. cbn [bind].
  apply adaptiveSimpsonsHelper_total; lia.
Qed.

Abbreviation trapezoidal_step :=
  (GibbsModel.trapezoidal_step exp psat WaterHelmholtzProps
     whpWagnerPruss whpHGK thermoProps).

Lemma trapezoidal_step_total (T_K P_start_Pa dP M : Q)
    (thermoWithTol : WaterThermoModelOptions) (i : Z) (st : Q * Q) :
  exists st',
    trapezoidal_step T_K P_start_Pa dP M thermoWithTol i st = Some st'.
Proof.
  unfold GibbsModel.trapezoidal_step. destruct st as [G Vp].
  destruct (Qle_bool (D _) 0.0) eqn:Ed; [eexists; reflexivity|].
  rewrite (div_density_after_nonpositive_test _ _ Ed).
  eexists. reflexivity.
Qed.

(** A Trapezoidal step at a density that is zero or negative adds nothing
    and keeps the previous volume. *)
Lemma trapezoidal_step_skips_nonpositive_density
    (T_K P_start_Pa dP M : Q) (thermoWithTol : WaterThermoModelOptions)
    (i : Z) (st : Q * Q) :
  D (eos T_K (P_start_Pa + inject_Z i * dP) thermoWithTol) <= 0 ->
  trapezoidal_step T_K P_start_Pa dP M thermoWithTol i st = Some st.
Proof.
  intro H. unfold GibbsModel.trapezoidal_step. destruct st as [G Vp].
  assert (E : Qle_bool
                (D (eos T_K (P_start_Pa + inject_Z i * dP) thermoWithTol))
                0.0 = true) by (apply Qle_bool_iff; lra).
  rewrite E. reflexivity.
Qed.

Lemma excelIntegration_loop_total (T_K P_bar spacing_bar spacing_Pa M : Q)
    (thermoWithTol : WaterThermoModelOptions) (fuel : nat) :
  forall Pstep_bar G_int_J : Q,
    P_bar + 0.000000001
      < Pstep_bar + inject_Z (Z.of_nat fuel) * spacing_bar ->
    exists v,
      excelIntegration_loop fuel T_K P_bar spacing_bar spacing_Pa M
        thermoWithTol Pstep_bar G_int_J = Some v.
Proof.
  induction fuel as [|fuel IH]; intros Pstep G Hb;
    cbn [GibbsModel.excelIntegration_loop].
  - assert (E : Qle_bool Pstep (P_bar + 0.000000001) = false).
    { apply Qle_bool_false. cbn [Z.of_nat] in Hb.
      assert (inject_Z 0 * spacing_bar == 0) by ring. lra. }
    rewrite E. eexists. reflexivity.
  - destruct (Qle_bool Pstep (P_bar + 0.000000001));
      [|eexists; reflexivity].
    assert (Hstep : P_bar + 0.000000001
              < Pstep + spacing_bar + inject_Z (Z.of_nat fuel) * spacing_bar).
    { assert (Es : inject_Z (Z.of_nat (S fuel)) * spacing_bar
                   == inject_Z (Z.of_nat fuel) * spacing_bar + spacing_bar).
      { rewrite Nat2Z.inj_succ. unfold Z.succ. rewrite inject_Z_plus. ring. }
      rewrite Es in Hb. lra. }
    destruct (Qle_bool (D _) 0.0) eqn:Ed.
    + apply IH. exact Hstep.
    + rewrite (div_density_after_nonpositive_test _ _ Ed). cbn [bind].
      apply IH. exact Hstep.
Qed.

Lemma gibbsDewIntegral_total (T_K P_Pa : Q)
    (thermo : WaterThermoModelOptions) (opt : WaterGibbsModelOptions) :
  exists v, gibbsDewIntegral_J_per_mol T_K P_Pa thermo opt = Some v.
Proof.
  unfold GibbsModel.gibbsDewIntegral_J_per_mol.
  destruct (Qlt_bool (P_Pa * 0.00001) 1000.0); [eexists; reflexivity|].
  destruct (Qeq_bool (P_Pa * 0.00001) 1000.0); [eexists; reflexivity|].
  match goal with
  | |- exists v, bind ?m ?k = Some v =>
      assert (Hm : exists g, m = Some g)
  end.
  { destruct (useExcelIntegration opt).
    - apply excelIntegration_loop_total.
      assert (E5001 : inject_Z (Z.of_nat (Z.to_nat 5001)) == 5001)
        by (rewrite Z2Nat.id by lia; reflexivity).
      rewrite E5001. unfold Qmax.
      destruct (Qlt_bool 1.0 ((P_Pa * 0.00001 - 1000.0) / 5000.0)) eqn:Ex.
      + apply Qlt_bool_iff in Ex.
        set (x := (P_Pa * 0.00001 - 1000.0) / 5000.0) in *.
        assert (Hx : x * 5000 == P_Pa * 0.00001 - 1000)
          by (unfold x; field).
        lra.
      + apply Qlt_bool_false in Ex.
        set (x := (P_Pa * 0.00001 - 1000.0) / 5000.0) in *.
        assert (Hx : x * 5000 == P_Pa * 0.00001 - 1000)
          by (unfold x; field).
        lra.
    - destruct (integrationMethod opt).
      + rewrite guarded_molar_volume. cbn [bind].
        match goal with
        | |- context [for_loop ?f 1%Z 1%Z ?c ?b ?a] =>
            destruct (for_loop_le_total b (integrationSteps opt) 1
                        ltac:(lia)
                        ltac:(intros i st0; apply trapezoidal_step_total)
                        f 1%Z a ltac:(lia)) as [st Est]
        end.
        rewrite Est. cbn [bind]. eexists. reflexivity.
      + apply simpsonRule_total.
      + apply gaussLegendre16_total.
      + apply adaptiveSimpson_total. }
  destruct Hm as [g Hg]. rewrite Hg. cbn [bind]. eexists. reflexivity.
Qed.

Abbreviation integration_loop :=
  (GibbsModelExcel.integration_loop exp psat WaterHelmholtzProps
     whpWagnerPruss whpHGK thermoProps).

Lemma integration_loop_total (T_K P_bar spacing_bar spacing_Pa M : Q)
    (thermo : WaterThermoModelOptions) (fuel : nat) :
  forall Pstep_bar G_int_J : Q,
    P_bar + 0.000000001
      < Pstep_bar + inject_Z (Z.of_nat fuel) * spacing_bar ->
    exists v,
      integration_loop fuel T_K P_bar spacing_bar spacing_Pa M thermo
        Pstep_bar G_int_J = Some v.
Proof.
  induction fuel as [|fuel IH]; intros Pstep G Hb;
    cbn [GibbsModelExcel.integration_loop].
  - assert (E : Qle_bool Pstep (P_bar + 0.000000001) = false).
    { apply Qle_bool_false. cbn [Z.of_nat] in Hb.
      assert (inject_Z 0 * spacing_bar == 0) by ring. lra. }
    rewrite E. eexists. reflexivity.
  - destruct (Qle_bool Pstep (P_bar + 0.000000001));
      [|eexists; reflexivity].
    assert (Hstep : P_bar + 0.000000001
              < Pstep + spacing_bar + inject_Z (Z.of_nat fuel) * spacing_bar).
    { assert (Es : inject_Z (Z.of_nat (S fuel)) * spacing_bar
                   == inject_Z (Z.of_nat fuel) * spacing_bar + spacing_bar).
      { rewrite Nat2Z.inj_succ. unfold Z.succ. rewrite inject_Z_plus. ring. }
      rewrite Es in Hb. lra. }
    destruct (Qle_bool (D _) 0.0) eqn:Ed.
    + apply IH. exact Hstep.
    + rewrite (div_density_after_nonpositive_test _ _ Ed). cbn [bind].
      apply IH. exact Hstep.
Qed.

(** The Excel-compatible version of the model always has a value as
    well: 501 steps of at least 20 bar and at least (P - 1000)/500 pass the
    target pressure. *)
Lemma gibbsDewIntegralExcel_total (T_K P_Pa : Q)
    (thermo : WaterThermoModelOptions) :
  exists v,
    GibbsModelExcel.gibbsDewIntegral_J_per_mol exp psat WaterHelmholtzProps
      whpWagnerPruss whpHGK thermoProps T_K P_Pa thermo = Some v.
Proof.
  unfold GibbsModelExcel.gibbsDewIntegral_J_per_mol.
  destruct (Qlt_bool (P_Pa * 0.00001) 1000.0); [eexists; reflexivity|].
  destruct (Qeq_bool (P_Pa * 0.00001) 1000.0); [eexists; reflexivity|].
  match goal with
  | |- exists v, bind ?m ?k = Some v =>
      assert (Hm : exists g, m = Some g)
  end.
  { apply integration_loop_total.
    assert (E501 : inject_Z (Z.of_nat (Z.to_nat 501)) == 501)
      by (rewrite Z2Nat.id by lia; reflexivity).
    rewrite E501. unfold Qmax.
    destruct (Qlt_bool 20.0 ((P_Pa * 0.00001 - 1000.0) / 500.0)) eqn:Ex.
    - apply Qlt_bool_iff in Ex.
      set (x := (P_Pa * 0.00001 - 1000.0) / 500.0) in *.
      assert (Hx : x * 500 == P_Pa * 0.00001 - 1000) by (unfold x; field).
      lra.
    - apply Qlt_bool_false in Ex.
      set (x := (P_Pa * 0.00001 - 1000.0) / 500.0) in *.
      assert (Hx : x * 500 == P_Pa * 0.00001 - 1000) by (unfold x; field).
      lra. }
  destruct Hm as [g Hg]. rewrite Hg. cbn [bind]. eexists. reflexivity.
Qed.

(** C10.  Every integrand evaluation of the four high-precision paths
    forms the molar volume M/rho by a division that is reached only with a
    strictly positive density: none of Simpson, Gauss-Legendre and Adaptive
    Simpson ever lacks a value, nor does the integral model as a whole
    (which contains the Trapezoidal loop).  The guarded quotient is the
    molar volume [molarVolume], which is exactly zero when the density is
    zero or negative; a Trapezoidal step at such a density adds nothing.
    The division itself has no value exactly when the density is zero or
    negative. *)
Theorem integration_divides_by_positive_density_only
    (T_K P_start_Pa P_end_Pa tol M : Q) (nsteps nsegments max_depth : Z)
    (thermoWithTol : WaterThermoModelOptions)
    (opt : WaterGibbsModelOptions) (wt : WaterThermoProps) :
  (exists v,
     simpsonRule T_K P_start_Pa P_end_Pa nsteps thermoWithTol M = Some v) /\
  (exists v,
     gaussLegendre16 T_K P_start_Pa P_end_Pa nsegments thermoWithTol M
     = Some v) /\
  (exists v,
     adaptiveSimpson T_K P_start_Pa P_end_Pa tol max_depth thermoWithTol M
     = Some v) /\
  (exists v,
     gibbsDewIntegral_J_per_mol T_K P_end_Pa thermoWithTol opt = Some v) /\
  (if Qlt_bool 0.0 (D wt) then div_density M (D wt) else ret 0.0)
    = Some (molarVolume M wt) /\
  (D wt <= 0 -> molarVolume M wt = 0.0) /\
  (forall (dP : Q) (i : Z) (st : Q * Q),
     D (eos T_K (P_start_Pa + inject_Z i * dP) thermoWithTol) <= 0 ->
     trapezoidal_step T_K P_start_Pa dP M thermoWithTol i st = Some st) /\
  (div_density M (D wt) = None <-> D wt <= 0).
Proof.
  split; [apply simpsonRule_total|].
  split; [apply gaussLegendre16_total|].
  split; [apply adaptiveSimpson_total|].
  split; [apply gibbsDewIntegral_total|].
  split; [apply guarded_molar_volume|].
  split; [apply molarVolume_nonpositive_density|].
  split; [intros dP i st; apply trapezoidal_step_skips_nonpositive_density|].
  unfold div_density. destruct (Qlt_bool 0.0 (D wt)) eqn:E.
  - apply Qlt_bool_iff in E. split; [discriminate | intro; lra].
  - apply Qlt_bool_false in E. split; [intro; lra | reflexivity].
Qed.

(** A branch that meets the tolerance at a depth within the cap returns its
    3-point Simpson estimate. *)
Lemma adaptive_simpson_accepts_converged_branch
    (T_K P_L P_R tol : Q) (max_depth current_depth : Z)
    (thermoWithTol : WaterThermoModelOptions) (M Vm_L Vm_R : Q)
    (fuel : nat) :
  let Vm_mid := molarVolume M (eos T_K ((P_L + P_R) / 2.0) thermoWithTol) in
  (current_depth <= max_depth)%Z ->
  Qabs (Vm_mid - 0.5 * (Vm_L + Vm_R)) <= tol ->
  adaptiveSimpsonsHelper (S fuel) T_K P_L P_R tol max_depth current_depth
    thermoWithTol M Vm_L Vm_R
  = Some ((P_R - P_L) / 6.0 * (Vm_L + 4.0 * Vm_mid + Vm_R)).
Proof.
  intros Vm_mid Hd Hc. cbn [GibbsModel.adaptiveSimpsonsHelper].
  assert (Ed : (max_depth <? current_depth)%Z = false)
    by (apply Z.ltb_ge; lia).
  rewrite Ed, guarded_molar_volume. cbn [bind]. fold Vm_mid.
  assert (Ec : Qle_bool (Qabs (Vm_mid - 0.5 * (Vm_L + Vm_R))) tol = true)
    by (apply Qle_bool_iff; exact Hc).
  rewrite Ec. reflexivity.
Qed.

(** A call beyond the cap evaluates nothing and returns zero. *)
Lemma adaptive_simpson_stops_beyond_cap
    (T_K P_L P_R tol : Q) (max_depth current_depth : Z)
    (thermoWithTol : WaterThermoModelOptions) (M Vm_L Vm_R : Q)
    (fuel : nat) :
  (max_depth < current_depth)%Z ->
  adaptiveSimpsonsHelper (S fuel) T_K P_L P_R tol max_depth current_depth
    thermoWithTol M Vm_L Vm_R = Some 0.0.
Proof.
  intro Hd. cbn [GibbsModel.adaptiveSimpsonsHelper].
  assert (Ed : (max_depth <? current_depth)%Z = true)
    by (apply Z.ltb_lt; lia).
  rewrite Ed. reflexivity.
Qed.

(** With a tolerance at least as large as the difference between the
    midpoint volume and the mean of the end volumes, Adaptive Simpson is the
    3-point Simpson rule on the whole interval. *)
Lemma adaptive_simpson_accepts_root
    (T_K P_start_Pa P_end_Pa tol : Q) (max_depth : Z)
    (thermoWithTol : WaterThermoModelOptions) (M : Q) :
  let Vm_start := molarVolume M (eos T_K P_start_Pa thermoWithTol) in
  let Vm_end := molarVolume M (eos T_K P_end_Pa thermoWithTol) in
  let Vm_mid :=
    molarVolume M (eos T_K ((P_start_Pa + P_end_Pa) / 2.0) thermoWithTol) in
  (0 <= max_depth)%Z ->
  Qabs (Vm_mid - 0.5 * (Vm_start + Vm_end)) <= tol ->
  adaptiveSimpson T_K P_start_Pa P_end_Pa tol max_depth thermoWithTol M
  = Some ((P_end_Pa - P_start_Pa) / 6.0
          * (Vm_start + 4.0 * Vm_mid + Vm_end)).
Proof.
  intros Vm_start Vm_end Vm_mid Hd Hc.
  unfold GibbsModel.adaptiveSimpson.
  rewrite !guarded_molar_volume. cbn [bind].
  apply adaptive_simpson_accepts_converged_branch; assumption.
Qed.

(** C1.  The first half of the claim fails on the code: a branch that
    reaches the maximum depth without meeting the tolerance returns zero,
    the sum of its two cut-off halves, and not its 3-point Simpson
    estimate.  The second half holds: the two halves, one level beyond the
    cap, return at once. *)
Theorem adaptive_simpson_cap_discards_branch
    (T_K P_L P_R tol : Q) (max_depth : Z)
    (thermoWithTol : WaterThermoModelOptions) (M Vm_L Vm_R : Q)
    (fuel : nat) :
  let Vm_mid := molarVolume M (eos T_K ((P_L + P_R) / 2.0) thermoWithTol) in
  tol < Qabs (Vm_mid - 0.5 * (Vm_L + Vm_R)) ->
  adaptiveSimpsonsHelper (S (S fuel)) T_K P_L P_R tol max_depth max_depth
    thermoWithTol M Vm_L Vm_R = Some (0.0 + 0.0).
Proof.
  intros Vm_mid Hc.
  cbn [GibbsModel.adaptiveSimpsonsHelper].
  rewrite Z.ltb_irrefl, guarded_molar_volume. cbn [bind]. fold Vm_mid.
  assert (Ec : Qle_bool (Qabs (Vm_mid - 0.5 * (Vm_L + Vm_R))) tol = false)
    by (apply Qle_bool_false; exact Hc).
  rewrite Ec, !guarded_molar_volume. cbn [bind].
  assert (Ed : (max_depth <? max_depth + 1)%Z = true)
    by (apply Z.ltb_lt; lia).
  rewrite Ed. reflexivity.
Qed.

End IntegrationFacts.

Lemma integration_divides_by_positive_density_only_witness :
  D (Inputs.waterAt (-1)) <= 0 /\
  molarVolume 0.01801528 (Inputs.waterAt (-1)) = 0.0.
Proof.
  assert (H : D (Inputs.waterAt (-1)) <= 0) by (vm_compute; discriminate).
  split; [exact H|].
  exact (proj1 (proj2 (proj2 (proj2 (proj2 (proj2
           (integration_divides_by_positive_density_only LibmQ.exp_q
              Inputs.psat_1atm Q Inputs.helmholtz_linear
              Inputs.helmholtz_linear Inputs.thermoProps_of_density
              573.15 100000000 500000000 0.1 0.01801528 5000 312 20
              Inputs.thermoZD05
              (Inputs.gibbsDewIntegralDefaults Inputs.thermoZD05)
              (Inputs.waterAt (-1)))))))) H).
Defined.

(** The root interval [1000 bar, 5000 bar] at 300 degrees Celsius with a
    tolerance of 1e-9 m3/mol and no subdivision allowed: the midpoint volume
    differs from the mean of the end volumes by about 3.3e-7 m3/mol, and the
    helper returns 0 although the Simpson estimate of the interval is about
    5590 J/mol. *)
Lemma adaptive_simpson_cap_discards_branch_witness :
  let eos := GibbsModel.waterThermoPropsModel LibmQ.exp_q Inputs.psat_1atm Q
               Inputs.helmholtz_linear Inputs.helmholtz_linear
               Inputs.thermoProps_of_density in
  let M := 0.01801528 in
  let Vm_L := molarVolume M (eos 573.15 100000000 Inputs.thermoWagnerPruss) in
  let Vm_R := molarVolume M (eos 573.15 500000000 Inputs.thermoWagnerPruss) in
  let Vm_mid :=
    molarVolume M (eos 573.15 ((100000000 + 500000000) / 2.0)
                     Inputs.thermoWagnerPruss) in
  0.000000001 < Qabs (Vm_mid - 0.5 * (Vm_L + Vm_R)) /\
  GibbsModel.adaptiveSimpsonsHelper LibmQ.exp_q Inputs.psat_1atm Q
    Inputs.helmholtz_linear Inputs.helmholtz_linear
    Inputs.thermoProps_of_density 2 573.15 100000000 500000000 0.000000001
    0 0 Inputs.thermoWagnerPruss M Vm_L Vm_R = Some (0.0 + 0.0) /\
  5000 < (500000000 - 100000000) / 6.0 * (Vm_L + 4.0 * Vm_mid + Vm_R).
Proof.
  intros eos M Vm_L Vm_R Vm_mid.
  assert (H : 0.000000001 < Qabs (Vm_mid - 0.5 * (Vm_L + Vm_R)))
    by (vm_compute; reflexivity).
  split; [exact H|].
  split; [|vm_compute; reflexivity].
  exact (adaptive_simpson_cap_discards_branch LibmQ.exp_q Inputs.psat_1atm Q
           Inputs.helmholtz_linear Inputs.helmholtz_linear
           Inputs.thermoProps_of_density 573.15 100000000 500000000
           0.000000001 0 Inputs.thermoWagnerPruss M Vm_L Vm_R 0%nat H).
Defined.

(** The failing input of C1 run through the whole model: 300 degrees
    Celsius, 5000 bar, Adaptive Simpson with a tolerance of 1e-9 m3/mol and
    a cap of 2 subdivisions.  Every branch at depth 2 is still unconverged,
    the integral is lost, and the model returns the 1-kbar baseline
    alone. *)
Lemma gibbs_adaptive_simpson_integral_lost :
  exists G,
    GibbsModel.gibbsDewIntegral_J_per_mol LibmQ.exp_q Inputs.psat_1atm Q
      Inputs.helmholtz_linear Inputs.helmholtz_linear
      Inputs.thermoProps_of_density 573.15 500000000
      Inputs.thermoWagnerPruss
      (Inputs.gibbsAdaptiveTight Inputs.thermoWagnerPruss) = Some G /\
    G == GibbsModel.GAtOneKb_cal_per_mol (GibbsModel.toCelsius 573.15)
         * 4.184.
Proof.
  destruct (GibbsModel.gibbsDewIntegral_J_per_mol LibmQ.exp_q
              Inputs.psat_1atm Q Inputs.helmholtz_linear
              Inputs.helmholtz_linear Inputs.thermoProps_of_density 573.15
              500000000 Inputs.thermoWagnerPruss
              (Inputs.gibbsAdaptiveTight Inputs.thermoWagnerPruss)) as [G|]
    eqn:E.
  - exists G. split; [reflexivity|].
    apply Qeq_bool_iff.
    vm_compute in E. injection E as <-. vm_compute. reflexivity.
  - vm_compute in E. discriminate.
Qed.

(** * Further properties of the code *)

(** ** Bisection: what the returned density is worth *)

Lemma Qpower2_succ (n : nat) : 2 ^ Z.of_nat (S n) == 2 * 2 ^ Z.of_nat n.
Proof.
  rewrite Nat2Z.inj_succ. unfold Z.succ.
  rewrite Qpower_plus by (intro H; discriminate H).
  change (2 ^ 1) with (2 * 1). ring.
Qed.

Lemma Qpower2_pos (n : nat) : 0 < 2 ^ Z.of_nat n.
Proof. apply Qpower_0_lt. reflexivity. Qed.

Section BisectionAccuracy.
Variables (conv above : Q -> bool).

(** From a bracket whose lower end is not above the target and whose upper
    end is, with the iterate at its midpoint, [n] iterations either stop at
    a density that passes the test or leave a bracket [2^n] times narrower
    with the same two properties and the result at its midpoint. *)
Lemma bisect_loop_halves (n : nat) :
  forall lo hi rho : Q,
    lo <= hi -> rho == 0.5 * (lo + hi) ->
    above lo = false -> above hi = true ->
    conv (bisect_loop conv above n lo hi rho) = true \/
    exists lo' hi' : Q,
      lo' <= bisect_loop conv above n lo hi rho /\
      bisect_loop conv above n lo hi rho <= hi' /\
      bisect_loop conv above n lo hi rho == 0.5 * (lo' + hi') /\
      hi' - lo' == (hi - lo) / 2 ^ Z.of_nat n /\
      above lo' = false /\ above hi' = true.
Proof.
  induction n as [|n IH]; intros lo hi rho Hle Hmid Hlo Hhi;
    cbn [bisect_loop].
  - right. exists lo, hi. repeat split; try assumption; try lra.
    change (2 ^ Z.of_nat 0) with 1. field.
  - destruct (conv rho) eqn:Ec; [left; exact Ec|].
    pose proof (Qpower2_succ n) as E2. pose proof (Qpower2_pos n) as P2.
    destruct (above rho) eqn:Ea.
    + destruct (IH lo rho (0.5 * (rho + lo))) as [Hc | [lo' [hi' H]]];
        try assumption; try lra; [left; exact Hc|].
      right. exists lo', hi'.
      destruct H as [H1 [H2 [H3 [H4 [H5 H6]]]]].
      repeat split; try assumption.
      rewrite H4, E2, Hmid. field. lra.
    + destruct (IH rho hi (0.5 * (rho + hi))) as [Hc | [lo' [hi' H]]];
        try assumption; try lra; [left; exact Hc|].
      right. exists lo', hi'.
      destruct H as [H1 [H2 [H3 [H4 [H5 H6]]]]].
      repeat split; try assumption.
      rewrite H4, E2, Hmid. field. lra.
Qed.

(** Both solvers start the iterate at the lower end of the bracket, so the
    first iteration tests that end and the remaining ones bisect. *)
Lemma bisect_loop_from_lower_end (n : nat) (lo hi : Q) :
  lo <= hi -> above lo = false -> above hi = true ->
  conv (bisect_loop conv above (S n) lo hi lo) = true \/
  exists lo' hi' : Q,
    lo' <= bisect_loop conv above (S n) lo hi lo /\
    bisect_loop conv above (S n) lo hi lo <= hi' /\
    bisect_loop conv above (S n) lo hi lo == 0.5 * (lo' + hi') /\
    hi' - lo' == (hi - lo) / 2 ^ Z.of_nat n /\
    above lo' = false /\ above hi' = true.
Proof.
  intros Hle Hlo Hhi. cbn [bisect_loop].
  destruct (conv lo) eqn:Ec; [left; exact Ec|].
  rewrite Hlo. apply bisect_loop_halves; try assumption. reflexivity.
Qed.

(** When the lower end of the bracket is already above the target and
    fails the test, the upper end collapses onto it and the iterate never
    leaves it. *)
Lemma bisect_loop_stuck (rho0 : Q) :
  (forall x, x == rho0 -> conv x = false /\ above x = true) ->
  forall (n : nat) (lo hi rho : Q),
    lo == rho0 -> rho == rho0 ->
    bisect_loop conv above n lo hi rho == rho0.
Proof.
  intros Hstuck. induction n as [|n IH]; intros lo hi rho Hlo Hrho;
    cbn [bisect_loop]; [exact Hrho|].
  destruct (Hstuck rho Hrho) as [Hc Ha]. rewrite Hc, Ha.
  apply IH; [exact Hlo|]. rewrite Hlo, Hrho. lra.
Qed.

End BisectionAccuracy.

Section DensitySolverAccuracy.
Variable exp : Q -> Q.

Lemma zd05_above_false (P_bar_target T_C rho : Q) :
  zd05_above exp P_bar_target T_C rho = false <->
  ZD05.zd05_pressure_bar exp rho T_C <= P_bar_target.
Proof.
  unfold zd05_above. rewrite Qlt_bool_false. split; intro H; lra.
Qed.

Lemma zd05_above_true (P_bar_target T_C rho : Q) :
  zd05_above exp P_bar_target T_C rho = true <->
  P_bar_target < ZD05.zd05_pressure_bar exp rho T_C.
Proof.
  unfold zd05_above. rewrite Qlt_bool_iff. split; intro H; lra.
Qed.

Lemma zd09_above_false (P_bar T_C rho : Q) :
  zd09_above exp P_bar T_C rho = false <->
  ZD09.calculatePressure_ZD09 exp rho T_C <= P_bar.
Proof. unfold zd09_above. apply Qlt_bool_false. Qed.

Lemma zd09_above_true (P_bar T_C rho : Q) :
  zd09_above exp P_bar T_C rho = true <->
  P_bar < ZD09.calculatePressure_ZD09 exp rho T_C.
Proof. unfold zd09_above. apply Qlt_bool_iff. Qed.

(** X1.  Accuracy of the Zhang & Duan 2005 density solver.  When the target
    pressure lies between the pressures at the two ends of the initial
    bracket, the returned density either reproduces the target within the
    tolerance, or is the midpoint of an interval of width
    (2.5 - 1e-5) / 2^49 g/cm3 whose lower end has a pressure at or below
    the target and whose upper end has a pressure above it.  The exponent
    is 49 and not 50 because the first of the 50 iterations is spent on the
    lower end of the bracket, where the iterate starts. *)
Theorem zd05_density_localises_target (P_bar_target T_C error_bar : Q) :
  ZD05.zd05_pressure_bar exp 0.00001 T_C <= P_bar_target ->
  P_bar_target < ZD05.zd05_pressure_bar exp 2.5 T_C ->
  let rho := ZD05.zd05_density_g_cm3 exp P_bar_target T_C error_bar in
  Qabs (ZD05.zd05_pressure_bar exp rho T_C - P_bar_target) <= error_bar \/
  exists lo hi : Q,
    lo <= rho /\ rho <= hi /\ rho == 0.5 * (lo + hi) /\
    hi - lo == (2.5 - 0.00001) / 2 ^ 49 /\
    ZD05.zd05_pressure_bar exp lo T_C <= P_bar_target /\
    P_bar_target < ZD05.zd05_pressure_bar exp hi T_C.
Proof.
  intros Hlo Hhi rho. subst rho.
  unfold ZD05.zd05_density_g_cm3. cbv zeta.
  rewrite zd05_density_loop_bisect.
  destruct (bisect_loop_from_lower_end
              (zd05_conv exp P_bar_target T_C error_bar)
              (zd05_above exp P_bar_target T_C) 49 0.00001 2.5)
    as [Hc | [lo [hi [H1 [H2 [H3 [H4 [H5 H6]]]]]]]].
  - lra.
  - apply zd05_above_false. exact Hlo.
  - apply zd05_above_true. exact Hhi.
  - left. apply zd05_conv_iff. exact Hc.
  - right. exists lo, hi.
    apply zd05_above_false in H5. apply zd05_above_true in H6.
    repeat split; assumption.
Qed.

(** X2.  Accuracy of the Zhang & Duan 2009 density solver (bisection path,
    [usePsat] off) for an iteration cap [maxIterations] >= 1: the returned
    density either reproduces the target within [pressureToleranceBar], or
    is the midpoint of an interval of width
    (10 - 1e-5) / 2^(maxIterations - 1) g/cm3 across which the pressure
    passes from at or below the target to above it. *)
Theorem zd09_density_localises_target (P_bar T_C : Q)
    (opts : WaterZhangDuan2009Options) :
  usePsat opts = false ->
  (1 <= maxIterations opts)%Z ->
  ZD09.calculatePressure_ZD09 exp 0.00001 T_C <= P_bar ->
  P_bar < ZD09.calculatePressure_ZD09 exp (7.5 * 2.0 - 5.0) T_C ->
  let rho := ZD09.calculateDensity_ZD09 exp P_bar T_C opts in
  Qabs (ZD09.calculatePressure_ZD09 exp rho T_C - P_bar)
    <= pressureToleranceBar opts \/
  exists lo hi : Q,
    lo <= rho /\ rho <= hi /\ rho == 0.5 * (lo + hi) /\
    hi - lo == (10 - 0.00001) / 2 ^ (maxIterations opts - 1) /\
    ZD09.calculatePressure_ZD09 exp lo T_C <= P_bar /\
    P_bar < ZD09.calculatePressure_ZD09 exp hi T_C.
Proof.
  intros Hp Hn Hlo Hhi rho. subst rho.
  unfold ZD09.calculateDensity_ZD09. rewrite Hp. cbv zeta.
  rewrite zd09_density_loop_bisect.
  assert (En : Z.to_nat (maxIterations opts)
               = S (Z.to_nat (maxIterations opts - 1))).
  { rewrite <- Z2Nat.inj_succ by lia. f_equal. lia. }
  rewrite En.
  destruct (bisect_loop_from_lower_end
              (zd09_conv exp P_bar T_C opts) (zd09_above exp P_bar T_C)
              (Z.to_nat (maxIterations opts - 1)) 0.00001 (7.5 * 2.0 - 5.0))
    as [Hc | [lo [hi [H1 [H2 [H3 [H4 [H5 H6]]]]]]]].
  - lra.
  - apply zd09_above_false. exact Hlo.
  - apply zd09_above_true. exact Hhi.
  - left. apply zd09_conv_iff. exact Hc.
  - right. exists lo, hi.
    apply zd09_above_false in H5. apply zd09_above_true in H6.
    rewrite Z2Nat.id in H4 by lia.
    repeat split; try assumption.
    rewrite H4. field.
    apply Qnot_eq_sym, Qlt_not_eq, Qpower_0_lt. reflexivity.
Qed.

(** The pressure functions respect equality of rationals when the
    exponential does. *)
Hypothesis exp_eq : forall x y : Q, x == y -> exp x == exp y.

Lemma zd05_pressure_bar_eq (T_C x y : Q) :
  x == y ->
  ZD05.zd05_pressure_bar exp x T_C == ZD05.zd05_pressure_bar exp y T_C.
Proof.
  intro H.
  assert (Hexp : Proper (Qeq ==> Qeq) exp)
    by (intros a b Hab; apply exp_eq; exact Hab).
  unfold ZD05.zd05_pressure_bar. cbv zeta.
  rewrite H. reflexivity.
Qed.

Lemma calculatePressure_ZD09_proper (T_C x y : Q) :
  x == y ->
  ZD09.calculatePressure_ZD09 exp x T_C
  == ZD09.calculatePressure_ZD09 exp y T_C.
Proof.
  intro H.
  assert (Hexp : Proper (Qeq ==> Qeq) exp)
    by (intros a b Hab; apply exp_eq; exact Hab).
  unfold ZD09.calculatePressure_ZD09. cbv zeta.
  rewrite H. reflexivity.
Qed.


End DensitySolverAccuracy.

Lemma Qle_by_bool (x y : Q) : Qle_bool x y = true -> x <= y.
Proof. apply Qle_bool_iff. Qed.

Lemma Qlt_by_bool (x y : Q) : Qlt_bool x y = true -> x < y.
Proof. apply Qlt_bool_iff. Qed.

Lemma exp_q_proper (x y : Q) : x == y -> LibmQ.exp_q x == LibmQ.exp_q y.
Proof. intro H. rewrite (exp_q_eq x y H). reflexivity. Qed.

Lemma zd05_density_localises_target_witness :
  ZD05.zd05_pressure_bar LibmQ.exp_q 0.00001 300 <= 5000 /\
  5000 < ZD05.zd05_pressure_bar LibmQ.exp_q 2.5 300 /\
  (Qabs (ZD05.zd05_pressure_bar LibmQ.exp_q
           (ZD05.zd05_density_g_cm3 LibmQ.exp_q 5000 300 0.001) 300 - 5000)
     <= 0.001 \/
   exists lo hi : Q,
     lo <= ZD05.zd05_density_g_cm3 LibmQ.exp_q 5000 300 0.001 /\
     ZD05.zd05_density_g_cm3 LibmQ.exp_q 5000 300 0.001 <= hi /\
     ZD05.zd05_density_g_cm3 LibmQ.exp_q 5000 300 0.001 == 0.5 * (lo + hi) /\
     hi - lo == (2.5 - 0.00001) / 2 ^ 49 /\
     ZD05.zd05_pressure_bar LibmQ.exp_q lo 300 <= 5000 /\
     5000 < ZD05.zd05_pressure_bar LibmQ.exp_q hi 300).
Proof.
  assert (H1 : ZD05.zd05_pressure_bar LibmQ.exp_q 0.00001 300 <= 5000)
    by (apply Qle_by_bool; vm_compute; reflexivity).
  assert (H2 : 5000 < ZD05.zd05_pressure_bar LibmQ.exp_q 2.5 300)
    by (apply Qlt_by_bool; vm_compute; reflexivity).
  split; [exact H1|]. split; [exact H2|].
  exact (zd05_density_localises_target LibmQ.exp_q 5000 300 0.001 H1 H2).
Defined.

Lemma zd09_density_localises_target_witness :
  usePsat defaultZhangDuan2009Options = false /\
  (1 <= maxIterations defaultZhangDuan2009Options)%Z /\
  ZD09.calculatePressure_ZD09 LibmQ.exp_q 0.00001 300 <= 5000 /\
  5000 < ZD09.calculatePressure_ZD09 LibmQ.exp_q (7.5 * 2.0 - 5.0) 300 /\
  (Qabs (ZD09.calculatePressure_ZD09 LibmQ.exp_q
           (ZD09.calculateDensity_ZD09 LibmQ.exp_q 5000 300
              defaultZhangDuan2009Options) 300 - 5000)
     <= pressureToleranceBar defaultZhangDuan2009Options \/
   exists lo hi : Q,
     lo <= ZD09.calculateDensity_ZD09 LibmQ.exp_q 5000 300
             defaultZhangDuan2009Options /\
     ZD09.calculateDensity_ZD09 LibmQ.exp_q 5000 300
       defaultZhangDuan2009Options <= hi /\
     ZD09.calculateDensity_ZD09 LibmQ.exp_q 5000 300
       defaultZhangDuan2009Options == 0.5 * (lo + hi) /\
     hi - lo
       == (10 - 0.00001) / 2 ^ (maxIterations defaultZhangDuan2009Options - 1)
     /\
     ZD09.calculatePressure_ZD09 LibmQ.exp_q lo 300 <= 5000 /\
     5000 < ZD09.calculatePressure_ZD09 LibmQ.exp_q hi 300).
Proof.
  assert (H0 : usePsat defaultZhangDuan2009Options = false) by reflexivity.
  assert (Hn : (1 <= maxIterations defaultZhangDuan2009Options)%Z)
    by (cbn; lia).
  assert (H1 : ZD09.calculatePressure_ZD09 LibmQ.exp_q 0.00001 300 <= 5000)
    by (apply Qle_by_bool; vm_compute; reflexivity).
  assert (H2 : 5000 < ZD09.calculatePressure_ZD09 LibmQ.exp_q
                        (7.5 * 2.0 - 5.0) 300)
    by (apply Qlt_by_bool; vm_compute; reflexivity).
  split; [exact H0|]. split; [exact Hn|].
  split; [exact H1|]. split; [exact H2|].
  exact (zd09_density_localises_target LibmQ.exp_q 5000 300
           defaultZhangDuan2009Options H0 Hn H1 H2).
Defined.


(** ** Born omega in dense water *)

Section BornDenseWater.
Variables (exp log : Q -> Q) (pow : Q -> Q -> Q) (psat : Q -> Q).

Lemma solvent_function_dense (T P : Q) (wt : WaterThermoProps)
    (opt : WaterSolventFunctionOptions) :
  Psat opt = false -> 1 <= D wt / 1000 ->
  SolventFunction.waterSolventFunctionDEW pow psat T P wt opt = 0.0.
Proof.
  intros Hp Hrho.
  unfold SolventFunction.waterSolventFunctionDEW,
         SolventFunction.rho_si_to_g_cm3.
  rewrite Hp.
  assert (E : Qle_bool 1.0 (D wt / 1000.0) = true).
  { apply Qle_bool_iff.
    assert (D wt / 1000.0 == D wt / 1000) by (apply Qdiv_comp; lra).
    lra. }
  rewrite E. reflexivity.
Qed.

Lemma solvent_function_dgdP_dense (T P : Q) (wt : WaterThermoProps) (g : Q)
    (opt : WaterSolventFunctionOptions) :
  Psat opt = false -> 1 <= D wt / 1000 ->
  SolventFunction.waterSolventFunctionDgdP_DEW exp log pow T P wt g opt
  = 0.0.
Proof.
  intros Hp Hrho.
  unfold SolventFunction.waterSolventFunctionDgdP_DEW,
         SolventFunction.rho_si_to_g_cm3.
  rewrite Hp.
  assert (E : Qle_bool 1.0 (D wt / 1000.0) = true).
  { apply Qle_bool_iff.
    assert (D wt / 1000.0 == D wt / 1000) by (apply Qdiv_comp; lra).
    lra. }
  rewrite E. reflexivity.
Qed.

(** X4.  In water of density 1 g/cm3 (1000 kg/m3) or more, with the
    along-saturation option off, the Born coefficient of every species is
    its reference value and its pressure derivative is zero (exact
    arithmetic): the solvent function vanishes, the effective radius is the
    reference radius, and the Born formula gives back [wref]. *)
Theorem born_omega_is_reference_in_dense_water
    (T P : Q) (wt : WaterThermoProps) (wref Z : Q)
    (opt : WaterBornOmegaOptions) :
  Psat (solvent opt) = false ->
  1 <= D wt / 1000 ->
  BornOmega.waterBornOmegaDEW pow psat T P wt wref Z opt == wref /\
  BornOmega.waterBornDOmegaDP_DEW exp log pow psat T P wt wref Z opt == 0.
Proof.
  intros Hp Hrho.
  unfold BornOmega.waterBornOmegaDEW, BornOmega.waterBornDOmegaDP_DEW.
  destruct (Qeq_bool Z 0.0 || isHydrogenLike opt
            || Qlt_bool (maxPressureForVariation opt) P) eqn:Es;
    [split; [reflexivity | lra]|].
  apply orb_false_iff in Es. destruct Es as [Es _].
  apply orb_false_iff in Es. destruct Es as [Ez _].
  apply Qeq_bool_false in Ez.
  cbv zeta.
  destruct (Qeq_bool (wref / 4.184 / BornOmega.eta_cal_per_A + Z / 3.082)
              0.0) eqn:Ed; [split; [reflexivity | lra]|].
  apply Qeq_bool_false in Ed.
  unfold BornOmega.compute_g, BornOmega.compute_dgdP.
  rewrite (solvent_function_dense T P wt (solvent opt) Hp Hrho).
  rewrite (solvent_function_dgdP_dense T P wt 0.0 (solvent opt) Hp Hrho).
  destruct (Qle_bool _ 0.0); [split; [reflexivity | lra]|].
  split; [|ring].
  unfold BornOmega.eta_cal_per_A in *.
  field. split.
  - intro H. apply Ed.
    assert (E : wref / 4.184 / 166027.0 + Z / 3.082
                == (wref * 3.082 + Z * 694656.9680)
                   / (4.184 * 166027.0 * 3.082)) by field.
    rewrite E, H. reflexivity.
  - intro H. apply Ez. lra.
Qed.

End BornDenseWater.

Lemma born_omega_is_reference_in_dense_water_witness :
  Psat (solvent defaultWaterBornOmegaOptions) = false /\
  1 <= D (Inputs.waterAt 1050) / 1000 /\
  BornOmega.waterBornOmegaDEW LibmQ.pow_q Inputs.psat_1atm
    573.15 500000000 (Inputs.waterAt 1050) 500000 1
    defaultWaterBornOmegaOptions == 500000 /\
  BornOmega.waterBornDOmegaDP_DEW LibmQ.exp_q LibmQ.log_q LibmQ.pow_q
    Inputs.psat_1atm 573.15 500000000 (Inputs.waterAt 1050) 500000 1
    defaultWaterBornOmegaOptions == 0.
Proof.
  assert (H1 : Psat (solvent defaultWaterBornOmegaOptions) = false)
    by reflexivity.
  assert (H2 : 1 <= D (Inputs.waterAt 1050) / 1000)
    by (apply Qle_by_bool; vm_compute; reflexivity).
  split; [exact H1|]. split; [exact H2|].
  exact (born_omega_is_reference_in_dense_water LibmQ.exp_q LibmQ.log_q
           LibmQ.pow_q Inputs.psat_1atm 573.15 500000000
           (Inputs.waterAt 1050) 500000 1 defaultWaterBornOmegaOptions
           H1 H2).
Defined.

(** ** The integrators on an incompressible fluid *)

(** A counting loop that keeps an invariant indexed by the loop variable:
    it ends with the invariant at the first index that fails the test. *)
Lemma for_loop_lt_run {A : Type} (Inv : Z -> A -> Prop)
    (body : Z -> A -> option A) (stop step : Z) :
  (1 <= step)%Z ->
  (forall i a, (i < stop)%Z -> Inv i a ->
     exists a', body i a = Some a' /\ Inv (i + step)%Z a') ->
  forall (fuel : nat) (i : Z) (acc : A),
    (stop - i <= Z.of_nat fuel)%Z -> Inv i acc ->
    exists (j : Z) (a' : A),
      for_loop fuel i step (fun i => (i <? stop)%Z) body acc = Some a' /\
      Inv j a' /\ (stop <= j)%Z /\ (j < stop + step \/ j = i)%Z /\
      exists m : Z, (0 <= m)%Z /\ j = (i + m * step)%Z.
Proof.
  intros Hstep Hbody. induction fuel as [|fuel IH]; intros i acc Hf Hinv;
    cbn [for_loop].
  - assert (E : (i <? stop)%Z = false) by (apply Z.ltb_ge; lia).
    rewrite E. exists i, acc. repeat split; try assumption; try lia.
    exists 0%Z. lia.
  - destruct (i <? stop)%Z eqn:E.
    + apply Z.ltb_lt in E.
      destruct (Hbody i acc E Hinv) as [a' [Ha Hinv']]. rewrite Ha.
      cbn [bind].
      destruct (IH (i + step)%Z a' ltac:(lia) Hinv')
        as [j [r [Hr [Hj [H1 [H2 [m [Hm Hjm]]]]]]]].
      exists j, r. repeat split; try assumption; try lia.
      exists (m + 1)%Z. lia.
    + apply Z.ltb_ge in E.
      exists i, acc. repeat split; try assumption; try lia.
      exists 0%Z. lia.
Qed.

Lemma for_loop_cond_ext {A : Type} (body : Z -> A -> option A)
    (cond1 cond2 : Z -> bool) (step : Z) :
  (forall i, cond1 i = cond2 i) ->
  forall (fuel : nat) (i : Z) (acc : A),
    for_loop fuel i step cond1 body acc = for_loop fuel i step cond2 body acc.
Proof.
  intro H. induction fuel as [|fuel IH]; intros i acc; cbn [for_loop];
    rewrite H; [reflexivity|].
  destruct (cond2 i); [|reflexivity].
  destruct (body i acc); cbn [bind]; [apply IH | reflexivity].
Qed.

Lemma molarVolume_of_density (M rho0 : Q) (wt : WaterThermoProps) :
  0 < rho0 -> D wt == rho0 -> molarVolume M wt == M / rho0.
Proof.
  intros Hpos Hd. unfold molarVolume.
  assert (E : Qlt_bool 0.0 (D wt) = true) by (apply Qlt_bool_iff; lra).
  rewrite E, Hd. reflexivity.
Qed.

Lemma molarVolume_nonneg (M : Q) (wt : WaterThermoProps) :
  0 <= M -> 0 <= molarVolume M wt.
Proof.
  intro HM. unfold molarVolume.
  destruct (Qlt_bool 0.0 (D wt)) eqn:E; [|lra].
  apply Qlt_bool_iff in E.
  apply Qle_shift_div_l; lra.
Qed.

Section IncompressibleFluid.
Variable exp : Q -> Q.
Variable psat : Q -> Q.
Variable WaterHelmholtzProps : Type.
Variables whpWagnerPruss whpHGK : Q -> Q -> WaterHelmholtzProps.
Variable thermoProps : Q -> Q -> WaterHelmholtzProps -> WaterThermoProps.

Abbreviation eos :=
  (GibbsModel.waterThermoPropsModel exp psat WaterHelmholtzProps
     whpWagnerPruss whpHGK thermoProps).
Abbreviation simpsonRule :=
  (GibbsModel.simpsonRule exp psat WaterHelmholtzProps
     whpWagnerPruss whpHGK thermoProps).
Abbreviation gaussLegendre16 :=
  (GibbsModel.gaussLegendre16 exp psat WaterHelmholtzProps
     whpWagnerPruss whpHGK thermoProps).
Abbreviation adaptiveSimpsonsHelper :=
  (GibbsModel.adaptiveSimpsonsHelper exp psat WaterHelmholtzProps
     whpWagnerPruss whpHGK thermoProps).
Abbreviation adaptiveSimpson :=
  (GibbsModel.adaptiveSimpson exp psat WaterHelmholtzProps
     whpWagnerPruss whpHGK thermoProps).
Abbreviation excelIntegration_loop :=
  (GibbsModel.excelIntegration_loop exp psat WaterHelmholtzProps
     whpWagnerPruss whpHGK thermoProps).
Abbreviation trapezoidal_step :=
  (GibbsModel.trapezoidal_step exp psat WaterHelmholtzProps
     whpWagnerPruss whpHGK thermoProps).
Abbreviation gibbsDewIntegral_J_per_mol :=
  (GibbsModel.gibbsDewIntegral_J_per_mol exp psat WaterHelmholtzProps
     whpWagnerPruss whpHGK thermoProps).

Lemma simpson_even_steps (nsteps : Z) :
  (0 < nsteps)%Z ->
  exists k : Z,
    (1 <= k)%Z /\
    (if negb (Z.rem nsteps 2 =? 0)%Z then (nsteps + 1)%Z else nsteps)
    = (2 * k)%Z.
Proof.
  intro H. rewrite Z.rem_mod_nonneg by lia.
  pose proof (Z.mod_pos_bound nsteps 2 ltac:(lia)) as Hb.
  pose proof (Z.div_mod nsteps 2 ltac:(lia)) as Hd.
  destruct (nsteps mod 2 =? 0)%Z eqn:E; cbn [negb].
  - apply Z.eqb_eq in E. exists (nsteps / 2)%Z. lia.
  - apply Z.eqb_neq in E. exists (nsteps / 2 + 1)%Z. lia.
Qed.

(** Simpson's rule is exact on an incompressible fluid, whatever the
    number of steps (an odd number is first raised by one). *)
Lemma simpsonRule_constant_density
    (T_K P_start_Pa P_end_Pa : Q) (nsteps : Z)
    (thermoWithTol : WaterThermoModelOptions) (M rho0 : Q) :
  (0 < nsteps)%Z ->
  0 < rho0 ->
  (forall P : Q, D (eos T_K P thermoWithTol) == rho0) ->
  exists G : Q,
    simpsonRule T_K P_start_Pa P_end_Pa nsteps thermoWithTol M = Some G /\
    G == (M / rho0) * (P_end_Pa - P_start_Pa).
Proof.
  intros Hn Hrho Hconst.
  destruct (simpson_even_steps nsteps Hn) as [k [Hk Ek]].
  unfold GibbsModel.simpsonRule. rewrite Ek.
  set (V := M / rho0).
  assert (HV : forall P, molarVolume M (eos T_K P thermoWithTol) == V)
    by (intro P; apply molarVolume_of_density; [exact Hrho | apply Hconst]).
  rewrite guarded_molar_volume. cbn [bind].
  match goal with
  | |- context [for_loop ?f 1%Z 2%Z ?c ?b ?a] =>
      destruct (for_loop_lt_run
                  (fun i s => s == V + 2 * V * (inject_Z i - 1))
                  b (2 * k) 2 ltac:(lia)
                  ltac:(intros i s Hi Hs; cbv beta zeta;
                        rewrite guarded_molar_volume; cbn [bind ret];
                        eexists; split; [reflexivity|];
                        rewrite inject_Z_plus, HV, Hs; ring)
                  f 1%Z a ltac:(lia)
                  ltac:(cbv beta; rewrite HV; ring))
        as [j1 [s1 [E1 [I1 [B1 [B2 [m1 [Hm1 Ej1]]]]]]]]
  end.
  rewrite E1. cbn [bind].
  assert (Hj1 : j1 = (2 * k + 1)%Z) by lia.
  clear B1 B2 Hm1 Ej1 m1. subst j1.
  match goal with
  | |- context [for_loop ?f 2%Z 2%Z ?c ?b ?a] =>
      destruct (for_loop_lt_run
                  (fun i s => s == V + 2 * V * inject_Z (2 * k)
                                   + V * (inject_Z i - 2))
                  b (2 * k) 2 ltac:(lia)
                  ltac:(intros i s Hi Hs; cbv beta zeta;
                        rewrite guarded_molar_volume; cbn [bind ret];
                        eexists; split; [reflexivity|];
                        rewrite inject_Z_plus, HV, Hs; ring)
                  f 2%Z a ltac:(lia)
                  ltac:(cbv beta; rewrite I1, inject_Z_plus; ring))
        as [j2 [s2 [E2 [I2 [B1 [B2 [m2 [Hm2 Ej2]]]]]]]]
  end.
  rewrite E2. cbn [bind].
  assert (Hj2 : j2 = (2 * k)%Z) by lia.
  clear B1 B2 Hm2 Ej2 m2. subst j2.
  rewrite guarded_molar_volume. cbn [bind ret].
  eexists. split; [reflexivity|].
  rewrite I2, HV.
  assert (Hk0 : ~ inject_Z (2 * k) == 0).
  { intro H0. unfold Qeq, inject_Z in H0. cbn [Qnum Qden] in H0. lia. }
  field. exact Hk0.
Qed.

Lemma Qsum_firstn_succ (l : list Q) :
  forall n : nat, (n < length l)%nat ->
    Qsum (firstn (S n) l) == Qsum (firstn n l) + nth n l 0.
Proof.
  induction l as [|x l IH]; intros n Hn; cbn [length] in Hn; [lia|].
  destruct n as [|n].
  - cbn. ring.
  - change (firstn (S (S n)) (x :: l)) with (x :: firstn (S n) l).
    change (firstn (S n) (x :: l)) with (x :: firstn n l).
    cbn [Qsum fold_right nth]. fold (Qsum (firstn (S n) l)).
    fold (Qsum (firstn n l)). rewrite IH by lia. ring.
Qed.

(** The sixteen weights of the table add up to 1.9999717271362614, not
    to 2. *)
Lemma GaussLegendre16_weights_sum :
  Qsum GibbsModel.GaussLegendre16_weights == 1.9999717271362614.
Proof. apply Qeq_bool_iff. vm_compute. reflexivity. Qed.

Section GaussNodes.
Variables (T_K M rho0 : Q) (thermoWithTol : WaterThermoModelOptions).
Hypothesis rho0_pos : 0 < rho0.
Hypothesis density_const :
  forall P : Q, D (eos T_K P thermoWithTol) == rho0.

Lemma gauss_segment_on_constant_density (center half_width : Q) :
  exists s : Q,
    for_loop 16 0 1 (fun i => (i <? GibbsModel.GaussLegendre16_N)%Z)
      (fun i seg_integral =>
         let P_node := center + half_width
                       * nth (Z.to_nat i) GibbsModel.GaussLegendre16_nodes 0 in
         let wt := eos T_K P_node thermoWithTol in
         Vm <- (if Qlt_bool 0.0 (D wt) then div_density M (D wt)
                else ret 0.0) ;;
         ret (seg_integral
              + nth (Z.to_nat i) GibbsModel.GaussLegendre16_weights 0 * Vm))
      0.0 = Some s /\
    s == (M / rho0) * 1.9999717271362614.
Proof.
  set (V := M / rho0).
  assert (HV : forall P, molarVolume M (eos T_K P thermoWithTol) == V)
    by (intro P; apply molarVolume_of_density;
        [exact rho0_pos | apply density_const]).
  unfold GibbsModel.GaussLegendre16_N.
  match goal with
  | |- context [for_loop 16 0%Z 1%Z ?c ?b ?a] =>
      destruct (for_loop_lt_run
                  (fun i s => (0 <= i)%Z /\
                     s == V * Qsum (firstn (Z.to_nat i)
                                      GibbsModel.GaussLegendre16_weights))
                  b 16 1 ltac:(lia)
                  ltac:(intros i s Hi [Hi0 Hs]; cbv beta zeta;
                        rewrite guarded_molar_volume; cbn [bind ret];
                        eexists; split; [reflexivity|];
                        split; [lia|];
                        rewrite Z2Nat.inj_add by lia;
                        change (Z.to_nat 1) with 1%nat;
                        rewrite Nat.add_1_r;
                        rewrite Qsum_firstn_succ
                          by (change (length
                                        GibbsModel.GaussLegendre16_weights)
                                with 16%nat; lia);
                        rewrite HV, Hs; ring)
                  16%nat 0%Z a ltac:(lia)
                  ltac:(cbv beta; split; [lia|]; cbn; ring))
        as [j [s [E [[_ I] [B1 [B2 _]]]]]]
  end.
  assert (Hj : j = 16%Z) by lia. subst j.
  exists s. split; [exact E|].
  rewrite I. change (firstn (Z.to_nat 16) GibbsModel.GaussLegendre16_weights)
    with GibbsModel.GaussLegendre16_weights.
  rewrite GaussLegendre16_weights_sum. reflexivity.
Qed.

End GaussNodes.

(** The 16-point rule on an incompressible fluid: every segment
    contributes its width times the molar volume times half the sum of the
    sixteen weights. *)
Lemma gaussLegendre16_constant_density
    (T_K P_start_Pa P_end_Pa : Q) (nsegments : Z)
    (thermoWithTol : WaterThermoModelOptions) (M rho0 : Q) :
  (1 <= nsegments)%Z ->
  0 < rho0 ->
  (forall P : Q, D (eos T_K P thermoWithTol) == rho0) ->
  exists G : Q,
    gaussLegendre16 T_K P_start_Pa P_end_Pa nsegments thermoWithTol M
      = Some G /\
    G == 0.9999858635681307 * ((M / rho0) * (P_end_Pa - P_start_Pa)).
Proof.
  intros Hn Hrho Hconst.
  unfold GibbsModel.gaussLegendre16. cbv zeta.
  set (sw := (P_end_Pa - P_start_Pa) / inject_Z nsegments).
  match goal with
  | |- context [for_loop ?f 0%Z 1%Z ?c ?b ?a] =>
      destruct (for_loop_lt_run
                  (fun seg integral =>
                     integral == inject_Z seg
                                 * (sw / 2.0
                                    * ((M / rho0) * 1.9999717271362614)))
                  b nsegments 1 ltac:(lia)
                  ltac:(intros seg integral Hseg Hint; cbv beta;
                        destruct (gauss_segment_on_constant_density
                                    T_K M rho0 thermoWithTol Hrho Hconst
                                    ((P_start_Pa + inject_Z seg * sw
                                      + (P_start_Pa + inject_Z seg * sw + sw))
                                     / 2.0) (sw / 2.0)) as [s [Es Hs]];
                        match goal with
                        | |- context [for_loop 16 0%Z 1%Z ?c1 ?b1 ?a1] =>
                            assert (Es' : for_loop 16 0%Z 1%Z c1 b1 a1
                                          = Some s) by exact Es;
                            rewrite Es'
                        end;
                        cbn [bind ret];
                        eexists; split; [reflexivity|];
                        rewrite inject_Z_plus, Hs, Hint; ring)
                  f 0%Z a ltac:(lia)
                  ltac:(cbv beta; ring))
        as [j [G [E [I [B1 [B2 _]]]]]]
  end.
  assert (Hj : j = nsegments) by lia. subst j.
  exists G. split; [exact E|].
  rewrite I. unfold sw.
  assert (Hk0 : ~ inject_Z nsegments == 0).
  { intro H0. unfold Qeq, inject_Z in H0. cbn [Qnum Qden] in H0. lia. }
  field. split; [lra | exact Hk0].
Qed.

Lemma adaptiveSimpson_constant_density
    (T_K P_start_Pa P_end_Pa tol : Q) (max_depth : Z)
    (thermoWithTol : WaterThermoModelOptions) (M rho0 : Q) :
  (0 <= max_depth)%Z ->
  0 <= tol ->
  0 < rho0 ->
  (forall P : Q, D (eos T_K P thermoWithTol) == rho0) ->
  exists G : Q,
    adaptiveSimpson T_K P_start_Pa P_end_Pa tol max_depth thermoWithTol M
      = Some G /\
    G == (M / rho0) * (P_end_Pa - P_start_Pa).
Proof.
  intros Hd Htol Hrho Hconst.
  set (V := M / rho0).
  assert (HV : forall P, molarVolume M (eos T_K P thermoWithTol) == V)
    by (intro P; apply molarVolume_of_density; [exact Hrho | apply Hconst]).
  eexists. split.
  - apply adaptive_simpson_accepts_root; [exact Hd|].
    rewrite !HV.
    assert (E : V - 0.5 * (V + V) == 0) by ring.
    rewrite E. exact Htol.
  - cbv beta. rewrite !HV. field.
Qed.

Lemma trapezoidal_loop_constant_density
    (T_K P_start_Pa dP : Q) (nsteps : Z)
    (thermoWithTol : WaterThermoModelOptions) (M rho0 Vm_prev : Q) :
  (0 <= nsteps)%Z ->
  0 < rho0 ->
  (forall P : Q, D (eos T_K P thermoWithTol) == rho0) ->
  Vm_prev == M / rho0 ->
  exists st : Q * Q,
    for_loop (Z.to_nat nsteps) 1 1 (fun i => (i <=? nsteps)%Z)
      (trapezoidal_step T_K P_start_Pa dP M thermoWithTol) (0.0, Vm_prev)
      = Some st /\
    fst st == inject_Z nsteps * ((M / rho0) * dP).
Proof.
  intros Hn Hrho Hconst Hprev.
  set (V := M / rho0) in *.
  rewrite (for_loop_cond_ext _ (fun i => (i <=? nsteps)%Z)
             (fun i => (i <? nsteps + 1)%Z))
    by (intro i; destruct (i <=? nsteps)%Z eqn:E1;
        destruct (i <? nsteps + 1)%Z eqn:E2; try reflexivity;
        [apply Z.leb_le in E1; apply Z.ltb_ge in E2; lia
        |apply Z.leb_gt in E1; apply Z.ltb_lt in E2; lia]).
  destruct (for_loop_lt_run
              (fun i (st : Q * Q) =>
                 snd st == V /\ fst st == (inject_Z i - 1) * (V * dP))
              (trapezoidal_step T_K P_start_Pa dP M thermoWithTol)
              (nsteps + 1) 1 ltac:(lia))
    with (fuel := Z.to_nat nsteps) (i := 1%Z) (acc := (0.0, Vm_prev))
    as [j [st [E [[I1 I2] [B1 [B2 _]]]]]].
  - intros i [G Vp] Hi [Hs Hg]. cbn [fst snd] in Hs, Hg.
    unfold GibbsModel.trapezoidal_step.
    assert (Ed : Qle_bool
                   (D (eos T_K (P_start_Pa + inject_Z i * dP) thermoWithTol))
                   0.0 = false).
    { apply Qle_bool_false. rewrite Hconst. lra. }
    rewrite Ed, (div_density_after_nonpositive_test _ _ Ed).
    cbn [bind ret]. eexists. split; [reflexivity|].
    cbn [fst snd]. split.
    + rewrite Hconst. reflexivity.
    + rewrite inject_Z_plus, Hconst, Hg, Hs. unfold V. ring.
  - lia.
  - cbn [fst snd]. split; [exact Hprev | ring].
  - assert (Hj : j = (nsteps + 1)%Z) by lia. subst j.
    exists st. split; [exact E|].
    rewrite I2, inject_Z_plus. ring.
Qed.

Lemma Qfloor_unique (z : Z) (x : Q) :
  inject_Z z <= x -> x < inject_Z (z + 1) -> Qfloor x = z.
Proof.
  intros H1 H2.
  pose proof (Qfloor_le x) as F1. pose proof (Qlt_floor x) as F2.
  assert (A : (Qfloor x < z + 1)%Z)
    by (rewrite Zlt_Qlt; apply Qle_lt_trans with (1 := F1); exact H2).
  assert (B : (z < Qfloor x + 1)%Z)
    by (rewrite Zlt_Qlt; apply Qle_lt_trans with (1 := H1); exact F2).
  lia.
Qed.

Lemma Qfloor_minus_one (x : Q) : Qfloor (x - 1) = (Qfloor x - 1)%Z.
Proof.
  pose proof (Qfloor_le x) as F1. pose proof (Qlt_floor x) as F2.
  rewrite inject_Z_plus in F2. change (inject_Z 1) with 1 in F2.
  apply Qfloor_unique.
  - replace (Qfloor x - 1)%Z with (Qfloor x + (-1))%Z by lia.
    rewrite inject_Z_plus. change (inject_Z (-1)) with (-1). lra.
  - rewrite Z.sub_add. lra.
Qed.

(** The number of iterations of the Excel-compatible loop from
    [Pstep_bar] on: both ends of the range are visited. *)
Lemma excelIntegration_loop_constant_density
    (T_K P_bar spacing_bar spacing_Pa : Q)
    (thermoWithTol : WaterThermoModelOptions) (M rho0 : Q) (fuel : nat) :
  0 < spacing_bar ->
  0 < rho0 ->
  (forall P : Q, D (eos T_K P thermoWithTol) == rho0) ->
  forall Pstep_bar G_int_J : Q,
    P_bar + 0.000000001
      < Pstep_bar + inject_Z (Z.of_nat fuel) * spacing_bar ->
    exists G : Q,
      excelIntegration_loop fuel T_K P_bar spacing_bar spacing_Pa M
        thermoWithTol Pstep_bar G_int_J = Some G /\
      G == G_int_J
           + inject_Z (Z.max 0
               (Qfloor ((P_bar + 0.000000001 - Pstep_bar) / spacing_bar) + 1))
             * ((M / rho0) * spacing_Pa).
Proof.
  intros Hs Hrho Hconst.
  assert (Hdone : forall Pstep, P_bar + 0.000000001 < Pstep ->
            Z.max 0 (Qfloor ((P_bar + 0.000000001 - Pstep) / spacing_bar) + 1)
            = 0%Z).
  { intros Pstep Hlt.
    assert (Hneg : (P_bar + 0.000000001 - Pstep) / spacing_bar < 0).
    { apply Qlt_shift_div_r; [exact Hs | lra]. }
    pose proof (Qfloor_le ((P_bar + 0.000000001 - Pstep) / spacing_bar))
      as F1.
    assert (A : (Qfloor ((P_bar + 0.000000001 - Pstep) / spacing_bar) < 0)%Z).
    { rewrite Zlt_Qlt. change (inject_Z 0) with 0. lra. }
    lia. }
  induction fuel as [|fuel IH]; intros Pstep G Hb;
    cbn [GibbsModel.excelIntegration_loop].
  - assert (Hlt : P_bar + 0.000000001 < Pstep).
    { cbn [Z.of_nat] in Hb.
      assert (inject_Z 0 * spacing_bar == 0) by ring. lra. }
    assert (E : Qle_bool Pstep (P_bar + 0.000000001) = false)
      by (apply Qle_bool_false; exact Hlt).
    rewrite E. exists G. split; [reflexivity|].
    rewrite (Hdone Pstep Hlt). change (inject_Z 0) with 0. ring.
  - destruct (Qle_bool Pstep (P_bar + 0.000000001)) eqn:Ec.
    + apply Qle_bool_iff in Ec.
      assert (Hstep : P_bar + 0.000000001
                < Pstep + spacing_bar
                  + inject_Z (Z.of_nat fuel) * spacing_bar).
      { assert (Es : inject_Z (Z.of_nat (S fuel)) * spacing_bar
                     == inject_Z (Z.of_nat fuel) * spacing_bar + spacing_bar).
        { rewrite Nat2Z.inj_succ. unfold Z.succ. rewrite inject_Z_plus.
          ring. }
        rewrite Es in Hb. lra. }
      assert (Ed : Qle_bool
                     (D (eos T_K (Pstep * 100000.0) thermoWithTol)) 0.0
                   = false).
      { apply Qle_bool_false. rewrite Hconst. lra. }
      rewrite Ed, (div_density_after_nonpositive_test _ _ Ed).
      cbn [bind].
      destruct (IH (Pstep + spacing_bar)
                  (G + M / D (eos T_K (Pstep * 100000.0) thermoWithTol)
                       * spacing_Pa) Hstep) as [r [Er Hr]].
      exists r. split; [exact Er|].
      rewrite Hr, Hconst.
      set (x := (P_bar + 0.000000001 - Pstep) / spacing_bar).
      assert (Ex : (P_bar + 0.000000001 - (Pstep + spacing_bar)) / spacing_bar
                   == x - 1) by (unfold x; field; lra).
      rewrite (Qfloor_comp _ _ Ex), Qfloor_minus_one.
      assert (Hx0 : 0 <= x)
        by (unfold x; apply Qle_shift_div_l; [exact Hs | lra]).
      assert (Hf0 : (0 <= Qfloor x)%Z).
      { change 0%Z with (Qfloor (inject_Z 0)).
        apply Qfloor_resp_le. exact Hx0. }
      rewrite !Z.max_r by lia.
      replace (Qfloor x - 1 + 1)%Z with (Qfloor x) by lia.
      rewrite inject_Z_plus. change (inject_Z 1) with 1. ring.
    + apply Qle_bool_false in Ec.
      exists G. split; [reflexivity|].
      rewrite (Hdone Pstep Ec). change (inject_Z 0) with 0. ring.
Qed.

Lemma gibbsDewIntegral_above_reference (T_K P_Pa : Q)
    (thermo : WaterThermoModelOptions) (opt : WaterGibbsModelOptions) :
  1000 < P_Pa * 0.00001 ->
  Qlt_bool (P_Pa * 0.00001) 1000.0 = false /\
  Qeq_bool (P_Pa * 0.00001) 1000.0 = false.
Proof.
  intro H. split.
  - apply Qlt_bool_false. lra.
  - apply Qeq_bool_false. intro E. lra.
Qed.

(** X5.  The water Gibbs integral on an incompressible fluid.  When the
    equation of state returns the same positive density [rho0] at every
    pressure and P > 1000 bar, the model with the Trapezoidal rule or
    Simpson's rule (at least one step) or Adaptive Simpson (tolerance and
    depth cap not negative) returns exactly the 1-kbar baseline plus the
    molar volume [M / rho0] times (P - 1000 bar), M = 0.01801528 kg/mol. *)
Theorem gibbs_dew_integral_exact_on_incompressible_fluid
    (T_K P_Pa : Q) (thermo : WaterThermoModelOptions)
    (opt : WaterGibbsModelOptions) (rho0 : Q) :
  1000 < P_Pa * 0.00001 ->
  useExcelIntegration opt = false ->
  (integrationMethod opt = Trapezoidal /\ (1 <= integrationSteps opt)%Z) \/
  (integrationMethod opt = Simpson /\ (1 <= integrationSteps opt)%Z) \/
  (integrationMethod opt = AdaptiveSimpson /\
   0 <= adaptiveIntegrationTolerance opt /\
   (0 <= maxAdaptiveSubdivisions opt)%Z) ->
  0 < rho0 ->
  (forall P : Q, D (eos T_K P (thermoWithTol thermo opt)) == rho0) ->
  exists G : Q,
    gibbsDewIntegral_J_per_mol T_K P_Pa thermo opt = Some G /\
    G == GibbsModel.GAtOneKb_cal_per_mol (T_K - 273.15) * 4.184
         + (0.01801528 / rho0) * (P_Pa - 100000000).
Proof.
  intros HP Hex Hm Hrho Hconst.
  destruct (gibbsDewIntegral_above_reference T_K P_Pa thermo opt HP)
    as [E1 E2].
  unfold GibbsModel.gibbsDewIntegral_J_per_mol.
  rewrite E1, E2, Hex. cbv zeta. fold (thermoWithTol thermo opt).
  unfold GibbsModel.toCelsius.
  destruct Hm as [[Hm Hn] | [[Hm Hn] | [Hm [Ht Hd]]]]; rewrite Hm.
  - rewrite guarded_molar_volume. cbn [bind].
    destruct (trapezoidal_loop_constant_density T_K (1000.0 * 100000.0)
                ((P_Pa - 1000.0 * 100000.0)
                 / inject_Z (integrationSteps opt))
                (integrationSteps opt) (thermoWithTol thermo opt)
                0.01801528 rho0
                (molarVolume 0.01801528
                   (eos T_K (1000.0 * 100000.0) (thermoWithTol thermo opt)))
                ltac:(lia) Hrho Hconst
                ltac:(apply molarVolume_of_density;
                      [exact Hrho | apply Hconst]))
      as [st [Est Hst]].
    rewrite Est. cbn [bind ret]. eexists. split; [reflexivity|].
    rewrite Hst.
    assert (Hk0 : ~ inject_Z (integrationSteps opt) == 0).
    { intro H0. unfold Qeq, inject_Z in H0. cbn [Qnum Qden] in H0. lia. }
    field. split; [lra | exact Hk0].
  - destruct (simpsonRule_constant_density T_K (1000.0 * 100000.0) P_Pa
                (integrationSteps opt) (thermoWithTol thermo opt)
                0.01801528 rho0 ltac:(lia) Hrho Hconst) as [G [EG HG]].
    rewrite EG. cbn [bind ret]. eexists. split; [reflexivity|].
    rewrite HG. ring.
  - destruct (adaptiveSimpson_constant_density T_K (1000.0 * 100000.0) P_Pa
                (adaptiveIntegrationTolerance opt)
                (maxAdaptiveSubdivisions opt) (thermoWithTol thermo opt)
                0.01801528 rho0 Hd Ht Hrho Hconst) as [G [EG HG]].
    rewrite EG. cbn [bind ret]. eexists. split; [reflexivity|].
    rewrite HG. ring.
Qed.

(** X6.  The 16-point rule of the code on an incompressible fluid.  With
    the method GaussLegendre16 and P > 1000 bar, for every number of steps,
    the integral part of the model is the molar volume times (P - 1000 bar)
    times 0.9999858635681307, half the sum of the sixteen weights of the
    table: the rule as coded does not integrate a constant exactly. *)
Theorem gibbs_dew_integral_gauss_legendre_on_incompressible_fluid
    (T_K P_Pa : Q) (thermo : WaterThermoModelOptions)
    (opt : WaterGibbsModelOptions) (rho0 : Q) :
  1000 < P_Pa * 0.00001 ->
  useExcelIntegration opt = false ->
  integrationMethod opt = GaussLegendre16 ->
  0 < rho0 ->
  (forall P : Q, D (eos T_K P (thermoWithTol thermo opt)) == rho0) ->
  exists G : Q,
    gibbsDewIntegral_J_per_mol T_K P_Pa thermo opt = Some G /\
    G == GibbsModel.GAtOneKb_cal_per_mol (T_K - 273.15) * 4.184
         + 0.9999858635681307
           * ((0.01801528 / rho0) * (P_Pa - 100000000)).
Proof.
  intros HP Hex Hm Hrho Hconst.
  destruct (gibbsDewIntegral_above_reference T_K P_Pa thermo opt HP)
    as [E1 E2].
  unfold GibbsModel.gibbsDewIntegral_J_per_mol.
  rewrite E1, E2, Hex, Hm. cbv zeta. fold (thermoWithTol thermo opt).
  unfold GibbsModel.toCelsius.
  destruct (gaussLegendre16_constant_density T_K (1000.0 * 100000.0) P_Pa
              (Z.max 1 (Z.quot (integrationSteps opt) 16))
              (thermoWithTol thermo opt) 0.01801528 rho0
              ltac:(lia) Hrho Hconst) as [G [EG HG]].
  rewrite EG. cbn [bind ret]. eexists. split; [reflexivity|].
  rewrite HG. ring.
Qed.


End IncompressibleFluid.

Lemma gibbs_dew_integral_exact_on_incompressible_fluid_witness :
  let eos := GibbsModel.waterThermoPropsModel LibmQ.exp_q Inputs.psat_1atm Q
               Samples.helmholtz_constant Samples.helmholtz_constant
               Inputs.thermoProps_of_density in
  let opt := Samples.gibbsWithMethod Simpson false Inputs.thermoWagnerPruss in
  1000 < 500000000 * 0.00001 /\
  useExcelIntegration opt = false /\
  ((integrationMethod opt = Trapezoidal /\ (1 <= integrationSteps opt)%Z) \/
   (integrationMethod opt = Simpson /\ (1 <= integrationSteps opt)%Z) \/
   (integrationMethod opt = AdaptiveSimpson /\
    0 <= adaptiveIntegrationTolerance opt /\
    (0 <= maxAdaptiveSubdivisions opt)%Z)) /\
  0 < 1000 /\
  (forall P : Q,
     D (eos 573.15 P (thermoWithTol Inputs.thermoWagnerPruss opt)) == 1000) /\
  exists G : Q,
    GibbsModel.gibbsDewIntegral_J_per_mol LibmQ.exp_q Inputs.psat_1atm Q
      Samples.helmholtz_constant Samples.helmholtz_constant
      Inputs.thermoProps_of_density 573.15 500000000
      Inputs.thermoWagnerPruss opt = Some G /\
    G == GibbsModel.GAtOneKb_cal_per_mol (573.15 - 273.15) * 4.184
         + (0.01801528 / 1000) * (500000000 - 100000000).
Proof.
  intros eos opt.
  assert (H1 : 1000 < 500000000 * 0.00001) by (vm_compute; reflexivity).
  assert (H2 : useExcelIntegration opt = false) by reflexivity.
  assert (H3 : (integrationMethod opt = Trapezoidal /\
                (1 <= integrationSteps opt)%Z) \/
               (integrationMethod opt = Simpson /\
                (1 <= integrationSteps opt)%Z) \/
               (integrationMethod opt = AdaptiveSimpson /\
                0 <= adaptiveIntegrationTolerance opt /\
                (0 <= maxAdaptiveSubdivisions opt)%Z))
    by (right; left; split; [reflexivity | cbn; lia]).
  assert (H4 : 0 < 1000) by lra.
  assert (H5 : forall P : Q,
             D (eos 573.15 P (thermoWithTol Inputs.thermoWagnerPruss opt))
             == 1000) by (intro P; reflexivity).
  split; [exact H1|]. split; [exact H2|]. split; [exact H3|].
  split; [exact H4|]. split; [exact H5|].
  exact (gibbs_dew_integral_exact_on_incompressible_fluid LibmQ.exp_q
           Inputs.psat_1atm Q Samples.helmholtz_constant
           Samples.helmholtz_constant Inputs.thermoProps_of_density
           573.15 500000000 Inputs.thermoWagnerPruss opt 1000
           H1 H2 H3 H4 H5).
Defined.

Lemma gibbs_dew_integral_gauss_legendre_on_incompressible_fluid_witness :
  let eos := GibbsModel.waterThermoPropsModel LibmQ.exp_q Inputs.psat_1atm Q
               Samples.helmholtz_constant Samples.helmholtz_constant
               Inputs.thermoProps_of_density in
  let opt :=
    Samples.gibbsWithMethod GaussLegendre16 false Inputs.thermoWagnerPruss in
  1000 < 500000000 * 0.00001 /\
  useExcelIntegration opt = false /\
  integrationMethod opt = GaussLegendre16 /\
  0 < 1000 /\
  (forall P : Q,
     D (eos 573.15 P (thermoWithTol Inputs.thermoWagnerPruss opt)) == 1000) /\
  exists G : Q,
    GibbsModel.gibbsDewIntegral_J_per_mol LibmQ.exp_q Inputs.psat_1atm Q
      Samples.helmholtz_constant Samples.helmholtz_constant
      Inputs.thermoProps_of_density 573.15 500000000
      Inputs.thermoWagnerPruss opt = Some G /\
    G == GibbsModel.GAtOneKb_cal_per_mol (573.15 - 273.15) * 4.184
         + 0.9999858635681307
           * ((0.01801528 / 1000) * (500000000 - 100000000)).
Proof.
  intros eos opt.
  assert (H1 : 1000 < 500000000 * 0.00001) by (vm_compute; reflexivity).
  assert (H2 : useExcelIntegration opt = false) by reflexivity.
  assert (H3 : integrationMethod opt = GaussLegendre16) by reflexivity.
  assert (H4 : 0 < 1000) by lra.
  assert (H5 : forall P : Q,
             D (eos 573.15 P (thermoWithTol Inputs.thermoWagnerPruss opt))
             == 1000) by (intro P; reflexivity).
  split; [exact H1|]. split; [exact H2|]. split; [exact H3|].
  split; [exact H4|]. split; [exact H5|].
  exact (gibbs_dew_integral_gauss_legendre_on_incompressible_fluid
           LibmQ.exp_q Inputs.psat_1atm Q Samples.helmholtz_constant
           Samples.helmholtz_constant Inputs.thermoProps_of_density
           573.15 500000000 Inputs.thermoWagnerPruss opt 1000
           H1 H2 H3 H4 H5).
Defined.


(** ** The integral never lowers the baseline *)

Lemma for_loop_preserves {A : Type} (Inv : A -> Prop)
    (body : Z -> A -> option A) (step : Z) (cond : Z -> bool) :
  (forall i a a', Inv a -> body i a = Some a' -> Inv a') ->
  forall (fuel : nat) (i : Z) (acc r : A),
    Inv acc -> for_loop fuel i step cond body acc = Some r -> Inv r.
Proof.
  intro Hbody. induction fuel as [|fuel IH]; intros i acc r Hinv Hr;
    cbn [for_loop] in Hr.
  - destruct (cond i); [discriminate|]. injection Hr as <-. exact Hinv.
  - destruct (cond i); [|injection Hr as <-; exact Hinv].
    destruct (body i acc) as [a'|] eqn:Eb; cbn [bind] in Hr;
      [|discriminate].
    apply (IH _ _ _ (Hbody i acc a' Hinv Eb) Hr).
Qed.

Lemma GaussLegendre16_weights_nonneg (n : nat) :
  0 <= nth n GibbsModel.GaussLegendre16_weights 0.
Proof.
  do 16 (destruct n as [|n]; [cbn; lra|]).
  destruct n; cbn; lra.
Qed.

Section IntegralSign.
Variable exp : Q -> Q.
Variable psat : Q -> Q.
Variable WaterHelmholtzProps : Type.
Variables whpWagnerPruss whpHGK : Q -> Q -> WaterHelmholtzProps.
Variable thermoProps : Q -> Q -> WaterHelmholtzProps -> WaterThermoProps.

Abbreviation eos :=
  (GibbsModel.waterThermoPropsModel exp psat WaterHelmholtzProps
     whpWagnerPruss whpHGK thermoProps).
Abbreviation simpsonRule :=
  (GibbsModel.simpsonRule exp psat WaterHelmholtzProps
     whpWagnerPruss whpHGK thermoProps).
Abbreviation gaussLegendre16 :=
  (GibbsModel.gaussLegendre16 exp psat WaterHelmholtzProps
     whpWagnerPruss whpHGK thermoProps).
Abbreviation adaptiveSimpsonsHelper :=
  (GibbsModel.adaptiveSimpsonsHelper exp psat WaterHelmholtzProps
     whpWagnerPruss whpHGK thermoProps).
Abbreviation adaptiveSimpson :=
  (GibbsModel.adaptiveSimpson exp psat WaterHelmholtzProps
     whpWagnerPruss whpHGK thermoProps).
Abbreviation excelIntegration_loop :=
  (GibbsModel.excelIntegration_loop exp psat WaterHelmholtzProps
     whpWagnerPruss whpHGK thermoProps).
Abbreviation trapezoidal_step :=
  (GibbsModel.trapezoidal_step exp psat WaterHelmholtzProps
     whpWagnerPruss whpHGK thermoProps).
Abbreviation gibbsDewIntegral_J_per_mol :=
  (GibbsModel.gibbsDewIntegral_J_per_mol exp psat WaterHelmholtzProps
     whpWagnerPruss whpHGK thermoProps).

Lemma simpsonRule_nonneg (T_K P_start_Pa P_end_Pa : Q) (nsteps : Z)
    (thermoWithTol : WaterThermoModelOptions) (M G : Q) :
  (1 <= nsteps)%Z -> 0 <= M -> P_start_Pa <= P_end_Pa ->
  simpsonRule T_K P_start_Pa P_end_Pa nsteps thermoWithTol M = Some G ->
  0 <= G.
Proof.
  intros Hn HM HP H.
  destruct (simpson_even_steps nsteps ltac:(lia)) as [k [Hk Ek]].
  unfold GibbsModel.simpsonRule in H. rewrite Ek in H.
  remember (2 * k)%Z as n eqn:En.
  assert (Hh : 0 <= (P_end_Pa - P_start_Pa) / inject_Z n).
  { apply Qle_shift_div_l.
    - rewrite <- (Zlt_Qlt 0). lia.
    - lra. }
  set (h := (P_end_Pa - P_start_Pa) / inject_Z n) in *.
  rewrite guarded_molar_volume in H. cbn [bind] in H.
  match type of H with
  | context [for_loop ?f 1%Z 2%Z ?c ?b ?a] =>
      destruct (for_loop f 1%Z 2%Z c b a) as [s1|] eqn:E1;
        cbn [bind] in H; [|discriminate];
      apply (for_loop_preserves (fun s => 0 <= s)) in E1;
        [| intros i s s' Hs Hb; cbv beta zeta in Hb;
           rewrite guarded_molar_volume in Hb; cbn [bind ret] in Hb;
           injection Hb as <-;
           match goal with
           | |- 0 <= s + _ * molarVolume M ?wt =>
               pose proof (molarVolume_nonneg M wt HM); lra
           end
         | apply molarVolume_nonneg; exact HM]
  end.
  match type of H with
  | context [for_loop ?f 2%Z 2%Z ?c ?b ?a] =>
      destruct (for_loop f 2%Z 2%Z c b a) as [s2|] eqn:E2;
        cbn [bind] in H; [|discriminate];
      apply (for_loop_preserves (fun s => 0 <= s)) in E2;
        [| intros i s s' Hs Hb; cbv beta zeta in Hb;
           rewrite guarded_molar_volume in Hb; cbn [bind ret] in Hb;
           injection Hb as <-;
           match goal with
           | |- 0 <= s + _ * molarVolume M ?wt =>
               pose proof (molarVolume_nonneg M wt HM); lra
           end
         | exact E1]
  end.
  rewrite guarded_molar_volume in H. cbn [bind ret] in H.
  injection H as <-. cbv beta in E1, E2.
  pose proof (molarVolume_nonneg M (eos T_K P_end_Pa thermoWithTol) HM)
    as Hr.
  apply Qmult_le_0_compat; [|lra].
  apply Qle_shift_div_l; lra.
Qed.

Lemma gaussLegendre16_nonneg (T_K P_start_Pa P_end_Pa : Q) (nsegments : Z)
    (thermoWithTol : WaterThermoModelOptions) (M G : Q) :
  (1 <= nsegments)%Z -> 0 <= M -> P_start_Pa <= P_end_Pa ->
  gaussLegendre16 T_K P_start_Pa P_end_Pa nsegments thermoWithTol M = Some G ->
  0 <= G.
Proof.
  intros Hn HM HP H.
  unfold GibbsModel.gaussLegendre16 in H. cbv zeta in H.
  assert (Hw : 0 <= (P_end_Pa - P_start_Pa) / inject_Z nsegments).
  { apply Qle_shift_div_l.
    - rewrite <- (Zlt_Qlt 0). lia.
    - lra. }
  set (sw := (P_end_Pa - P_start_Pa) / inject_Z nsegments) in *.
  apply (for_loop_preserves (fun s => 0 <= s)) in H; [exact H | | lra].
  intros seg integral r Hint Hb. cbv beta in Hb.
  match type of Hb with
  | context [for_loop 16 0%Z 1%Z ?c ?b ?a] =>
      destruct (for_loop 16 0%Z 1%Z c b a) as [s|] eqn:Es;
        cbn [bind ret] in Hb; [|discriminate];
      apply (for_loop_preserves (fun s => 0 <= s)) in Es;
        [| intros i s0 s' Hs Hbi; cbv beta in Hbi;
           rewrite guarded_molar_volume in Hbi; cbn [bind ret] in Hbi;
           injection Hbi as <-;
           match goal with
           | |- 0 <= s0 + ?w * molarVolume M ?wt =>
               pose proof (molarVolume_nonneg M wt HM);
               pose proof (GaussLegendre16_weights_nonneg (Z.to_nat i));
               assert (0 <= w * molarVolume M wt)
                 by (apply Qmult_le_0_compat; assumption);
               lra
           end
         | lra]
  end.
  injection Hb as <-. cbv beta in Es.
  cbv beta in Hint.
  assert (0 <= sw / 2.0 * s)
    by (apply Qmult_le_0_compat;
        [apply Qle_shift_div_l; lra | exact Es]).
  lra.
Qed.

Lemma adaptiveSimpsonsHelper_nonneg (max_depth : Z)
    (thermoWithTol : WaterThermoModelOptions) (T_K M : Q) (fuel : nat) :
  0 <= M ->
  forall (P_L P_R tol : Q) (current_depth : Z) (Vm_L Vm_R G : Q),
    P_L <= P_R -> 0 <= Vm_L -> 0 <= Vm_R ->
    adaptiveSimpsonsHelper fuel T_K P_L P_R tol max_depth current_depth
      thermoWithTol M Vm_L Vm_R = Some G ->
    0 <= G.
Proof.
  intro HM.
  induction fuel as [|fuel IH]; intros P_L P_R tol d Vm_L Vm_R G HP HL HR H;
    cbn [GibbsModel.adaptiveSimpsonsHelper] in H; [discriminate|].
  destruct (max_depth <? d)%Z; [injection H as <-; lra|].
  rewrite guarded_molar_volume in H. cbn [bind] in H.
  pose proof (molarVolume_nonneg M
                (eos T_K ((P_L + P_R) / 2.0) thermoWithTol) HM) as Hmid.
  set (Vm_mid := molarVolume M (eos T_K ((P_L + P_R) / 2.0) thermoWithTol))
    in *.
  destruct (Qle_bool _ tol).
  - cbn [ret] in H. injection H as <-.
    apply Qmult_le_0_compat; [apply Qle_shift_div_l; lra | lra].
  - rewrite !guarded_molar_volume in H. cbn [bind] in H.
    assert (Hm1 : P_L <= (P_L + P_R) / 2.0)
      by (apply Qle_shift_div_l; lra).
    assert (Hm2 : (P_L + P_R) / 2.0 <= P_R)
      by (apply Qle_shift_div_r; lra).
    match type of H with
    | bind ?m _ = Some _ =>
        destruct m as [l|] eqn:El; cbn [bind] in H; [|discriminate];
        apply IH in El; [|exact Hm1|assumption|assumption]
    end.
    match type of H with
    | bind ?m _ = Some _ =>
        destruct m as [r|] eqn:Er; cbn [bind] in H; [|discriminate];
        apply IH in Er; [|exact Hm2|assumption|assumption]
    end.
    cbn [ret] in H. injection H as <-. lra.
Qed.

Lemma adaptiveSimpson_nonneg (T_K P_start_Pa P_end_Pa tol : Q)
    (max_depth : Z) (thermoWithTol : WaterThermoModelOptions) (M G : Q) :
  0 <= M -> P_start_Pa <= P_end_Pa ->
  adaptiveSimpson T_K P_start_Pa P_end_Pa tol max_depth thermoWithTol M
    = Some G ->
  0 <= G.
Proof.
  intros HM HP H. unfold GibbsModel.adaptiveSimpson in H.
  rewrite !guarded_molar_volume in H. cbn [bind] in H.
  apply adaptiveSimpsonsHelper_nonneg in H;
    [exact H | exact HM | exact HP | | ];
    apply molarVolume_nonneg; exact HM.
Qed.

Lemma excelIntegration_loop_nonneg (T_K P_bar spacing_bar spacing_Pa M : Q)
    (thermoWithTol : WaterThermoModelOptions) (fuel : nat) :
  0 <= M -> 0 <= spacing_Pa ->
  forall Pstep_bar G_int_J G : Q,
    0 <= G_int_J ->
    excelIntegration_loop fuel T_K P_bar spacing_bar spacing_Pa M
      thermoWithTol Pstep_bar G_int_J = Some G ->
    0 <= G.
Proof.
  intros HM Hs.
  induction fuel as [|fuel IH]; intros Pstep G0 G HG H;
    cbn [GibbsModel.excelIntegration_loop] in H.
  - destruct (Qle_bool Pstep _); [discriminate|].
    injection H as <-. exact HG.
  - destruct (Qle_bool Pstep _); [|injection H as <-; exact HG].
    destruct (Qle_bool (D _) 0.0) eqn:Ed.
    + apply (IH _ _ _ HG H).
    + rewrite (div_density_after_nonpositive_test _ _ Ed) in H.
      cbn [bind] in H. apply Qle_bool_false in Ed.
      refine (IH _ _ _ _ H).
      match goal with
      | |- 0 <= G0 + M / ?d * spacing_Pa =>
          assert (0 <= M / d) by (apply Qle_shift_div_l; lra);
          assert (0 <= M / d * spacing_Pa)
            by (apply Qmult_le_0_compat; assumption);
          lra
      end.
Qed.

Lemma trapezoidal_step_nonneg (T_K P_start_Pa dP M : Q)
    (thermoWithTol : WaterThermoModelOptions) (i : Z) (st st' : Q * Q) :
  0 <= M -> 0 <= dP ->
  0 <= fst st /\ 0 <= snd st ->
  trapezoidal_step T_K P_start_Pa dP M thermoWithTol i st = Some st' ->
  0 <= fst st' /\ 0 <= snd st'.
Proof.
  intros HM HdP [H1 H2] H. destruct st as [G Vp]. cbn [fst snd] in H1, H2.
  unfold GibbsModel.trapezoidal_step in H.
  destruct (Qle_bool (D _) 0.0) eqn:Ed.
  - injection H as <-. split; assumption.
  - rewrite (div_density_after_nonpositive_test _ _ Ed) in H.
    cbn [bind ret] in H. injection H as <-. cbn [fst snd].
    apply Qle_bool_false in Ed.
    match goal with
    | |- 0 <= G + 0.5 * (Vp + M / ?d) * dP /\ _ =>
        assert (Hv : 0 <= M / d) by (apply Qle_shift_div_l; lra);
        assert (0 <= 0.5 * (Vp + M / d) * dP)
          by (apply Qmult_le_0_compat; lra)
    end.
    split; lra.
Qed.

(** X8.  The integral never lowers the baseline.  For every equation of
    state, every temperature and every pressure of at least 1000 bar, the
    water Gibbs energy of the integral model exists and is at least the
    1-kbar baseline: each of the five integration paths adds molar volumes
    that are positive or zero with weights that are positive or zero.
    Simpson's rule needs a positive number of steps for that. *)
Theorem gibbs_dew_integral_not_below_baseline
    (T_K P_Pa : Q) (thermo : WaterThermoModelOptions)
    (opt : WaterGibbsModelOptions) :
  1000 <= P_Pa * 0.00001 ->
  (useExcelIntegration opt = false -> integrationMethod opt = Simpson ->
   (1 <= integrationSteps opt)%Z) ->
  exists G : Q,
    gibbsDewIntegral_J_per_mol T_K P_Pa thermo opt = Some G /\
    GibbsModel.GAtOneKb_cal_per_mol (T_K - 273.15) * 4.184 <= G.
Proof.
  intros HP Hsimpson.
  destruct (gibbsDewIntegral_total exp psat WaterHelmholtzProps
              whpWagnerPruss whpHGK thermoProps T_K P_Pa thermo opt)
    as [G HG].
  exists G. split; [exact HG|].
  unfold GibbsModel.gibbsDewIntegral_J_per_mol in HG.
  assert (E1 : Qlt_bool (P_Pa * 0.00001) 1000.0 = false)
    by (apply Qlt_bool_false; lra).
  rewrite E1 in HG. unfold GibbsModel.toCelsius in HG. cbv zeta in HG.
  destruct (Qeq_bool (P_Pa * 0.00001) 1000.0) eqn:E2.
  - injection HG as <-. lra.
  - apply Qeq_bool_false in E2.
    assert (HP' : 1000.0 * 100000.0 <= P_Pa) by lra.
    fold (thermoWithTol thermo opt) in HG.
    match type of HG with
    | bind ?m _ = Some G =>
        destruct m as [Gi|] eqn:Em; cbn [bind ret] in HG; [|discriminate];
        assert (Hi : 0 <= Gi)
    end.
    { destruct (useExcelIntegration opt) eqn:Ex.
      - apply excelIntegration_loop_nonneg in Em; [exact Em|lra| |lra].
        unfold Qmax.
        destruct (Qlt_bool 1.0 ((P_Pa * 0.00001 - 1000.0) / 5000.0)) eqn:Eq;
          [apply Qlt_bool_iff in Eq|]; lra.
      - destruct (integrationMethod opt) eqn:Emeth.
        + rewrite guarded_molar_volume in Em. cbn [bind] in Em.
          match type of Em with
          | bind ?l _ = Some Gi =>
              destruct l as [st|] eqn:El; cbn [bind ret] in Em;
                [|discriminate]
          end.
          injection Em as <-.
          destruct (Z_le_gt_dec 1 (integrationSteps opt)) as [Hn|Hn].
          * apply (for_loop_preserves
                     (fun st : Q * Q => 0 <= fst st /\ 0 <= snd st)) in El;
              [exact (proj1 El) | |].
            -- intros i a a' Ha Hb.
               eapply trapezoidal_step_nonneg in Hb;
                 [exact Hb | lra | | exact Ha].
               apply Qle_shift_div_l; [rewrite <- (Zlt_Qlt 0); lia | lra].
            -- cbn [fst snd]. split; [lra|].
               apply molarVolume_nonneg. lra.
          * assert (Ez : Z.to_nat (integrationSteps opt) = 0%nat)
              by lia.
            rewrite Ez in El. cbn [for_loop] in El.
            assert (Ec : (1 <=? integrationSteps opt)%Z = false)
              by (apply Z.leb_gt; lia).
            rewrite Ec in El. injection El as <-. cbn [fst]. lra.
        + apply simpsonRule_nonneg in Em; [exact Em | | lra | exact HP'].
          apply Hsimpson; reflexivity.
        + apply gaussLegendre16_nonneg in Em;
            [exact Em | lia | lra | exact HP'].
        + apply adaptiveSimpson_nonneg in Em; [exact Em | lra | exact HP']. }
    injection HG as <-. lra.
Qed.

End IntegralSign.

Lemma gibbs_dew_integral_not_below_baseline_witness :
  1000 <= 500000000 * 0.00001 /\
  (useExcelIntegration (Inputs.gibbsDewIntegralDefaults Inputs.thermoZD05)
     = false ->
   integrationMethod (Inputs.gibbsDewIntegralDefaults Inputs.thermoZD05)
     = Simpson ->
   (1 <= integrationSteps
           (Inputs.gibbsDewIntegralDefaults Inputs.thermoZD05))%Z) /\
  exists G : Q,
    GibbsModel.gibbsDewIntegral_J_per_mol LibmQ.exp_q Inputs.psat_1atm Q
      Inputs.helmholtz_linear Inputs.helmholtz_linear
      Inputs.thermoProps_of_density 573.15 500000000 Inputs.thermoZD05
      (Inputs.gibbsDewIntegralDefaults Inputs.thermoZD05) = Some G /\
    GibbsModel.GAtOneKb_cal_per_mol (573.15 - 273.15) * 4.184 <= G.
Proof.
  assert (H1 : 1000 <= 500000000 * 0.00001)
    by (apply Qle_by_bool; vm_compute; reflexivity).
  assert (H2 : useExcelIntegration
                 (Inputs.gibbsDewIntegralDefaults Inputs.thermoZD05) = false ->
               integrationMethod
                 (Inputs.gibbsDewIntegralDefaults Inputs.thermoZD05)
               = Simpson ->
               (1 <= integrationSteps
                       (Inputs.gibbsDewIntegralDefaults Inputs.thermoZD05))%Z)
    by (intros _ _; cbn; lia).
  split; [exact H1|]. split; [exact H2|].
  exact (gibbs_dew_integral_not_below_baseline LibmQ.exp_q Inputs.psat_1atm
           Q Inputs.helmholtz_linear Inputs.helmholtz_linear
           Inputs.thermoProps_of_density 573.15 500000000 Inputs.thermoZD05
           (Inputs.gibbsDewIntegralDefaults Inputs.thermoZD05) H1 H2).
Defined.

(** ** Saturation overrides of the selectors *)

Section SaturationOverrides.
Variables (exp log sqrt : Q -> Q) (pow : Q -> Q -> Q).
Variable psat : Q -> Q.
Variable WaterHelmholtzProps : Type.
Variables whpWagnerPruss whpHGK : Q -> Q -> WaterHelmholtzProps.
Variable thermoProps : Q -> Q -> WaterHelmholtzProps -> WaterThermoProps.
Variables (epsilon_jn depsdrho_jn : Q -> Q -> Q).

Abbreviation thermoModel :=
  (ThermoModel.waterThermoPropsModel exp psat WaterHelmholtzProps
     whpWagnerPruss whpHGK thermoProps).
Abbreviation gibbsModel :=
  (GibbsModel.waterGibbsModel exp psat WaterHelmholtzProps
     whpWagnerPruss whpHGK thermoProps).
Abbreviation dielectricModel :=
  (DielectricModel.waterElectroPropsModel exp sqrt pow psat
     epsilon_jn depsdrho_jn).

Lemma psat_density_polynomial_forms
    (c40 c10 c4 c3 c2 c1 c0 c10' c1' t : Q) :
  c10 == c10' -> c1 == c1' ->
  (c40 * t ^ 40 + c10 * t ^ 10 + c4 * t ^ 4 + c3 * t ^ 3 + c2 * t ^ 2
   + c1 * t + c0) * 1000.0
  == (c40 * t ^ 40 + c10' * t ^ 10 + c4 * (t * t * (t * t))
      + c3 * (t * t * t) + c2 * (t * t) + c1' * t + c0) * 1000.0.
Proof. intros E1 E2. rewrite E1, E2. ring. Qed.

(** The three copies of the saturation density polynomial. *)
Lemma psat_density_polynomials_agree (T_K : Q) :
  ThermoModel.dewPsatDensityLiquid_g_cm3_from_T T_K * 1000.0
    == PsatPolynomials.waterPsatDensityDEW T_K /\
  ZD09.densityPsatPoly_DEW (ZD09.kelvinToCelsius T_K) * 1000.0
    == PsatPolynomials.waterPsatDensityDEW T_K.
Proof.
  unfold ThermoModel.dewPsatDensityLiquid_g_cm3_from_T,
         ZD09.densityPsatPoly_DEW, ZD09.kelvinToCelsius,
         PsatPolynomials.waterPsatDensityDEW,
         PsatPolynomials.isValidForPsatPolys,
         PsatPolynomials.toCelsius.
  cbn [negb]. cbv zeta.
  split; [reflexivity|].
  apply psat_density_polynomial_forms;
    apply Qeq_bool_iff; vm_compute; reflexivity.
Qed.

(** X9.  The routes to the saturation density agree.  The near-saturation
    override of the EOS selector (Zhang & Duan models, option on, pressure
    within the relative tolerance of the saturation pressure), the
    Zhang & Duan 2009 module with [usePsat], and [waterPsatDensityDEW]
    return the same density (exact arithmetic), whatever the pressure; the
    override also sets every derivative of the density to zero.  For
    Wagner-Pruss and HGK the selector never overrides. *)
Theorem saturation_density_routes_agree
    (T P : Q) (opt : WaterThermoModelOptions)
    (opts09 : WaterZhangDuan2009Options) :
  (thermo_usePsatPolynomials opt = true ->
   eosModel opt = ZhangDuan2005 \/ eosModel opt = ZhangDuan2009 ->
   ThermoModel.isNearPsatWagnerPruss psat T P
     (thermo_psatRelativeTolerance opt) = true ->
   D (thermoModel T P opt) == PsatPolynomials.waterPsatDensityDEW T /\
   DP (thermoModel T P opt) = 0.0 /\ DT (thermoModel T P opt) = 0.0 /\
   DTT (thermoModel T P opt) = 0.0 /\ DTP (thermoModel T P opt) = 0.0 /\
   DPP (thermoModel T P opt) = 0.0) /\
  (usePsat opts09 = true ->
   D (ZD09.waterThermoPropsZhangDuan2009 exp T P opts09)
     == PsatPolynomials.waterPsatDensityDEW T) /\
  (eosModel opt = WagnerPruss ->
   thermoModel T P opt = thermoProps T P (whpWagnerPruss T P)) /\
  (eosModel opt = HGK ->
   thermoModel T P opt = thermoProps T P (whpHGK T P)).
Proof.
  destruct (psat_density_polynomials_agree T) as [E1 E2].
  split; [|split; [|split]].
  - intros Hu Hm Hn.
    unfold ThermoModel.waterThermoPropsModel,
           ThermoModel.maybeApplyDewPsatOverride.
    rewrite Hu, Hn. cbn [negb].
    destruct Hm as [Hm | Hm]; rewrite Hm; cbn [D DP DT DTT DTP DPP];
      (split; [exact E1 | repeat split]).
  - intro Hu. unfold ZD09.waterThermoPropsZhangDuan2009,
                     ZD09.calculateDensity_ZD09.
    rewrite Hu. cbn [D]. exact E2.
  - intro Hm. unfold ThermoModel.waterThermoPropsModel,
                     ThermoModel.maybeApplyDewPsatOverride.
    rewrite Hm. destruct (negb (thermo_usePsatPolynomials opt)); reflexivity.
  - intro Hm. unfold ThermoModel.waterThermoPropsModel,
                     ThermoModel.maybeApplyDewPsatOverride.
    rewrite Hm. destruct (negb (thermo_usePsatPolynomials opt)); reflexivity.
Qed.

Lemma applyPsatOverrides_fields (T : Q)
    (opts : DielectricModel.WaterDielectricModelOptions)
    (we0 : WaterElectroProps) :
  let we := DielectricModel.applyPsatOverrides T opts we0 in
  epsilon we = PsatPolynomials.waterPsatEpsilonDEW T /\
  (epsilonT we = 0.0 /\ epsilonP we = 0.0 /\ epsilonTT we = 0.0 /\
   epsilonTP we = 0.0 /\ epsilonPP we = 0.0) /\
  (bornN we = 0.0 /\ bornU we = 0.0 /\ bornX we = 0.0) /\
  (~ epsilon we == 0 -> bornZ we * epsilon we == -1) /\
  (epsilon we == 0 -> bornZ we = 0.0) /\
  (DielectricModel.overrideQWithPsatFit opts = true ->
   bornQ we = PsatPolynomials.waterPsatBornQDEW T /\
   (bornQ we == epsilonP we / (epsilon we) ^ 2 ->
    PsatPolynomials.waterPsatBornQDEW T == 0)).
Proof.
  intro we. subst we. unfold DielectricModel.applyPsatOverrides.
  generalize (PsatPolynomials.waterPsatEpsilonDEW T) as eps.
  generalize (PsatPolynomials.waterPsatBornQDEW T) as Qp.
  intros Qp eps.
  cbn [epsilon epsilonT epsilonP epsilonTT epsilonTP epsilonPP
       bornZ bornQ bornN bornU bornX].
  split; [reflexivity|].
  split; [repeat split|]. split; [repeat split|].
  split; [|split].
  - intro Hne.
    assert (Eb : Qeq_bool eps 0.0 = false)
      by (apply Qeq_bool_false; intro H0; apply Hne; lra).
    rewrite Eb. cbn [negb]. field. exact Hne.
  - intro He.
    assert (Eb : Qeq_bool eps 0.0 = true)
      by (apply Qeq_bool_iff; lra).
    rewrite Eb. reflexivity.
  - intro Hq. rewrite Hq. split; [reflexivity|].
    intro Hc. rewrite Hc. unfold Qdiv. ring.
Qed.

Lemma dielectric_override_applies (T P : Q) (wt : WaterThermoProps)
    (opts : DielectricModel.WaterDielectricModelOptions) :
  DielectricModel.psatMode opts = DielectricModel.ForcePsat \/
  (DielectricModel.psatMode opts = DielectricModel.UsePsatWhenNear /\
   DielectricModel.isNearPsat psat T P
     (DielectricModel.psatRelativeTolerance opts) = true) ->
  dielectricModel T P wt opts
  = DielectricModel.applyPsatOverrides T opts
      (DielectricModel.evaluatePrimaryModel exp sqrt pow
         epsilon_jn depsdrho_jn T P wt (DielectricModel.primary opts)).
Proof.
  intro Hmode. unfold DielectricModel.waterElectroPropsModel.
  generalize (DielectricModel.evaluatePrimaryModel exp sqrt pow
                epsilon_jn depsdrho_jn T P wt (DielectricModel.primary opts))
    as we0.
  intro we0. cbv zeta.
  destruct Hmode as [Hm | [Hm Hn]]; rewrite Hm; [reflexivity|].
  rewrite Hn. reflexivity.
Qed.

(** X10.  The saturation override of the dielectric selector.  In mode
    ForcePsat, and in mode UsePsatWhenNear when the pressure is within the
    relative tolerance of the saturation pressure, the permittivity is the
    saturation polynomial of the temperature alone, whatever the primary
    formulation, the pressure and the water state; its derivatives and the
    Born coefficients N, U, X are zero; Z is -1/epsilon (0 when epsilon is
    0); and Q is the saturation polynomial when [overrideQWithPsatFit] is
    on.  Since epsilon_P is zero there, Q then equals epsilon_P/epsilon^2
    only where that polynomial vanishes. *)
Theorem dielectric_saturation_override
    (T P : Q) (wt : WaterThermoProps)
    (opts : DielectricModel.WaterDielectricModelOptions) :
  DielectricModel.psatMode opts = DielectricModel.ForcePsat \/
  (DielectricModel.psatMode opts = DielectricModel.UsePsatWhenNear /\
   DielectricModel.isNearPsat psat T P
     (DielectricModel.psatRelativeTolerance opts) = true) ->
  let we := dielectricModel T P wt opts in
  epsilon we = PsatPolynomials.waterPsatEpsilonDEW T /\
  (epsilonT we = 0.0 /\ epsilonP we = 0.0 /\ epsilonTT we = 0.0 /\
   epsilonTP we = 0.0 /\ epsilonPP we = 0.0) /\
  (bornN we = 0.0 /\ bornU we = 0.0 /\ bornX we = 0.0) /\
  (~ epsilon we == 0 -> bornZ we * epsilon we == -1) /\
  (epsilon we == 0 -> bornZ we = 0.0) /\
  (DielectricModel.overrideQWithPsatFit opts = true ->
   bornQ we = PsatPolynomials.waterPsatBornQDEW T /\
   (bornQ we == epsilonP we / (epsilon we) ^ 2 ->
    PsatPolynomials.waterPsatBornQDEW T == 0)).
Proof.
  intros Hmode we. subst we.
  rewrite (dielectric_override_applies T P wt opts Hmode).
  apply applyPsatOverrides_fields.
Qed.

Lemma waterGibbsModel_base_total (T P : Q) (opt : WaterGibbsModelOptions) :
  exists G : Q,
    match model opt with
    | DelaneyHelgeson1978 =>
        Some (GibbsModel.gibbsDelaneyHelgeson1978_J_per_mol T P)
    | DewIntegral =>
        GibbsModel.gibbsDewIntegral_J_per_mol exp psat WaterHelmholtzProps
          whpWagnerPruss whpHGK thermoProps T P (thermo opt) opt
    end = Some G.
Proof.
  destruct (model opt); [eexists; reflexivity|].
  apply gibbsDewIntegral_total.
Qed.

Lemma waterGibbsModel_total (T P : Q) (opt : WaterGibbsModelOptions) :
  exists G : Q, gibbsModel T P opt = Some G.
Proof.
  unfold GibbsModel.waterGibbsModel, ret.
  destruct (waterGibbsModel_base_total T P opt) as [G HG].
  destruct (model opt); cbn [bind]; [eexists; reflexivity|].
  rewrite HG. cbn [bind]. eexists. reflexivity.
Qed.

(** X11.  The saturation override of the water Gibbs model.  With the
    option on and the pressure within the relative tolerance of the
    saturation pressure, the model returns the saturation polynomial of the
    temperature, whatever the formulation, the integration settings and the
    pressure (below 1000 bar included, where the integral model alone
    returns 0).  With the option off, or a tolerance or a saturation
    pressure that is zero or negative, it returns the value of the selected
    formulation unchanged. *)
Theorem water_gibbs_saturation_override
    (T P : Q) (opt : WaterGibbsModelOptions) :
  (usePsatPolynomials opt = true ->
   GibbsModel.isNearPsat psat T P (psatRelativeTolerance opt) = true ->
   gibbsModel T P opt = Some (PsatPolynomials.waterPsatGibbsDEW T)) /\
  (usePsatPolynomials opt = false \/ psatRelativeTolerance opt <= 0 \/
   psat T <= 0 ->
   gibbsModel T P opt
   = match model opt with
     | DelaneyHelgeson1978 =>
         Some (GibbsModel.gibbsDelaneyHelgeson1978_J_per_mol T P)
     | DewIntegral =>
         GibbsModel.gibbsDewIntegral_J_per_mol exp psat WaterHelmholtzProps
           whpWagnerPruss whpHGK thermoProps T P (thermo opt) opt
     end).
Proof.
  destruct (waterGibbsModel_base_total T P opt) as [G HG].
  split.
  - intros Hu Hn. unfold GibbsModel.waterGibbsModel.
    destruct (model opt); [|rewrite HG]; cbn [bind ret];
      unfold GibbsModel.maybeOverrideWithPsatGibbs;
      rewrite Hu, Hn; reflexivity.
  - intro Hoff.
    assert (Eo : forall g,
              GibbsModel.maybeOverrideWithPsatGibbs psat T P opt g = g).
    { intro g. unfold GibbsModel.maybeOverrideWithPsatGibbs.
      destruct (usePsatPolynomials opt) eqn:Eu; [|reflexivity].
      cbn [negb]. unfold GibbsModel.isNearPsat, GibbsModel.saturationPressure.
      destruct Hoff as [Hf | [Ht | Hp]]; [discriminate | |].
      - assert (E : Qle_bool (psatRelativeTolerance opt) 0.0 = true)
          by (apply Qle_bool_iff; lra).
        rewrite E. reflexivity.
      - destruct (Qle_bool (psatRelativeTolerance opt) 0.0);
          [reflexivity|].
        assert (E : Qlt_bool 0.0 (psat T) = false)
          by (apply Qlt_bool_false; lra).
        rewrite E. reflexivity. }
    unfold GibbsModel.waterGibbsModel.
    destruct (model opt); [|rewrite HG]; cbn [bind ret]; rewrite Eo;
      reflexivity.
Qed.

End SaturationOverrides.

Lemma saturation_density_routes_agree_witness :
  thermo_usePsatPolynomials SamplesPsat.thermoZD05Psat = true /\
  ThermoModel.isNearPsatWagnerPruss Inputs.psat_1atm 373.15 101325
    (thermo_psatRelativeTolerance SamplesPsat.thermoZD05Psat) = true /\
  usePsat SamplesPsat.zd09AlongPsat = true /\
  D (ThermoModel.waterThermoPropsModel LibmQ.exp_q Inputs.psat_1atm Q
       Inputs.helmholtz_linear Inputs.helmholtz_linear
       Inputs.thermoProps_of_density 373.15 101325
       SamplesPsat.thermoZD05Psat)
    == PsatPolynomials.waterPsatDensityDEW 373.15 /\
  D (ZD09.waterThermoPropsZhangDuan2009 LibmQ.exp_q 373.15 101325
       SamplesPsat.zd09AlongPsat)
    == PsatPolynomials.waterPsatDensityDEW 373.15.
Proof.
  assert (H1 : thermo_usePsatPolynomials SamplesPsat.thermoZD05Psat = true)
    by reflexivity.
  assert (H2 : ThermoModel.isNearPsatWagnerPruss Inputs.psat_1atm 373.15
                 101325
                 (thermo_psatRelativeTolerance SamplesPsat.thermoZD05Psat)
               = true) by (vm_compute; reflexivity).
  assert (H3 : usePsat SamplesPsat.zd09AlongPsat = true) by reflexivity.
  split; [exact H1|]. split; [exact H2|]. split; [exact H3|].
  destruct (saturation_density_routes_agree LibmQ.exp_q Inputs.psat_1atm Q
              Inputs.helmholtz_linear Inputs.helmholtz_linear
              Inputs.thermoProps_of_density 373.15 101325
              SamplesPsat.thermoZD05Psat SamplesPsat.zd09AlongPsat)
    as [A [B _]].
  split; [exact (proj1 (A H1 (or_introl eq_refl) H2)) | exact (B H3)].
Defined.

Lemma dielectric_saturation_override_witness :
  (DielectricModel.psatMode SamplesPsat.dielectricForcePsat
     = DielectricModel.ForcePsat \/
   (DielectricModel.psatMode SamplesPsat.dielectricForcePsat
      = DielectricModel.UsePsatWhenNear /\
    DielectricModel.isNearPsat Inputs.psat_1atm 573.15 500000000
      (DielectricModel.psatRelativeTolerance SamplesPsat.dielectricForcePsat)
    = true)) /\
  epsilon (DielectricModel.waterElectroPropsModel LibmQ.exp_q Samples.sqrt_q
             LibmQ.pow_q Inputs.psat_1atm Inputs.epsilon_const
             Inputs.depsdrho_const 573.15 500000000 (Inputs.waterAt 900)
             SamplesPsat.dielectricForcePsat)
    = PsatPolynomials.waterPsatEpsilonDEW 573.15.
Proof.
  assert (H : DielectricModel.psatMode SamplesPsat.dielectricForcePsat
                = DielectricModel.ForcePsat \/
              (DielectricModel.psatMode SamplesPsat.dielectricForcePsat
                 = DielectricModel.UsePsatWhenNear /\
               DielectricModel.isNearPsat Inputs.psat_1atm 573.15 500000000
                 (DielectricModel.psatRelativeTolerance
                    SamplesPsat.dielectricForcePsat) = true))
    by (left; reflexivity).
  split; [exact H|].
  exact (proj1 (dielectric_saturation_override LibmQ.exp_q Samples.sqrt_q
                  LibmQ.pow_q Inputs.psat_1atm Inputs.epsilon_const
                  Inputs.depsdrho_const 573.15 500000000 (Inputs.waterAt 900)
                  SamplesPsat.dielectricForcePsat H)).
Defined.

Lemma water_gibbs_saturation_override_witness :
  usePsatPolynomials SamplesPsat.gibbsNearPsat = true /\
  GibbsModel.isNearPsat Inputs.psat_1atm 373.15 101325
    (psatRelativeTolerance SamplesPsat.gibbsNearPsat) = true /\
  GibbsModel.waterGibbsModel LibmQ.exp_q Inputs.psat_1atm Q
    Inputs.helmholtz_linear Inputs.helmholtz_linear
    Inputs.thermoProps_of_density 373.15 101325 SamplesPsat.gibbsNearPsat
  = Some (PsatPolynomials.waterPsatGibbsDEW 373.15).
Proof.
  assert (H1 : usePsatPolynomials SamplesPsat.gibbsNearPsat = true)
    by reflexivity.
  assert (H2 : GibbsModel.isNearPsat Inputs.psat_1atm 373.15 101325
                 (psatRelativeTolerance SamplesPsat.gibbsNearPsat) = true)
    by (vm_compute; reflexivity).
  split; [exact H1|]. split; [exact H2|].
  exact (proj1 (water_gibbs_saturation_override LibmQ.exp_q Inputs.psat_1atm
                  Q Inputs.helmholtz_linear Inputs.helmholtz_linear
                  Inputs.thermoProps_of_density 373.15 101325
                  SamplesPsat.gibbsNearPsat) H1 H2).
Defined.

(** ** The aggregated water state and the solute model *)

Section WaterStateFacts.
Variables (exp log sqrt : Q -> Q) (pow : Q -> Q -> Q).
Variable psat : Q -> Q.
Variable WaterHelmholtzProps : Type.
Variables whpWagnerPruss whpHGK : Q -> Q -> WaterHelmholtzProps.
Variable thermoProps : Q -> Q -> WaterHelmholtzProps -> WaterThermoProps.
Variables (epsilon_jn depsdrho_jn : Q -> Q -> Q).

Abbreviation waterState :=
  (State.waterState exp log sqrt pow psat WaterHelmholtzProps
     whpWagnerPruss whpHGK thermoProps epsilon_jn depsdrho_jn).
Abbreviation thermoModel :=
  (ThermoModel.waterThermoPropsModel exp psat WaterHelmholtzProps
     whpWagnerPruss whpHGK thermoProps).
Abbreviation dielectricModel :=
  (DielectricModel.waterElectroPropsModel exp sqrt pow psat
     epsilon_jn depsdrho_jn).
Abbreviation evalfn :=
  (StandardThermoDEW.StandardThermoModelDEW exp log sqrt pow psat
     WaterHelmholtzProps whpWagnerPruss whpHGK thermoProps
     epsilon_jn depsdrho_jn).

(** The state is built from the two core models, whatever the optional
    subsystems do. *)
Lemma waterState_core (T P : Q) (opts : StateOptions.WaterStateOptions) :
  exists ws : State.WaterState,
    waterState T P opts = Some ws /\
    State.thermo ws = thermoModel T P (StateOptions.thermo opts) /\
    State.electro ws
    = dielectricModel T P (thermoModel T P (StateOptions.thermo opts))
        (StateOptions.dielectric opts) /\
    State.hasGibbs ws = StateOptions.computeGibbs opts /\
    State.hasSolventG ws = StateOptions.computeSolventG opts /\
    State.hasOmega ws = false /\
    State.omega ws = 0.0 /\ State.domega_dP ws = 0.0.
Proof.
  unfold State.waterState.
  generalize (thermoModel T P (StateOptions.thermo opts)) as wt. intro wt.
  cbv zeta.
  generalize (dielectricModel T P wt (StateOptions.dielectric opts)) as we.
  intro we.
  destruct (StateOptions.computeGibbs opts).
  - destruct (waterGibbsModel_total exp psat WaterHelmholtzProps
                whpWagnerPruss whpHGK thermoProps T P
                (StateOptions.gibbs opts)) as [G HG].
    rewrite HG. cbn [bind ret].
    eexists. split; [reflexivity|]. cbn [State.thermo State.electro
      State.hasGibbs State.hasSolventG State.hasOmega State.omega
      State.domega_dP fst snd].
    repeat split; try reflexivity;
      destruct (StateOptions.computeSolventG opts);
      destruct (StateOptions.computeOmega opts); reflexivity.
  - cbn [bind ret].
    eexists. split; [reflexivity|]. cbn [State.thermo State.electro
      State.hasGibbs State.hasSolventG State.hasOmega State.omega
      State.domega_dP fst snd].
    repeat split; try reflexivity;
      destruct (StateOptions.computeSolventG opts);
      destruct (StateOptions.computeOmega opts); reflexivity.
Qed.

(** X12.  The aggregated water state.  [waterState] always returns a
    state; its density record is that of the EOS selector and its
    dielectric record is computed from that density record; [hasGibbs] and
    [hasSolventG] repeat the request flags; and the Born omega of the state
    is never evaluated: [hasOmega] is false and [omega] and [domega_dP] are
    zero for every option set, [computeOmega] included. *)
Theorem water_state_never_evaluates_born_omega
    (T P : Q) (opts : StateOptions.WaterStateOptions) :
  exists ws : State.WaterState,
    waterState T P opts = Some ws /\
    State.thermo ws = thermoModel T P (StateOptions.thermo opts) /\
    State.electro ws
    = dielectricModel T P (State.thermo ws) (StateOptions.dielectric opts) /\
    State.hasGibbs ws = StateOptions.computeGibbs opts /\
    State.hasSolventG ws = StateOptions.computeSolventG opts /\
    State.hasOmega ws = false /\
    State.omega ws = 0.0 /\ State.domega_dP ws = 0.0.
Proof.
  destruct (waterState_core T P opts)
    as [ws [E [H1 [H2 [H3 [H4 [H5 [H6 H7]]]]]]]].
  exists ws. rewrite H1 at 2.
  repeat split; assumption.
Qed.

End WaterStateFacts.

Section SoluteModelFacts.
Variables (exp log sqrt : Q -> Q) (pow : Q -> Q -> Q).
Variable psat : Q -> Q.
Variable WaterHelmholtzProps : Type.
Variables whpWagnerPruss whpHGK : Q -> Q -> WaterHelmholtzProps.
Variable thermoProps : Q -> Q -> WaterHelmholtzProps -> WaterThermoProps.
Variables (epsilon_jn depsdrho_jn : Q -> Q -> Q).

Abbreviation waterState :=
  (State.waterState exp log sqrt pow psat WaterHelmholtzProps
     whpWagnerPruss whpHGK thermoProps epsilon_jn depsdrho_jn).
Abbreviation thermoModel :=
  (ThermoModel.waterThermoPropsModel exp psat WaterHelmholtzProps
     whpWagnerPruss whpHGK thermoProps).
Abbreviation dielectricModel :=
  (DielectricModel.waterElectroPropsModel exp sqrt pow psat
     epsilon_jn depsdrho_jn).
Abbreviation evalfn :=
  (StandardThermoDEW.StandardThermoModelDEW exp log sqrt pow psat
     WaterHelmholtzProps whpWagnerPruss whpHGK thermoProps
     epsilon_jn depsdrho_jn).

(** The density record and the dielectric record that the solute model
    reads from the water state. *)
Abbreviation soluteThermo T P wo :=
  (thermoModel T P
     (StateOptions.thermo (StandardThermoDEW.configureWaterStateOptions wo))).
Abbreviation soluteElectro T P wo :=
  (dielectricModel T P (soluteThermo T P wo)
     (StateOptions.dielectric
        (StandardThermoDEW.configureWaterStateOptions wo))).

Lemma solute_water_state (T P : Q) (wo : ModelOptions.WaterModelOptions) :
  exists ws : State.WaterState,
    waterState T P (StandardThermoDEW.configureWaterStateOptions wo)
      = Some ws /\
    State.thermo ws = soluteThermo T P wo /\
    State.electro ws = soluteElectro T P wo.
Proof.
  destruct (waterState_core exp log sqrt pow psat WaterHelmholtzProps
              whpWagnerPruss whpHGK thermoProps epsilon_jn depsdrho_jn
              T P (StandardThermoDEW.configureWaterStateOptions wo))
    as [ws [E [H1 [H2 _]]]].
  exists ws. repeat split; assumption.
Qed.

(** X13.  The solute model does not read the Gibbs energy of water.  The
    six standard properties returned by [StandardThermoModelDEW] are the
    same for the two water Gibbs formulations: the water state is asked for
    the Gibbs energy (5000 integration steps for the integral model) and
    the result is not used. *)
Theorem standard_thermo_model_ignores_water_gibbs
    (params : StandardThermoDEW.StandardThermoModelParamsDEW)
    (g : WaterGibbsModel) (T P : Q) :
  evalfn (Params.withGibbsModel g params) T P = evalfn params T P.
Proof.
  unfold StandardThermoDEW.StandardThermoModelDEW. cbv zeta.
  destruct (solute_water_state T P (StandardThermoDEW.waterOptions params))
    as [ws [E [H1 H2]]].
  destruct (solute_water_state T P
              (StandardThermoDEW.waterOptions
                 (Params.withGibbsModel g params)))
    as [ws' [E' [H1' H2']]].
  rewrite E, E'. cbn [bind].
  rewrite H1, H2, H1', H2'.
  reflexivity.
Qed.

(** X14.  The solute model with the Born model off.  With
    [bornModel = None] the Born coefficient and its derivatives are taken as
    zero: the volume, its two derivatives and the heat capacity are the
    non-solvation terms of the HKF equations and do not depend on the water
    models, while the Gibbs energy and the enthalpy keep the reference-state
    terms in [wref], [Zr] and [Yr]. *)
Theorem standard_thermo_model_without_born_model
    (params : StandardThermoDEW.StandardThermoModelParamsDEW) (T P : Q) :
  ModelOptions.bornModel (StandardThermoDEW.waterOptions params)
    = ModelOptions.BornModel_None ->
  let Tth := T - StandardThermoDEW.theta in
  let psiP := StandardThermoDEW.psi + P in
  let psiPr := StandardThermoDEW.psi + StandardThermoDEW.Pr in
  let a1 := StandardThermoDEW.a1 params in
  let a2 := StandardThermoDEW.a2 params in
  let a3 := StandardThermoDEW.a3 params in
  let a4 := StandardThermoDEW.a4 params in
  let c1 := StandardThermoDEW.c1 params in
  let c2 := StandardThermoDEW.c2 params in
  let wr := StandardThermoDEW.wref params in
  let Tr := StandardThermoDEW.Tr in
  let Pr := StandardThermoDEW.Pr in
  let theta := StandardThermoDEW.theta in
  exists props : StandardThermoDEW.StandardThermoProps,
    evalfn params T P = Some props /\
    StandardThermoDEW.V0 props
      == a1 + a2 / psiP + (a3 + a4 / psiP) / Tth /\
    StandardThermoDEW.VT0 props == - (a3 + a4 / psiP) / (Tth * Tth) /\
    StandardThermoDEW.VP0 props
      == - a2 / (psiP * psiP) - a4 / (psiP * psiP * Tth) /\
    StandardThermoDEW.Cp0 props
      == c1 + c2 / (Tth * Tth)
         - 2.0 * T / (Tth * (Tth * Tth))
           * (a3 * (P - Pr) + a4 * log (psiP / psiPr)) /\
    StandardThermoDEW.G0 props
      == StandardThermoDEW.Gf params
         - StandardThermoDEW.Sr params * (T - Tr)
         - c1 * (T * log (T / Tr) - T + Tr)
         + a1 * (P - Pr) + a2 * log (psiP / psiPr)
         - c2 * ((1.0 / (T - theta) - 1.0 / (Tr - theta)) * (theta - T)
                 / theta
                 - T / (theta * theta)
                   * log (Tr / T * (T - theta) / (Tr - theta)))
         + 1.0 / Tth * (a3 * (P - Pr) + a4 * log (psiP / psiPr))
         + wr * (StandardThermoDEW.Zr + 1)
         + wr * StandardThermoDEW.Yr * (T - Tr) /\
    StandardThermoDEW.H0 props
      == StandardThermoDEW.Hf params + c1 * (T - Tr)
         - c2 * (1.0 / Tth - 1.0 / (Tr - theta))
         + a1 * (P - Pr) + a2 * log (psiP / psiPr)
         + (2.0 * T - theta) / (Tth * Tth)
           * (a3 * (P - Pr) + a4 * log (psiP / psiPr))
         + wr * (StandardThermoDEW.Zr + 1)
         - wr * Tr * StandardThermoDEW.Yr.
Proof.
  intros Hb. cbv zeta.
  unfold StandardThermoDEW.StandardThermoModelDEW. cbv zeta.
  destruct (solute_water_state T P (StandardThermoDEW.waterOptions params))
    as [ws [E [H1 H2]]].
  rewrite E, Hb. cbn [bind StandardThermoDEW.bornModelEnabled ret].
  generalize (State.electro ws) as we. intro we.
  eexists. split; [reflexivity|].
  cbn [StandardThermoDEW.V0 StandardThermoDEW.VT0 StandardThermoDEW.VP0
       StandardThermoDEW.Cp0 StandardThermoDEW.G0 StandardThermoDEW.H0].
  set (Tth := T - StandardThermoDEW.theta).
  set (psiP := StandardThermoDEW.psi + P).
  generalize (log (psiP / (StandardThermoDEW.psi + StandardThermoDEW.Pr)))
    as L1.
  generalize (log (T / StandardThermoDEW.Tr)) as L2.
  generalize (log (StandardThermoDEW.Tr / T * Tth
                   / (StandardThermoDEW.Tr - StandardThermoDEW.theta)))
    as L3.
  intros L3 L2 L1.
  unfold Qdiv.
  generalize (/ psiP) as ipsiP. generalize (/ Tth) as iTth.
  generalize (/ (Tth * Tth)) as iTth2.
  generalize (/ (Tth * (Tth * Tth))) as iTth3.
  generalize (/ (psiP * psiP)) as ipsiP2.
  generalize (/ (psiP * psiP * Tth)) as ipsiP2T.
  generalize (/ (StandardThermoDEW.Tr - StandardThermoDEW.theta)) as iTrt.
  generalize (/ StandardThermoDEW.theta) as ith.
  generalize (/ (StandardThermoDEW.theta * StandardThermoDEW.theta)) as ith2.
  intros.
  split; [ring|]. split; [ring|]. split; [ring|]. split; [ring|].
  split; ring.
Qed.

(** Above the cutoff of the default Born options, and for a neutral
    species, the Born functions short-circuit. *)
Lemma solute_born_short_circuit (P charge : Q) :
  charge == 0 \/ 600000000 < P ->
  born_short_circuit P charge defaultWaterBornOmegaOptions = true.
Proof.
  intro H. apply (proj2 (born_short_circuit_true exp log pow psat P charge _)).
  destruct H as [H | H]; [left; exact H|].
  right. right. unfold defaultWaterBornOmegaOptions.
  cbn [maxPressureForVariation]. lra.
Qed.

(** X15.  The solute model where the Born coefficient does not vary.  The
    solute model passes default Born options, so the cutoff of 6000 bar
    cannot be changed through its parameters: with the Born model on, for a
    neutral species or a pressure above 6000 bar, the Born coefficient is
    the reference value [wref] and its pressure derivative is zero.  The
    volume then carries the solvation term [- wref * Q], the pressure
    derivative of the volume the term [- wref * N], and the Gibbs energy the
    term [wref * (Zr - Z)], with Z, Q and N of the dielectric record of the
    water state. *)
Theorem standard_thermo_model_constant_born_coefficient
    (params : StandardThermoDEW.StandardThermoModelParamsDEW) (T P : Q) :
  ModelOptions.bornModel (StandardThermoDEW.waterOptions params)
    = ModelOptions.Shock92Dew ->
  StandardThermoDEW.charge params == 0 \/ 600000000 < P ->
  let we := soluteElectro T P (StandardThermoDEW.waterOptions params) in
  let Tth := T - StandardThermoDEW.theta in
  let psiP := StandardThermoDEW.psi + P in
  let psiPr := StandardThermoDEW.psi + StandardThermoDEW.Pr in
  let a1 := StandardThermoDEW.a1 params in
  let a2 := StandardThermoDEW.a2 params in
  let a3 := StandardThermoDEW.a3 params in
  let a4 := StandardThermoDEW.a4 params in
  let c1 := StandardThermoDEW.c1 params in
  let c2 := StandardThermoDEW.c2 params in
  let wr := StandardThermoDEW.wref params in
  let Tr := StandardThermoDEW.Tr in
  let Pr := StandardThermoDEW.Pr in
  let theta := StandardThermoDEW.theta in
  exists props : StandardThermoDEW.StandardThermoProps,
    evalfn params T P = Some props /\
    StandardThermoDEW.V0 props
      == a1 + a2 / psiP + (a3 + a4 / psiP) / Tth - wr * bornQ we /\
    StandardThermoDEW.VP0 props
      == - a2 / (psiP * psiP) - a4 / (psiP * psiP * Tth)
         - wr * bornN we /\
    StandardThermoDEW.G0 props
      == StandardThermoDEW.Gf params
         - StandardThermoDEW.Sr params * (T - Tr)
         - c1 * (T * log (T / Tr) - T + Tr)
         + a1 * (P - Pr) + a2 * log (psiP / psiPr)
         - c2 * ((1.0 / (T - theta) - 1.0 / (Tr - theta)) * (theta - T)
                 / theta
                 - T / (theta * theta)
                   * log (Tr / T * (T - theta) / (Tr - theta)))
         + 1.0 / Tth * (a3 * (P - Pr) + a4 * log (psiP / psiPr))
         + wr * (StandardThermoDEW.Zr - bornZ we)
         + wr * StandardThermoDEW.Yr * (T - Tr).
Proof.
  intros Hb Hs. cbv zeta.
  pose proof (solute_born_short_circuit P (StandardThermoDEW.charge params)
                Hs) as Hsc.
  unfold born_short_circuit in Hsc.
  unfold StandardThermoDEW.StandardThermoModelDEW. cbv zeta.
  destruct (solute_water_state T P (StandardThermoDEW.waterOptions params))
    as [ws [E [H1 H2]]].
  rewrite E, Hb. cbn [bind StandardThermoDEW.bornModelEnabled ret].
  unfold BornOmega.waterBornOmegaDEW, BornOmega.waterBornDOmegaDP_DEW.
  rewrite Hsc. rewrite H2.
  generalize (soluteElectro T P (StandardThermoDEW.waterOptions params))
    as we.
  intro we.
  eexists. split; [reflexivity|].
  cbn [StandardThermoDEW.V0 StandardThermoDEW.VT0 StandardThermoDEW.VP0
       StandardThermoDEW.Cp0 StandardThermoDEW.G0 StandardThermoDEW.H0].
  set (Tth := T - StandardThermoDEW.theta).
  set (psiP := StandardThermoDEW.psi + P).
  generalize (log (psiP / (StandardThermoDEW.psi + StandardThermoDEW.Pr)))
    as L1.
  generalize (log (T / StandardThermoDEW.Tr)) as L2.
  generalize (log (StandardThermoDEW.Tr / T * Tth
                   / (StandardThermoDEW.Tr - StandardThermoDEW.theta)))
    as L3.
  intros L3 L2 L1.
  unfold Qdiv.
  generalize (/ psiP) as ipsiP. generalize (/ Tth) as iTth.
  generalize (/ (psiP * psiP)) as ipsiP2.
  generalize (/ (psiP * psiP * Tth)) as ipsiP2T.
  generalize (/ (StandardThermoDEW.Tr - StandardThermoDEW.theta)) as iTrt.
  generalize (/ StandardThermoDEW.theta) as ith.
  generalize (/ (StandardThermoDEW.theta * StandardThermoDEW.theta)) as ith2.
  intros.
  split; [ring|]. split; ring.
Qed.

(** The dielectric models whose implementation is at hand leave the
    temperature parts Y, X and U of the Born coefficients at zero, and the
    saturation override keeps them there. *)
Lemma primary_model_temperature_parts (T P : Q) (wt : WaterThermoProps)
    (m : DielectricModel.WaterDielectricPrimaryModel) :
  m <> DielectricModel.JohnsonNorton1991 ->
  let we := DielectricModel.evaluatePrimaryModel exp sqrt pow
              epsilon_jn depsdrho_jn T P wt m in
  bornY we = 0.0 /\ bornX we = 0.0 /\ bornU we = 0.0.
Proof.
  intros Hm we. subst we.
  destruct m; [congruence | | |]; split; try split; reflexivity.
Qed.

Lemma dielectric_model_temperature_parts (T P : Q) (wt : WaterThermoProps)
    (opts : DielectricModel.WaterDielectricModelOptions) :
  DielectricModel.primary opts <> DielectricModel.JohnsonNorton1991 ->
  let we := dielectricModel T P wt opts in
  bornY we = 0.0 /\ bornX we = 0.0 /\ bornU we = 0.0.
Proof.
  intros Hm we. subst we.
  destruct (primary_model_temperature_parts T P wt
              (DielectricModel.primary opts) Hm) as [HY [HX HU]].
  unfold DielectricModel.waterElectroPropsModel.
  revert HY HX HU.
  generalize (DielectricModel.evaluatePrimaryModel exp sqrt pow
                epsilon_jn depsdrho_jn T P wt (DielectricModel.primary opts))
    as we0.
  intros we0 HY HX HU. cbv zeta.
  assert (Ho : let we := DielectricModel.applyPsatOverrides T opts we0 in
               bornY we = 0.0 /\ bornX we = 0.0 /\ bornU we = 0.0).
  { unfold DielectricModel.applyPsatOverrides.
    generalize (PsatPolynomials.waterPsatEpsilonDEW T) as eps.
    generalize (PsatPolynomials.waterPsatBornQDEW T) as Qp.
    intros Qp eps. cbn [bornY bornX bornU].
    split; [exact HY|]. split; reflexivity. }
  cbv zeta in Ho.
  destruct (DielectricModel.psatMode opts).
  - split; [exact HY|]. split; [exact HX | exact HU].
  - destruct (DielectricModel.isNearPsat psat T P
                (DielectricModel.psatRelativeTolerance opts)).
    + exact Ho.
    + split; [exact HY|]. split; [exact HX | exact HU].
  - exact Ho.
Qed.

(** X16.  The heat capacity of a solute has no solvation term.  For the
    Franck, Fernandez and power-function dielectric models the parts Y, X
    and U of the Born coefficients are zero, so the temperature derivatives
    of the Born coefficient that the solute model forms from them are zero
    (Z not zero, so that the quotients by Z are defined): the heat capacity
    and the temperature derivative of the volume are the non-solvation terms
    alone, with the Born model on as with it off, whatever the charge and
    the reference Born coefficient. *)
Theorem standard_thermo_model_heat_capacity_without_born_term
    (params : StandardThermoDEW.StandardThermoModelParamsDEW) (T P : Q) :
  ModelOptions.dielectricModel (StandardThermoDEW.waterOptions params)
    <> JohnsonNorton1991 ->
  (ModelOptions.bornModel (StandardThermoDEW.waterOptions params)
     = ModelOptions.Shock92Dew ->
   ~ bornZ (soluteElectro T P (StandardThermoDEW.waterOptions params))
     == 0) ->
  let Tth := T - StandardThermoDEW.theta in
  let psiP := StandardThermoDEW.psi + P in
  let psiPr := StandardThermoDEW.psi + StandardThermoDEW.Pr in
  let a3 := StandardThermoDEW.a3 params in
  let a4 := StandardThermoDEW.a4 params in
  let c1 := StandardThermoDEW.c1 params in
  let c2 := StandardThermoDEW.c2 params in
  exists props : StandardThermoDEW.StandardThermoProps,
    evalfn params T P = Some props /\
    StandardThermoDEW.Cp0 props
      == c1 + c2 / (Tth * Tth)
         - 2.0 * T / (Tth * (Tth * Tth))
           * (a3 * (P - StandardThermoDEW.Pr) + a4 * log (psiP / psiPr)) /\
    StandardThermoDEW.VT0 props == - (a3 + a4 / psiP) / (Tth * Tth).
Proof.
  intros Hm HZ. cbv zeta.
  assert (Hp : DielectricModel.primary
                 (StateOptions.dielectric
                    (StandardThermoDEW.configureWaterStateOptions
                       (StandardThermoDEW.waterOptions params)))
               <> DielectricModel.JohnsonNorton1991).
  { unfold StandardThermoDEW.configureWaterStateOptions.
    cbn [StateOptions.dielectric DielectricModel.primary].
    destruct (ModelOptions.dielectricModel
                (StandardThermoDEW.waterOptions params));
      [congruence | | |]; discriminate. }
  destruct (dielectric_model_temperature_parts T P
              (soluteThermo T P (StandardThermoDEW.waterOptions params))
              _ Hp) as [HY [HX HU]].
  unfold StandardThermoDEW.StandardThermoModelDEW. cbv zeta.
  destruct (solute_water_state T P (StandardThermoDEW.waterOptions params))
    as [ws [E [H1 H2]]].
  rewrite E. cbn [bind ret]. rewrite H2.
  revert HY HX HU.
  generalize (soluteElectro T P (StandardThermoDEW.waterOptions params))
    as we.
  intros we HY HX HU.
  generalize (BornOmega.waterBornOmegaDEW pow psat T P (State.thermo ws)
                (StandardThermoDEW.wref params)
                (StandardThermoDEW.charge params)
                defaultWaterBornOmegaOptions) as w.
  generalize (BornOmega.waterBornDOmegaDP_DEW exp log pow psat T P
                (State.thermo ws) (StandardThermoDEW.wref params)
                (StandardThermoDEW.charge params)
                defaultWaterBornOmegaOptions) as wP.
  intros wP w.
  destruct (StandardThermoDEW.bornModelEnabled
              (ModelOptions.bornModel
                 (StandardThermoDEW.waterOptions params)));
    (eexists; split; [reflexivity|]);
    cbn [StandardThermoDEW.V0 StandardThermoDEW.VT0 StandardThermoDEW.VP0
         StandardThermoDEW.Cp0 StandardThermoDEW.G0 StandardThermoDEW.H0];
    rewrite HY, HX, HU;
    set (Tth := T - StandardThermoDEW.theta);
    set (psiP := StandardThermoDEW.psi + P);
    generalize (log (psiP / (StandardThermoDEW.psi + StandardThermoDEW.Pr)))
      as L1;
    unfold Qdiv;
    generalize (/ psiP) as ipsiP;
    generalize (/ (Tth * Tth)) as iTth2;
    generalize (/ (Tth * (Tth * Tth))) as iTth3;
    generalize (/ bornZ we) as iZ;
    intros; (split; ring).
Qed.


End SoluteModelFacts.

Lemma standard_thermo_model_without_born_model_witness :
  ModelOptions.bornModel
    (StandardThermoDEW.waterOptions
       (Params.anion
          (Params.waterOptionsWith PowerFunction
             ModelOptions.BornModel_None)))
    = ModelOptions.BornModel_None /\
  exists props : StandardThermoDEW.StandardThermoProps,
    StandardThermoDEW.StandardThermoModelDEW LibmQ.exp_q LibmQ.log_q
      Samples.sqrt_q LibmQ.pow_q Inputs.psat_1atm Q Inputs.helmholtz_linear
      Inputs.helmholtz_linear Inputs.thermoProps_of_density
      Inputs.epsilon_const Inputs.depsdrho_const
      (Params.anion
         (Params.waterOptionsWith PowerFunction ModelOptions.BornModel_None))
      573.15 500000000 = Some props /\
    StandardThermoDEW.V0 props
      == 0.0000168 + 2009 / (StandardThermoDEW.psi + 500000000)
         + (0.0002336 + -119300 / (StandardThermoDEW.psi + 500000000))
           / (573.15 - StandardThermoDEW.theta).
Proof.
  assert (H : ModelOptions.bornModel
                (StandardThermoDEW.waterOptions
                   (Params.anion
                      (Params.waterOptionsWith PowerFunction
                         ModelOptions.BornModel_None)))
              = ModelOptions.BornModel_None) by reflexivity.
  split; [exact H|].
  destruct (standard_thermo_model_without_born_model LibmQ.exp_q
              LibmQ.log_q Samples.sqrt_q LibmQ.pow_q Inputs.psat_1atm Q
              Inputs.helmholtz_linear Inputs.helmholtz_linear
              Inputs.thermoProps_of_density Inputs.epsilon_const
              Inputs.depsdrho_const
              (Params.anion
                 (Params.waterOptionsWith PowerFunction
                    ModelOptions.BornModel_None))
              573.15 500000000 H) as [props [E [HV _]]].
  exists props. split; [exact E | exact HV].
Defined.

Lemma standard_thermo_model_constant_born_coefficient_witness :
  ModelOptions.bornModel
    (StandardThermoDEW.waterOptions
       (Params.anion
          (Params.waterOptionsWith PowerFunction ModelOptions.Shock92Dew)))
    = ModelOptions.Shock92Dew /\
  (StandardThermoDEW.charge
     (Params.anion
        (Params.waterOptionsWith PowerFunction ModelOptions.Shock92Dew))
   == 0 \/ 600000000 < 700000000) /\
  exists props : StandardThermoDEW.StandardThermoProps,
    StandardThermoDEW.StandardThermoModelDEW LibmQ.exp_q LibmQ.log_q
      Samples.sqrt_q LibmQ.pow_q Inputs.psat_1atm Q Inputs.helmholtz_linear
      Inputs.helmholtz_linear Inputs.thermoProps_of_density
      Inputs.epsilon_const Inputs.depsdrho_const
      (Params.anion
         (Params.waterOptionsWith PowerFunction ModelOptions.Shock92Dew))
      573.15 700000000 = Some props /\
    StandardThermoDEW.V0 props
      == 0.0000168 + 2009 / (StandardThermoDEW.psi + 700000000)
         + (0.0002336 + -119300 / (StandardThermoDEW.psi + 700000000))
           / (573.15 - StandardThermoDEW.theta)
         - 609190
           * bornQ
               (DielectricModel.waterElectroPropsModel LibmQ.exp_q
                  Samples.sqrt_q LibmQ.pow_q Inputs.psat_1atm
                  Inputs.epsilon_const Inputs.depsdrho_const
                  573.15 700000000
                  (ThermoModel.waterThermoPropsModel LibmQ.exp_q
                     Inputs.psat_1atm Q Inputs.helmholtz_linear
                     Inputs.helmholtz_linear Inputs.thermoProps_of_density
                     573.15 700000000
                     (StateOptions.thermo
                        (StandardThermoDEW.configureWaterStateOptions
                           (Params.waterOptionsWith PowerFunction
                              ModelOptions.Shock92Dew))))
                  (StateOptions.dielectric
                     (StandardThermoDEW.configureWaterStateOptions
                        (Params.waterOptionsWith PowerFunction
                           ModelOptions.Shock92Dew)))).
Proof.
  assert (H1 : ModelOptions.bornModel
                 (StandardThermoDEW.waterOptions
                    (Params.anion
                       (Params.waterOptionsWith PowerFunction
                          ModelOptions.Shock92Dew)))
               = ModelOptions.Shock92Dew) by reflexivity.
  assert (H2 : StandardThermoDEW.charge
                 (Params.anion
                    (Params.waterOptionsWith PowerFunction
                       ModelOptions.Shock92Dew))
               == 0 \/ 600000000 < 700000000)
    by (right; apply Qlt_by_bool; vm_compute; reflexivity).
  split; [exact H1|]. split; [exact H2|].
  destruct (standard_thermo_model_constant_born_coefficient LibmQ.exp_q
              LibmQ.log_q Samples.sqrt_q LibmQ.pow_q Inputs.psat_1atm Q
              Inputs.helmholtz_linear Inputs.helmholtz_linear
              Inputs.thermoProps_of_density Inputs.epsilon_const
              Inputs.depsdrho_const
              (Params.anion
                 (Params.waterOptionsWith PowerFunction
                    ModelOptions.Shock92Dew))
              573.15 700000000 H1 H2) as [props [E [HV _]]].
  exists props. split; [exact E | exact HV].
Defined.

Lemma standard_thermo_model_heat_capacity_without_born_term_witness :
  ModelOptions.dielectricModel
    (StandardThermoDEW.waterOptions
       (Params.anion
          (Params.waterOptionsWith Franck1990 ModelOptions.Shock92Dew)))
    <> JohnsonNorton1991 /\
  ~ bornZ
      (DielectricModel.waterElectroPropsModel LibmQ.exp_q Samples.sqrt_q
         LibmQ.pow_q Inputs.psat_1atm Inputs.epsilon_const
         Inputs.depsdrho_const 500 200000000
         (ThermoModel.waterThermoPropsModel LibmQ.exp_q Inputs.psat_1atm Q
            Samples.helmholtz_constant Samples.helmholtz_constant
            Inputs.thermoProps_of_density 500 200000000
            (StateOptions.thermo
               (StandardThermoDEW.configureWaterStateOptions
                  (Params.waterOptionsWith Franck1990
                     ModelOptions.Shock92Dew))))
         (StateOptions.dielectric
            (StandardThermoDEW.configureWaterStateOptions
               (Params.waterOptionsWith Franck1990
                  ModelOptions.Shock92Dew)))) == 0 /\
  exists props : StandardThermoDEW.StandardThermoProps,
    StandardThermoDEW.StandardThermoModelDEW LibmQ.exp_q LibmQ.log_q
      Samples.sqrt_q LibmQ.pow_q Inputs.psat_1atm Q Samples.helmholtz_constant
      Samples.helmholtz_constant Inputs.thermoProps_of_density
      Inputs.epsilon_const Inputs.depsdrho_const
      (Params.anion
         (Params.waterOptionsWith Franck1990 ModelOptions.Shock92Dew))
      500 200000000 = Some props /\
    StandardThermoDEW.VT0 props
      == - (0.0002336 + -119300 / (StandardThermoDEW.psi + 200000000))
         / ((500 - StandardThermoDEW.theta)
            * (500 - StandardThermoDEW.theta)).
Proof.
  assert (H1 : ModelOptions.dielectricModel
                 (StandardThermoDEW.waterOptions
                    (Params.anion
                       (Params.waterOptionsWith Franck1990
                          ModelOptions.Shock92Dew)))
               <> JohnsonNorton1991) by discriminate.
  assert (H2 : ~ bornZ
      (DielectricModel.waterElectroPropsModel LibmQ.exp_q Samples.sqrt_q
         LibmQ.pow_q Inputs.psat_1atm Inputs.epsilon_const
         Inputs.depsdrho_const 500 200000000
         (ThermoModel.waterThermoPropsModel LibmQ.exp_q Inputs.psat_1atm Q
            Samples.helmholtz_constant Samples.helmholtz_constant
            Inputs.thermoProps_of_density 500 200000000
            (StateOptions.thermo
               (StandardThermoDEW.configureWaterStateOptions
                  (Params.waterOptionsWith Franck1990
                     ModelOptions.Shock92Dew))))
         (StateOptions.dielectric
            (StandardThermoDEW.configureWaterStateOptions
               (Params.waterOptionsWith Franck1990
                  ModelOptions.Shock92Dew)))) == 0)
    by (apply Qeq_bool_false; lazy; reflexivity).
  split; [exact H1|]. split; [exact H2|].
  destruct (standard_thermo_model_heat_capacity_without_born_term
              LibmQ.exp_q LibmQ.log_q Samples.sqrt_q LibmQ.pow_q
              Inputs.psat_1atm Q Samples.helmholtz_constant
              Samples.helmholtz_constant Inputs.thermoProps_of_density
              Inputs.epsilon_const Inputs.depsdrho_const
              (Params.anion
                 (Params.waterOptionsWith Franck1990
                    ModelOptions.Shock92Dew))
              500 200000000 H1 (fun _ => H2)) as [props [E [_ HVT]]].
  exists props. split; [exact E | exact HVT].
Defined.

